(** * Incentive / company matching pipeline: embedding and properties

    A shallow embedding of the matching core of the backend
    ([api/services/matching_service.py], [api/services/company_filter.py],
    [ai/vector_db.py], [ai/openai_client.py], [database/schema.py]), of the
    endpoint and the chatbot tool that drive it ([api/routers/matching.py],
    [agents/chatbot_tools.py], [database/service.py]), and the properties
    its specification states about it, followed by further properties read
    off the code.

    Conventions of the embedding:
    - Python values are an inductive type of JSON-like values; a [dict] is
      an association list in insertion order; an [int] is a [Z]; counts
      that the code only passes as non-negative numbers ([top_n], [LIMIT],
      [target_count]) are [nat].
    - A Python [float] is an IEEE-754 binary64 number (Rocq's primitive
      floats); literals such as 0.40 denote the nearest binary64 number.
    - A [str] is its UTF-8 byte string; the substring test is exact on
      it. [s.lower()], [s.split()], [len(s)], the regular expression of the
      keyword extraction, [float(s)] and the [.3f] format are parameters
      ([Py.builtins]); an instance for ASCII text is given.
    - An exception is the error side of a result type and remembers its
      class and message; [try ... except] is a match on the class.
    - The text of a completion enters as the outcome of [json.loads] on it.
    - The [matches] table is the list of its rows; every SQL statement runs
      on its own, as on a pooled connection without a transaction. The
      nearest-neighbour query and the completions of the AI client are
      capabilities of the environment.
    - The coroutines run one after the other; nothing is concurrent. *)

From Stdlib Require Import ZArith List String Ascii Bool Lia Floats DecimalString Sorted
  Permutation.
Import ListNotations.

Set Implicit Arguments.
(* 0.40, 0.35, 3.3 ... are read as the nearest binary64 number, as Python
   reads them. *)
#[local] Set Warnings "-inexact-float".
Local Open Scope string_scope.

(* ------------------------------------------------------------------ *)
(** ** Python values, exceptions and the builtins the code calls *)

Module Py.

(** Exception classes the matching code can meet. *)
Inductive exn_class :=
| JSONDecodeError | ValueError | KeyError
| AttributeError | TypeError | OverflowError | IndexError
| CheckViolationError | ForeignKeyViolationError.

(** A raised exception: its class and [str(e)]. *)
Record exn := Exn { exn_kind : exn_class; exn_msg : string }.

Inductive res (A : Type) :=
| Ok (a : A)
| Raise (e : exn).
Arguments Ok {A} a.
Arguments Raise {A} e.

Definition bind {A B} (m : res A) (k : A -> res B) : res B :=
  match m with
  | Ok a => k a
  | Raise e => Raise e
  end.

Declare Scope py_scope.
Delimit Scope py_scope with py.
Notation "x <- m ;; k" := (bind m (fun x => k))
  (at level 61, m at next level, right associativity) : py_scope.
Notation "' pat <- m ;; k" := (bind m (fun x => match x with pat => k end))
  (at level 61, pat pattern, m at next level, right associativity) : py_scope.

(** What [json.loads] builds, plus Python floats written back by the code.
    A [dict] keeps its insertion order, as Python's does. *)
#[local] Unset Elimination Schemes.
Inductive value :=
| VNone
| VBool (b : bool)
| VInt (z : Z)
| VFloat (f : float)
| VStr (s : string)
| VList (l : list value)
| VDict (d : list (string * value)).
#[local] Set Elimination Schemes.

Definition dict := list (string * value).

(** [d.get(k)]: the binding of [k], if any. *)
Fixpoint dict_lookup (k : string) (d : dict) : option value :=
  match d with
  | [] => None
  | (k', v) :: d' => if String.eqb k k' then Some v else dict_lookup k d'
  end.

(** [d.get(k, default)]. *)
Definition dict_get (k : string) (default : value) (d : dict) : value :=
  match dict_lookup k d with
  | Some v => v
  | None => default
  end.

(** [k in d]. *)
Definition dict_mem (k : string) (d : dict) : bool :=
  match dict_lookup k d with
  | Some _ => true
  | None => false
  end.

(** [d[k] = v]: overwrite in place, or append a new key at the end. *)
Fixpoint dict_set (k : string) (v : value) (d : dict) : dict :=
  match d with
  | [] => [(k, v)]
  | (k', v') :: d' =>
      if String.eqb k k' then (k, v) :: d' else (k', v') :: dict_set k v d'
  end.

(** [v.get(k, default)] on an arbitrary value: only a dict has [get]. *)
Definition value_get (v : value) (k : string) (default : value) : res value :=
  match v with
  | VDict d => Ok (dict_get k default d)
  | _ => Raise (Exn AttributeError "object has no attribute 'get'")
  end.

(** *** Floats *)

Local Open Scope float_scope.

(** [float(n)] for an int: the nearest binary64 number (ties to even). *)
Definition float_of_Z (z : Z) : float :=
  SF2Prim (binary_normalize prec emax z 0 false).

(** Python's [min(a, b)] and [max(a, b)] on two floats: the first argument
    unless the second is strictly smaller (resp. larger). *)
Definition py_min (a b : float) : float := if PrimFloat.ltb b a then b else a.
Definition py_max (a b : float) : float := if PrimFloat.ltb a b then b else a.

(** Exact comparison of a float with an integer, as Python's mixed
    comparisons do: [float_le_Z f z] is [f <= z], [Z_le_float z f] is
    [z <= f]. NaN compares false. *)
Definition float_le_Z (f : float) (z : Z) : bool :=
  match Prim2SF f with
  | S754_nan => false
  | S754_infinity s => s
  | S754_zero _ => (0 <=? z)%Z
  | S754_finite s m e =>
      let mz := if s then (- Z.pos m)%Z else Z.pos m in
      if (0 <=? e)%Z then (mz * 2 ^ e <=? z)%Z
      else (mz <=? z * 2 ^ (- e))%Z
  end.

Definition Z_le_float (z : Z) (f : float) : bool :=
  match Prim2SF f with
  | S754_nan => false
  | S754_infinity s => negb s
  | S754_zero _ => (z <=? 0)%Z
  | S754_finite s m e =>
      let mz := if s then (- Z.pos m)%Z else Z.pos m in
      if (0 <=? e)%Z then (z <=? mz * 2 ^ e)%Z
      else (z * 2 ^ (- e) <=? mz)%Z
  end.

(** The builtins whose results the code consumes but whose text is not
    the repository's: [float(s)] on a [str] ([inr msg] when it raises
    [ValueError] with message [msg]), the format specification [:.3f],
    and the text primitives [s.lower()], [s.split()], [len(s)] and
    [re.findall(r'\b\w{4,}\b', s)]. *)
Record builtins := {
  float_of_str : string -> float + string;
  format_3f : float -> string;
  str_lower : string -> string;
  str_split : string -> list string;
  str_len : string -> nat;
  findall_words4 : string -> list string
}.

(** [sub in s] on two [str]. *)
Fixpoint contains (s sub : string) : bool :=
  if String.prefix sub s then true
  else match s with
       | EmptyString => false
       | String _ s' => contains s' sub
       end.

(** [float(v)]. *)
Definition py_float (B : builtins) (v : value) : res float :=
  match v with
  | VFloat f => Ok f
  | VInt z =>
      let f := float_of_Z z in
      if PrimFloat.is_infinity f
      then Raise (Exn OverflowError "int too large to convert to float")
      else Ok f
  | VBool b => Ok (if b then 1 else 0)
  | VStr s =>
      match float_of_str B s with
      | inl f => Ok f
      | inr msg => Raise (Exn ValueError msg)
      end
  | VNone | VList _ | VDict _ =>
      Raise (Exn TypeError "float() argument must be a string or a real number")
  end.

End Py.

(* ------------------------------------------------------------------ *)
(** ** The builtins, computed

    Python's [float(str)], [repr(str)] and [format(x, '.3f')] written out for
    ASCII text, so that the embedding runs on concrete inputs. The
    properties below are proved for every [Py.builtins]; this instance only
    serves to evaluate the code on examples. *)

Module PyBuiltins.
Local Open Scope Z_scope.

(** Nearest binary64 number (ties to even) to [num / den], [num >= 0], [den > 0]. *)
Definition nearest_float (num den : Z) : float :=
  let s := Z.max 0 (64 + Z.log2 den - Z.log2 num) in
  let q := (num * 2 ^ s) / den in
  let sticky := if (num * 2 ^ s) mod den =? 0 then 0 else 1 in
  SF2Prim (binary_normalize prec emax (2 * q + sticky) (- (s + 1)) false).

Definition is_space (c : ascii) : bool :=
  let n := nat_of_ascii c in
  (Nat.eqb n 32 || (Nat.leb 9 n && Nat.leb n 13))%bool.

Fixpoint lstrip (l : list ascii) : list ascii :=
  match l with
  | c :: l' => if is_space c then lstrip l' else l
  | [] => []
  end.

Definition strip (l : list ascii) : list ascii := rev (lstrip (rev (lstrip l))).

Definition digit_of (c : ascii) : option Z :=
  let n := nat_of_ascii c in
  if (Nat.leb 48 n && Nat.leb n 57)%bool then Some (Z.of_nat (n - 48)) else None.

Definition ascii_lower (c : ascii) : ascii :=
  let n := nat_of_ascii c in
  if (Nat.leb 65 n && Nat.leb n 90)%bool then ascii_of_nat (n + 32) else c.

(** A run of digits, single underscores allowed between two digits:
    the digits read (value and count) and what follows them. *)
Fixpoint digits_from (acc : Z) (count : Z) (l : list ascii) : Z * Z * list ascii :=
  match l with
  | c :: l' =>
      match digit_of c with
      | Some d => digits_from (10 * acc + d) (count + 1) l'
      | None =>
          match l' with
          | c' :: _ =>
              if (Ascii.eqb c "_" && (0 <? count) && (match digit_of c' with Some _ => true | None => false end))%bool
              then digits_from acc count l'
              else (acc, count, l)
          | [] => (acc, count, l)
          end
      end
  | [] => (acc, count, l)
  end.

Definition split_sign (l : list ascii) : bool * list ascii :=
  match l with
  | "-"%char :: l' => (true, l')
  | "+"%char :: l' => (false, l')
  | _ => (false, l)
  end.

(** The optional exponent part: [Some e] when well formed or absent. *)
Definition exponent_of (l : list ascii) : option Z :=
  match l with
  | [] => Some 0
  | c :: l' =>
      if Ascii.eqb (ascii_lower c) "e" then
        let '(neg, l'') := split_sign l' in
        match digits_from 0 0 l'' with
        | (e, n, []) => if 0 <? n then Some (if neg then - e else e) else None
        | _ => None
        end
      else None
  end.

(** A decimal numeral without sign: mantissa and decimal exponent. *)
Definition decimal_of (l : list ascii) : option (Z * Z) :=
  let '(ip, ni, l1) := digits_from 0 0 l in
  let '(m, nf, l2) :=
    match l1 with
    | "."%char :: l1' => digits_from ip 0 l1'
    | _ => (ip, 0, l1)
    end in
  if 0 <? ni + nf then
    match exponent_of l2 with
    | Some e => Some (m, e - nf)
    | None => None
    end
  else None.

Definition float_of_decimal (m e : Z) : float :=
  if m =? 0 then 0%float
  else if 0 <=? e then nearest_float (m * 10 ^ e) 1
  else nearest_float m (10 ^ (- e)).

Definition hex_digit (n : nat) : ascii :=
  ascii_of_nat (if Nat.ltb n 10 then 48 + n else 87 + n).

(** [repr(s)] of a [str]. *)
Definition py_repr (s : string) : string :=
  let l := list_ascii_of_string s in
  let has c := existsb (Ascii.eqb c) l in
  let dq := ascii_of_nat 34 in
  let q := if (has "'"%char && negb (has dq))%bool then dq else "'"%char in
  let esc (c : ascii) : list ascii :=
    let n := nat_of_ascii c in
    if (Ascii.eqb c q || Ascii.eqb c "\"%char)%bool then ["\"%char; c]
    else if Nat.eqb n 10 then ["\"%char; "n"%char]
    else if Nat.eqb n 13 then ["\"%char; "r"%char]
    else if Nat.eqb n 9 then ["\"%char; "t"%char]
    else if (Nat.ltb n 32 || Nat.eqb n 127)%bool
         then ["\"%char; "x"%char; hex_digit (n / 16); hex_digit (n mod 16)]
    else [c] in
  string_of_list_ascii (q :: flat_map esc l ++ [q]).

(** [float(s)] on a [str]. *)
Definition float_of_string (s : string) : float + string :=
  let '(neg, body) := split_sign (strip (list_ascii_of_string s)) in
  let word := string_of_list_ascii (map ascii_lower body) in
  let signed (f : float) := if neg then (- f)%float else f in
  if (String.eqb word "inf" || String.eqb word "infinity")%bool then inl (signed infinity)
  else if String.eqb word "nan" then inl nan
  else
    match decimal_of body with
    | Some (m, e) => inl (signed (float_of_decimal m e))
    | None => inr ("could not convert string to float: " ++ py_repr s)
    end.

Definition pad3 (s : string) : string :=
  match String.length s with
  | 0%nat => "000" | 1%nat => "00" ++ s | 2%nat => "0" ++ s | _ => s
  end.

Definition string_of_Z (z : Z) : string := NilZero.string_of_uint (N.to_uint (Z.to_N z)).

(** Round a non-negative rational [num / den] to the nearest integer, ties
    to even. *)
Definition round_half_even (num den : Z) : Z :=
  let q := num / den in
  let r := num mod den in
  if 2 * r <? den then q
  else if den <? 2 * r then q + 1
  else if Z.even q then q else q + 1.

(** [format(f, '.3f')]. *)
Definition format_fixed3 (f : float) : string :=
  match Prim2SF f with
  | S754_nan => "nan"
  | S754_infinity s => if s then "-inf" else "inf"
  | S754_zero s => if s then "-0.000" else "0.000"
  | S754_finite s m e =>
      let thousandths :=
        if 0 <=? e then Z.pos m * 2 ^ e * 1000
        else round_half_even (Z.pos m * 1000) (2 ^ (- e)) in
      (if s then "-" else "") ++ string_of_Z (thousandths / 1000) ++ "."
        ++ pad3 (string_of_Z (thousandths mod 1000))
  end.


Definition is_split_space (c : ascii) : bool :=
  let n := nat_of_ascii c in
  (is_space c || (Nat.leb 28 n && Nat.leb n 31))%bool.

(** [s.lower()]. *)
Definition lower (s : string) : string :=
  string_of_list_ascii (map ascii_lower (list_ascii_of_string s)).

(** Maximal runs of characters satisfying [keep], in order; [cur] is the
    run being read, reversed. *)
Fixpoint runs (keep : ascii -> bool) (cur : list ascii) (l : list ascii)
  : list string :=
  let close := match cur with
               | [] => []
               | _ => [string_of_list_ascii (rev cur)]
               end in
  match l with
  | [] => close
  | c :: l' => if keep c then runs keep (c :: cur) l' else close ++ runs keep [] l'
  end.

(** [s.split()]. *)
Definition split (s : string) : list string :=
  runs (fun c => negb (is_split_space c)) [] (list_ascii_of_string s).

(** [\w]: letters, digits and the underscore. *)
Definition is_word (c : ascii) : bool :=
  let n := nat_of_ascii c in
  ((Nat.leb 48 n && Nat.leb n 57) || (Nat.leb 65 n && Nat.leb n 90)
   || (Nat.leb 97 n && Nat.leb n 122) || Nat.eqb n 95)%bool.

(** [re.findall(r'\b\w{4,}\b', s)]: the maximal runs of word characters
    that are at least four long. *)
Definition words4 (s : string) : list string :=
  filter (fun w => Nat.leb 4 (String.length w))
    (runs is_word [] (list_ascii_of_string s)).

Definition python : Py.builtins :=
  {| Py.float_of_str := float_of_string; Py.format_3f := format_fixed3;
     Py.str_lower := lower; Py.str_split := split;
     Py.str_len := String.length; Py.findall_words4 := words4 |}.

End PyBuiltins.

(* ------------------------------------------------------------------ *)
(** ** RelevanceRanker: [MatchingService._llm_rank_candidates] *)

Module Ranker.
Import Py.
Local Open Scope py_scope.
Local Open Scope Z_scope.

(** A row of [VectorDB.find_similar_companies]. *)
Record Candidate := {
  id : Z;
  company_name : string;
  cae_primary_label : option string;
  trade_description_native : option string;
  website : option string;
  similarity_score : float
}.

(** [class MatchingResult]; [score] is the float whose [str] the
    [Decimal] is built from. *)
Record MatchingResult := {
  company_id : Z;
  score : float;
  rank : Z;
  reasoning : dict
}.

(** A number in the [usage] dict of a completion. *)
Inductive number :=
| Int (z : Z)
| Float (f : float).

(** [response_data['content']], held as what [json.loads(response.strip())]
    makes of it; [NoText] is a completion whose content is [None]. *)
Inductive content :=
| NoText
| Undecodable (msg : string)
| Parsed (v : value).

(** What [ai_client.complete] returns. *)
Record ResponseData := {
  response : content;
  usage : list (string * number)
}.

Fixpoint usage_lookup (k : string) (u : list (string * number)) : option number :=
  match u with
  | [] => None
  | (k', n) :: u' => if String.eqb k k' then Some n else usage_lookup k u'
  end.

Section WithBuiltins.
Variable B : builtins.

(** [float(result.get(k, {}).get('score', 3))]. *)
Definition component_score (result : dict) (k : string) : res float :=
  c <- value_get (dict_get k (VDict []) result) "score" (VInt 3) ;;
  py_float B c.

(** [1 <= company_number <= len(candidates)], then the index
    [company_number - 1] when the test holds ([None] when it fails). A float
    that passes the test cannot index a list. *)
Definition candidate_index (company_number : value) (n : nat)
  : res (option nat) :=
  match company_number with
  | VInt z =>
      Ok (if (1 <=? z) && (z <=? Z.of_nat n) then Some (Z.to_nat (z - 1)) else None)
  | VBool b =>
      let z := if b then 1 else 0 in
      Ok (if (1 <=? z) && (z <=? Z.of_nat n) then Some (Z.to_nat (z - 1)) else None)
  | VFloat f =>
      if Z_le_float 1 f && float_le_Z f (Z.of_nat n)
      then Raise (Exn TypeError "list indices must be integers or slices, not float")
      else Ok None
  | VNone | VStr _ | VList _ | VDict _ =>
      Raise (Exn TypeError "'<=' not supported between instances of 'int' and this type")
  end.

(** The weighted formula, evaluated left to right as the source writes it. *)
Definition weighted_score (adequacao qualidade capacidade : float) : float :=
  ((adequacao * 0.40) + (qualidade * 0.35) + (capacidade * 0.25))%float.

(** [max(1.0, min(5.0, final_score))]. *)
Definition clamp_score (final_score : float) : float :=
  py_max 1.0%float (py_min 5.0%float final_score).

(** The first half of the loop body: the score of one entry and the entry
    with [final_score] written back when it was computed. *)
Definition entry_final_score (result : dict) : res (float * dict) :=
  if dict_mem "final_score" result then
    f <- py_float B (dict_get "final_score" VNone result) ;;
    Ok (f, result)
  else
    adequacao_score <- component_score result "adequacao_estrategia" ;;
    qualidade_score <- component_score result "qualidade" ;;
    capacidade_score <- component_score result "capacidade_execucao" ;;
    let f := weighted_score adequacao_score qualidade_score capacidade_score in
    Ok (f, dict_set "final_score" (VFloat f) result).

(** One turn of the loop over [enumerate(results_array[:top_n], 1)]:
    [None] when the entry is skipped. *)
Definition rank_entry (candidates : list Candidate) (rank : Z) (entry : value)
  : res (option MatchingResult) :=
  company_number <- value_get entry "company_number" (VInt rank) ;;
  idx <- candidate_index company_number (List.length candidates) ;;
  match idx, entry with
  | Some i, VDict result =>
      match nth_error candidates i with
      | Some company =>
          '(final_score, result) <- entry_final_score result ;;
          let final_score := clamp_score final_score in
          let result := dict_set "vector_similarity" (VFloat (similarity_score company)) result in
          sf <- component_score result "adequacao_estrategia" ;;
          let result := dict_set "strategic_fit" (VFloat sf) result in
          q <- component_score result "qualidade" ;;
          let result := dict_set "quality" (VFloat q) result in
          ec <- component_score result "capacidade_execucao" ;;
          let result := dict_set "execution_capacity" (VFloat ec) result in
          Ok (Some {| company_id := id company; score := final_score;
                      rank := rank; reasoning := result |})
      | None => Raise (Exn IndexError "list index out of range")
      end
  | _, _ => Ok None
  end.

(** The loop, [rank] counting from the position of the first entry. *)
Fixpoint rank_entries (candidates : list Candidate) (rank : Z)
  (entries : list value) : res (list MatchingResult) :=
  match entries with
  | [] => Ok []
  | entry :: rest =>
      r <- rank_entry candidates rank entry ;;
      rs <- rank_entries candidates (rank + 1) rest ;;
      Ok (match r with Some m => m :: rs | None => rs end)
  end.

(** The [try] block. *)
Definition parse_and_rank (candidates : list Candidate) (top_n : nat)
  (c : content) : res (list MatchingResult) :=
  match c with
  | NoText => Raise (Exn TypeError "'NoneType' object is not subscriptable")
  | Undecodable msg => Raise (Exn JSONDecodeError msg)
  | Parsed (VList results_array) =>
      rank_entries candidates 1 (firstn top_n results_array)
  | Parsed _ => Raise (Exn ValueError "Expected JSON array response")
  end.

(** [except (json.JSONDecodeError, ValueError, KeyError)]. *)
Definition handled (e : exn) : bool :=
  match exn_kind e with
  | JSONDecodeError | ValueError | KeyError => true
  | _ => false
  end.

Definition failed_component : value :=
  VDict [("score", VInt 3); ("reasoning", VStr "LLM parsing failed")].

Definition fallback_reasoning (company : Candidate) (e : exn) : dict :=
  [ ("adequacao_estrategia", failed_component);
    ("qualidade", failed_component);
    ("capacidade_execucao", failed_component);
    ("final_score", VFloat 3.0%float);
    ("vector_similarity", VFloat (similarity_score company));
    ("recommendation",
      VStr ("Selected by vector similarity ("
            ++ format_3f B (similarity_score company) ++ ")"));
    ("error", VStr (exn_msg e)) ].

(** The fallback loop over [enumerate(candidates[:top_n], 1)]. *)
Fixpoint fallback_from (rank : Z) (companies : list Candidate) (e : exn)
  : list MatchingResult :=
  match companies with
  | [] => []
  | company :: rest =>
      {| company_id := id company; score := 3.0%float; rank := rank;
         reasoning := fallback_reasoning company e |}
      :: fallback_from (rank + 1) rest e
  end.

Definition fallback_results (candidates : list Candidate) (top_n : nat)
  (e : exn) : list MatchingResult :=
  fallback_from 1 (firstn top_n candidates) e.

(** [llm_cost = response_data['usage'].get('total_cost', 0.0)]. *)
Definition llm_cost_of (rd : ResponseData) : number :=
  match usage_lookup "total_cost" (usage rd) with
  | Some n => n
  | None => Float 0.0%float
  end.

(** [_llm_rank_candidates], from the completion on. *)
Definition _llm_rank_candidates (candidates : list Candidate) (top_n : nat)
  (rd : ResponseData) : res (list MatchingResult * number) :=
  let llm_cost := llm_cost_of rd in
  match parse_and_rank candidates top_n (response rd) with
  | Ok matching_results => Ok (matching_results, llm_cost)
  | Raise e =>
      if handled e then Ok (fallback_results candidates top_n e, llm_cost)
      else Raise e
  end.

(** The scoring responses the [try] block gives up on: text that is not
    JSON, a JSON value that is not an array, and an array in which a score
    cannot be converted to a number (the loop raises an exception of a
    handled class). *)
Inductive fails_parsing (cands : list Candidate) (top_n : nat) : content -> Prop :=
| malformed_json (msg : string) :
    fails_parsing cands top_n (Undecodable msg)
| not_an_array (v : value) :
    (forall arr, v <> VList arr) -> fails_parsing cands top_n (Parsed v)
| bad_number (arr : list value) (e : exn) :
    rank_entries cands 1 (firstn top_n arr) = Raise e ->
    handled e = true ->
    fails_parsing cands top_n (Parsed (VList arr)).

End WithBuiltins.

(** The ranks [from, from+1, ...] of [n] consecutive positions. *)
Fixpoint positions (from : Z) (n : nat) : list Z :=
  match n with
  | O => []
  | S n' => from :: positions (from + 1) n'
  end.

(** The index of the candidate a turn keeps, [None] when the turn is
    skipped. *)
Definition named (n : nat) (r : Z) (entry : value) : option nat :=
  match entry with
  | VDict d =>
      match candidate_index (dict_get "company_number" (VInt r) d) n with
      | Ok (Some i) => Some i
      | _ => None
      end
  | _ => None
  end.

Fixpoint named_from (n : nat) (r : Z) (entries : list value) : list nat :=
  match entries with
  | [] => []
  | entry :: rest =>
      match named n r entry with
      | Some i => i :: named_from n (r + 1) rest
      | None => named_from n (r + 1) rest
      end
  end.

End Ranker.

(* ------------------------------------------------------------------ *)
(** ** The scoring capability: what [OpenAIClient.complete] and
       [GeminiClient.complete] return *)

Module AIClient.
Import Py Ranker.

(** An entry of [PRICING]: dollars per million tokens. *)
Record Pricing := {
  prompt : float;
  completion : float
}.

Definition gpt_4_1_mini : Pricing := {| prompt := 0.15; completion := 0.60 |}.
Definition gpt_5_mini : Pricing := {| prompt := 0.10; completion := 0.40 |}.

(** [_calculate_cost]. *)
Definition _calculate_cost (pricing : Pricing) (prompt_tokens completion_tokens : Z)
  : float :=
  let prompt_cost := (float_of_Z prompt_tokens / 1000000 * prompt pricing)%float in
  let completion_cost := (float_of_Z completion_tokens / 1000000 * completion pricing)%float in
  (prompt_cost + completion_cost)%float.

(** The dict [complete] returns for a completion with the given content
    and token counts: the cost of the call is stored under ["cost"]. *)
Definition complete (pricing : Pricing) (text : content)
  (prompt_tokens completion_tokens total_tokens : Z) : ResponseData :=
  {| response := text;
     usage := [ ("prompt_tokens", Int prompt_tokens);
                ("completion_tokens", Int completion_tokens);
                ("total_tokens", Int total_tokens);
                ("cost", Float (_calculate_cost pricing prompt_tokens completion_tokens)) ] |}.

End AIClient.

(* ------------------------------------------------------------------ *)
(** ** MatchStore: the [matches] table and [save_matches_to_database] *)

Module Store.
Import Py.
Local Open Scope Z_scope.

(** A row of [CREATE_MATCHES_TABLE]. [score] is kept as the number handed
    in (the column itself keeps four decimals of it); [reasoning] is the
    document whose [json.dumps] text is stored, [None] for SQL NULL. *)
Record MatchRow := {
  row_id : Z;
  incentive_id : Z;
  company_id : Z;
  score : float;
  rank_position : Z;
  reasoning : option dict;
  created_at : Z
}.

(** The tables as the upsert sees them: the primary keys the two foreign
    keys point to, the rows of [matches] and the sequence behind its
    [SERIAL] id. *)
Record Tables := {
  incentive_ids : list Z;
  company_ids : list Z;
  matches : list MatchRow;
  matches_id_seq : Z
}.

Definition mem (z : Z) (l : list Z) : bool := existsb (Z.eqb z) l.

(** [CHECK (score >= 0 AND score <= 5)]. *)
Definition check_score (s : float) : bool :=
  (PrimFloat.leb 0 s && PrimFloat.leb s 5)%bool.

(** [CHECK (rank_position >= 1 AND rank_position <= 5)]. *)
Definition check_rank_position (r : Z) : bool := (1 <=? r) && (r <=? 5).

(** The conflict target [(incentive_id, company_id)]. *)
Definition same_pair (i c : Z) (r : MatchRow) : bool :=
  (incentive_id r =? i) && (company_id r =? c).

(** [DO UPDATE SET score = EXCLUDED.score, rank_position = ...,
    reasoning = ..., created_at = NOW()] on the conflicting row. *)
Fixpoint do_update (now i c : Z) (s : float) (rk : Z) (rs : option dict)
  (rows : list MatchRow) : list MatchRow :=
  match rows with
  | [] => []
  | r :: rows' =>
      if same_pair i c r
      then {| row_id := row_id r; incentive_id := i; company_id := c;
              score := s; rank_position := rk; reasoning := rs;
              created_at := now |} :: rows'
      else r :: do_update now i c s rk rs rows'
  end.

(** One [INSERT ... ON CONFLICT (incentive_id, company_id) DO UPDATE]
    statement, run on its own (the connection opens no transaction): either
    it raises and only the sequence has moved, or the row is written. *)
Definition upsert (now i c : Z) (s : float) (rk : Z) (rs : option dict)
  (t : Tables) : res unit * Tables :=
  let id := matches_id_seq t in
  let moved := {| incentive_ids := incentive_ids t; company_ids := company_ids t;
                  matches := matches t; matches_id_seq := id + 1 |} in
  if negb (check_score s && check_rank_position rk) then
    (Raise (Exn CheckViolationError "new row violates check constraint"), moved)
  else if existsb (same_pair i c) (matches t) then
    (Ok tt, {| incentive_ids := incentive_ids t; company_ids := company_ids t;
               matches := do_update now i c s rk rs (matches t);
               matches_id_seq := id + 1 |})
  else if negb (mem i (incentive_ids t) && mem c (company_ids t)) then
    (Raise (Exn ForeignKeyViolationError "insert violates foreign key constraint"), moved)
  else
    (Ok tt, {| incentive_ids := incentive_ids t; company_ids := company_ids t;
               matches := matches t ++
                 [{| row_id := id; incentive_id := i; company_id := c;
                     score := s; rank_position := rk; reasoning := rs;
                     created_at := now |}];
               matches_id_seq := id + 1 |}).

(** [json.dumps(match.reasoning) if match.reasoning else None]. *)
Definition reasoning_column (d : dict) : option dict :=
  match d with
  | [] => None
  | _ => Some d
  end.

(** [save_matches_to_database]: one statement per match, in order, on a
    plain pooled connection; [now k] is [NOW()] at the [k]-th statement of
    the call. The first statement that raises ends the loop. *)
Fixpoint save_matches_to_database (now : nat -> Z) (incentive : Z)
  (matches : list Ranker.MatchingResult) (t : Tables) : res unit * Tables :=
  match matches with
  | [] => (Ok tt, t)
  | m :: rest =>
      match upsert (now 0%nat) incentive (Ranker.company_id m) (Ranker.score m)
              (Ranker.rank m) (reasoning_column (Ranker.reasoning m)) t with
      | (Ok _, t') =>
          save_matches_to_database (fun k => now (S k)) incentive rest t'
      | (Raise e, t') => (Raise e, t')
      end
  end.

(** What a reader of the table sees for one incentive
    ([WHERE m.incentive_id = $1]). *)
Definition rows_of (incentive : Z) (t : Tables) : list MatchRow :=
  filter (fun r => incentive_id r =? incentive) (matches t).

(** The conflict key of a row. *)
Definition pair (r : MatchRow) : Z * Z := (incentive_id r, company_id r).

Definition pairs (t : Tables) : list (Z * Z) := map pair (matches t).

(** The row holds what the match asks to store. *)
Definition writes (m : Ranker.MatchingResult) (r : MatchRow) : Prop :=
  score r = Ranker.score m
  /\ rank_position r = Ranker.rank m
  /\ reasoning r = reasoning_column (Ranker.reasoning m).

(** A row without its timestamp. *)
Definition forget (r : MatchRow) : MatchRow :=
  {| row_id := row_id r; incentive_id := incentive_id r; company_id := company_id r;
     score := score r; rank_position := rank_position r; reasoning := reasoning r;
     created_at := 0 |}.

Definition names_company (c : Z) (m : Ranker.MatchingResult) : bool :=
  Ranker.company_id m =? c.

(** The last match of the list that names company [c]. *)
Definition last_for (c : Z) (ms : list Ranker.MatchingResult)
  : option Ranker.MatchingResult :=
  find (names_company c) (rev ms).

(** The statements of a call when every one of them meets its row. *)
Fixpoint update_all (now : nat -> Z) (incentive : Z)
  (ms : list Ranker.MatchingResult) (rows : list MatchRow) : list MatchRow :=
  match ms with
  | [] => rows
  | m :: rest =>
      update_all (fun k => now (S k)) incentive rest
        (do_update (now 0%nat) incentive (Ranker.company_id m) (Ranker.score m)
           (Ranker.rank m) (reasoning_column (Ranker.reasoning m)) rows)
  end.

(** Two lists of rows that differ at most in the stored values of rows of
    this incentive whose company is in [cs]. *)
Definition agree (incentive : Z) (cs : list Z) (rows rows' : list MatchRow) : Prop :=
  Forall2 (fun r r' =>
             r = r'
             \/ (pair r = pair r' /\ row_id r = row_id r'
                 /\ incentive_id r = incentive /\ In (company_id r) cs))
          rows rows'.

End Store.

(* ------------------------------------------------------------------ *)
(** ** MatchOrchestrator: [match_companies_for_incentive] and
       [batch_match_all_incentives] *)

Module Orchestrator.
Import Py.
Local Open Scope Z_scope.

(** A row of the [incentives] table: the fields the orchestrator reads and
    the stored embedding (its text form; [None] for NULL). *)
Record IncentiveRow := {
  id : Z;
  title : string;
  embedding : option string
}.

(** The capabilities behind the service: the nearest-neighbour [SELECT] of
    [find_similar_companies] (given the incentive's embedding and the
    [LIMIT]), the completions of the AI client in call order, and the
    database clock. *)
Record Capabilities := {
  nearest : string -> nat -> list Ranker.Candidate;
  complete : nat -> res Ranker.ResponseData;
  clock : nat -> nat -> Z
}.

Record State := {
  incentives : list IncentiveRow;
  tables : Store.Tables;
  llm_calls : nat;
  saves : nat
}.

(** [DatabaseService.get_incentive_by_id]. *)
Definition get_incentive_by_id (st : State) (incentive_id : Z) : option IncentiveRow :=
  find (fun r => id r =? incentive_id) (incentives st).

(** [VectorDB.find_similar_companies]. *)
Definition find_similar_companies (E : Capabilities) (st : State)
  (incentive_id : Z) (limit : nat) : list Ranker.Candidate :=
  let incentive_embedding :=
    match find (fun r => id r =? incentive_id) (incentives st) with
    | Some r => embedding r
    | None => None
    end in
  match incentive_embedding with
  | None => []
  | Some EmptyString => []
  | Some e => nearest E e limit
  end.

(** [str(n)] for an int. *)
Definition str_of_int (z : Z) : string := NilZero.string_of_int (Z.to_int z).

(** [ValueError(f"Incentive {incentive_id} not found")]. *)
Definition incentive_not_found (incentive_id : Z) : exn :=
  Exn ValueError ("Incentive " ++ str_of_int incentive_id ++ " not found").

Definition count_call (st : State) : State :=
  {| incentives := incentives st; tables := tables st;
     llm_calls := S (llm_calls st); saves := saves st |}.

Section WithBuiltins.
Variable B : builtins.
Variable E : Capabilities.

(** [match_companies_for_incentive]. The cost returned by the ranker is
    only logged and compared with [max_cost_per_incentive] for a warning. *)
Definition match_companies_for_incentive (incentive_id : Z)
  (top_k_candidates : nat) (max_cost_per_incentive : float) (st : State)
  : res (list Ranker.MatchingResult) * State :=
  match get_incentive_by_id st incentive_id with
  | None => (Raise (incentive_not_found incentive_id), st)
  | Some incentive =>
      match find_similar_companies E st incentive_id top_k_candidates with
      | [] => (Ok [], st)
      | similar_companies =>
          match complete E (llm_calls st) with
          | Raise e => (Raise e, count_call st)
          | Ok response_data =>
              match Ranker._llm_rank_candidates B similar_companies 5 response_data with
              | Ok (top_5_results, llm_cost) => (Ok top_5_results, count_call st)
              | Raise e => (Raise e, count_call st)
              end
          end
      end
  end.

(** [save_matches_to_database] on the service state. *)
Definition save (incentive_id : Z) (matches : list Ranker.MatchingResult)
  (st : State) : res unit * State :=
  let '(r, t) := Store.save_matches_to_database (clock E (saves st))
                   incentive_id matches (tables st) in
  (r, {| incentives := incentives st; tables := t;
         llm_calls := llm_calls st; saves := S (saves st) |}).

(** The running totals of [batch_match_all_incentives]. *)
Record Tally := {
  total_cost : float;
  successful : nat;
  failed : nat;
  results_by_incentive : list (Z * (nat * float))
}.

(** [results_by_incentive[k] = v]. *)
Fixpoint set_result (k : Z) (v : nat * float) (d : list (Z * (nat * float)))
  : list (Z * (nat * float)) :=
  match d with
  | [] => [(k, v)]
  | (k', v') :: d' => if k =? k' then (k, v) :: d' else (k', v') :: set_result k v d'
  end.

(** Truth value of [max_cost_total]: [None] and zero are false. *)
Definition truthy (max_cost_total : option float) : bool :=
  match max_cost_total with
  | None => false
  | Some c => negb (PrimFloat.eqb c 0)
  end.

(** The [try] body for one incentive. *)
Definition match_and_save (max_cost_total : option float) (save_to_db : bool)
  (total : float) (incentive : IncentiveRow) (st : State)
  : res (list Ranker.MatchingResult) * State :=
  let remaining_budget :=
    match max_cost_total with
    | Some c => if truthy max_cost_total then (c - total)%float else 0.30%float
    | None => 0.30%float
    end in
  let incentive_budget := py_min 0.30%float remaining_budget in
  match match_companies_for_incentive (id incentive) 20 incentive_budget st with
  | (Ok matches, st1) =>
      match save_to_db, matches with
      | true, _ :: _ =>
          match save (id incentive) matches st1 with
          | (Ok _, st2) => (Ok matches, st2)
          | (Raise e, st2) => (Raise e, st2)
          end
      | _, _ => (Ok matches, st1)
      end
  | (Raise e, st1) => (Raise e, st1)
  end.

(** The loop of [batch_match_all_incentives]. *)
Fixpoint batch_loop (max_cost_total : option float) (save_to_db : bool)
  (todo : list IncentiveRow) (acc : Tally) (st : State) : Tally * State :=
  match todo with
  | [] => (acc, st)
  | incentive :: rest =>
      if truthy max_cost_total &&
         match max_cost_total with
         | Some c => PrimFloat.leb c (total_cost acc)
         | None => false
         end
      then (acc, st)
      else
        match match_and_save max_cost_total save_to_db (total_cost acc) incentive st with
        | (Ok matches, st') =>
            let top_score :=
              match matches with
              | m :: _ => Ranker.score m
              | [] => 0.0%float
              end in
            batch_loop max_cost_total save_to_db rest
              {| total_cost := total_cost acc;
                 successful := S (successful acc);
                 failed := failed acc;
                 results_by_incentive :=
                   set_result (id incentive) (List.length matches, top_score)
                     (results_by_incentive acc) |} st'
        | (Raise _, st') =>
            batch_loop max_cost_total save_to_db rest
              {| total_cost := total_cost acc;
                 successful := successful acc;
                 failed := S (failed acc);
                 results_by_incentive := results_by_incentive acc |} st'
        end
  end.

(** The summary dict; [total_cost] is the number its two cost strings are
    formatted from. *)
Record Summary := {
  total_incentives : nat;
  successful_matches : nat;
  failed_matches : nat;
  summary_total_cost : float;
  summary_results : list (Z * (nat * float))
}.

(** [batch_match_all_incentives]. *)
Definition batch_match_all_incentives (max_cost_total : option float)
  (save_to_db : bool) (st : State) : Summary * State :=
  let incentives := incentives st in
  let '(acc, st') :=
    batch_loop max_cost_total save_to_db incentives
      {| total_cost := 0.0%float; successful := 0; failed := 0;
         results_by_incentive := [] |} st in
  ({| total_incentives := List.length incentives;
      successful_matches := successful acc;
      failed_matches := failed acc;
      summary_total_cost := total_cost acc;
      summary_results := results_by_incentive acc |}, st').

End WithBuiltins.

(** The ceiling that stops the loop at a total of zero. *)
Definition stops_at_zero (max_cost_total : option float) : bool :=
  (truthy max_cost_total &&
   match max_cost_total with
   | Some c => PrimFloat.leb c 0
   | None => false
   end)%bool.

End Orchestrator.

(* ------------------------------------------------------------------ *)
(** ** CandidatePreFilter: [CompanyPreFilter] *)

Module PreFilter.
Import Py.
Local Open Scope list_scope.

(** [CompanyModel]. *)
Record CompanyModel := {
  id : option Z;
  company_name : string;
  cae_primary_label : option string;
  trade_description_native : option string;
  website : option string;
  created_at : option Z
}.

(** The structured description of an incentive, with the fields the filter
    reads at the types the description generator gives them. *)
Record StructuredData := {
  target_sectors : list string;
  innovation_focus : bool;
  sustainability_focus : bool;
  digital_transformation_focus : bool;
  target_regions : list string;
  eligible_activities : list string;
  key_requirements : list string
}.

(** [IncentiveModel], with the two sources of structured data as the
    non-empty dict each one yields ([None] when absent, empty or not
    JSON). *)
Record IncentiveModel := {
  title : string;
  description : option string;
  ai_description_structured : option StructuredData;
  ai_description : option StructuredData
}.

Record Criteria := {
  crit_target_sectors : list string;
  relevant_keywords : list string;
  crit_innovation_focus : bool;
  crit_sustainability_focus : bool;
  crit_digital_focus : bool;
  regions : list string
}.

Definition option_eqb {A} (eqb : A -> A -> bool) (x y : option A) : bool :=
  match x, y with
  | Some a, Some b => eqb a b
  | None, None => true
  | _, _ => false
  end.

(** [a == b] on two company models: field by field. *)
Definition company_eqb (a b : CompanyModel) : bool :=
  (option_eqb Z.eqb (id a) (id b)
   && String.eqb (company_name a) (company_name b)
   && option_eqb String.eqb (cae_primary_label a) (cae_primary_label b)
   && option_eqb String.eqb (trade_description_native a) (trade_description_native b)
   && option_eqb String.eqb (website a) (website b)
   && option_eqb Z.eqb (created_at a) (created_at b))%bool.

(** [company in l]. *)
Definition company_in (c : CompanyModel) (l : list CompanyModel) : bool :=
  existsb (company_eqb c) l.

(** [x or '']. *)
Definition or_empty (x : option string) : string :=
  match x with
  | Some s => s
  | None => ""
  end.

Definition sector_keywords : list (string * list string) :=
  [ ("industria", ["manufacturing"; "production"; "industrial"; "factory"; "fabricação"; "produção"; "indústria"]);
    ("tecnologia", ["technology"; "software"; "digital"; "IT"; "tech"; "tecnologia"; "informática"]);
    ("turismo", ["tourism"; "hotel"; "restaurant"; "travel"; "turismo"; "hospitalidade"]);
    ("agricultura", ["agriculture"; "farming"; "agro"; "agricultura"; "pecuária"]);
    ("energia", ["energy"; "renewable"; "solar"; "wind"; "energia"; "renovável"]);
    ("comercio", ["retail"; "commerce"; "trading"; "comércio"; "vendas"]);
    ("servicos", ["services"; "consulting"; "serviços"; "consultoria"]);
    ("construcao", ["construction"; "building"; "construção"; "obra"]);
    ("saude", ["health"; "medical"; "healthcare"; "saúde"; "medicina"]);
    ("educacao", ["education"; "training"; "educação"; "formação"]) ].

Definition innovation_keywords : list string :=
  [ "inovação"; "innovation"; "I&D"; "R&D"; "research"; "desenvolvimento";
    "tecnologia"; "technology"; "digital"; "automatização"; "automation";
    "inteligência artificial"; "artificial intelligence"; "AI"; "machine learning";
    "startup"; "patente"; "patent"; "laboratório"; "laboratory" ].

Definition sustainability_keywords : list string :=
  [ "sustentável"; "sustainable"; "verde"; "green"; "eco"; "ambiente";
    "environment"; "renewable"; "renovável"; "eficiência energética";
    "energy efficiency"; "carbon"; "carbono"; "reciclagem"; "recycling" ].

Definition digital_keywords : list string :=
  [ "digital"; "digitalization"; "digitalização"; "online"; "e-commerce";
    "plataforma"; "platform"; "software"; "app"; "website"; "sistema";
    "automatização"; "automation"; "cloud"; "nuvem" ].

Definition stop_words : list string :=
  [ "para"; "com"; "por"; "em"; "de"; "da"; "do"; "das"; "dos"; "na"; "no"; "nas"; "nos";
    "que"; "como"; "mais"; "ser"; "ter"; "estar"; "fazer"; "dizer"; "mesmo"; "outro";
    "the"; "and"; "or"; "but"; "in"; "on"; "at"; "to"; "for"; "of"; "with"; "by" ].

Definition incentive_terms : list string :=
  [ "apoio"; "incentivo"; "fundo"; "financiamento"; "subsídio";
    "modernização"; "inovação"; "desenvolvimento"; "crescimento";
    "competitividade"; "exportação"; "internacionalização";
    "support"; "funding"; "grant"; "development"; "innovation" ].

Definition str_in (s : string) (l : list string) : bool := existsb (String.eqb s) l.

(** Stable sort, largest key first (what [sort(reverse=True)] and
    [Counter.most_common] do). *)
Section Sorting.
Context {A K : Type} (key : A -> K) (lt : K -> K -> bool).

Fixpoint insert_desc (x : A) (l : list A) : list A :=
  match l with
  | [] => [x]
  | y :: l' => if lt (key x) (key y) then y :: insert_desc x l' else x :: l
  end.

Definition sort_desc (l : list A) : list A := fold_right insert_desc [] l.
End Sorting.

(** [Counter(words)] as (word, count) pairs in first-occurrence order. *)
Fixpoint count_word (w : string) (counts : list (string * nat)) : list (string * nat) :=
  match counts with
  | [] => [(w, 1)]
  | (w', n) :: counts' =>
      if String.eqb w w' then (w', S n) :: counts' else (w', n) :: count_word w counts'
  end.

Definition counter (words : list string) : list (string * nat) :=
  fold_left (fun acc w => count_word w acc) words [].

(** [set(words)], duplicates dropped. *)
Definition word_set (words : list string) : list string :=
  map fst (counter words).

Section WithBuiltins.
Variable B : builtins.

(** [random.sample(population, k)]: the draw of the generator. *)
Variable random_sample : list CompanyModel -> nat -> list CompanyModel.

Definition lowered (l : list string) : list string := map (str_lower B) l.

(** [_extract_keywords_from_text]. *)
Definition _extract_keywords_from_text (text : string) : list string :=
  match text with
  | EmptyString => []
  | _ =>
      let words := findall_words4 B (str_lower B text) in
      let keywords :=
        filter (fun w => negb (str_in w stop_words) && Nat.ltb 3 (str_len B w)) words in
      map fst (firstn 20 (sort_desc snd Nat.ltb (counter keywords)))
  end.

(** [_extract_incentive_criteria]. *)
Definition _extract_incentive_criteria (incentive : IncentiveModel) : Criteria :=
  let structured_data :=
    match ai_description_structured incentive with
    | Some d => Some d
    | None => ai_description incentive
    end in
  let text_content := (title incentive ++ " " ++ or_empty (description incentive))%string in
  let from_text := _extract_keywords_from_text text_content in
  match structured_data with
  | Some d =>
      {| crit_target_sectors := target_sectors d;
         relevant_keywords := (eligible_activities d ++ key_requirements d) ++ from_text;
         crit_innovation_focus := innovation_focus d;
         crit_sustainability_focus := sustainability_focus d;
         crit_digital_focus := digital_transformation_focus d;
         regions := target_regions d |}
  | None =>
      {| crit_target_sectors := [];
         relevant_keywords := [] ++ from_text;
         crit_innovation_focus := false;
         crit_sustainability_focus := false;
         crit_digital_focus := false;
         regions := [] |}
  end.

(** The [for ... else] of [_filter_by_sector] for one company whose label
    matched no sector name: walk [sector_keywords]; [Some true] when the
    company is appended. The walk stops at the first listed sector after
    which the company is found in [filtered]. *)
Fixpoint sector_keyword_walk (table : list (string * list string))
  (target_sectors_lower : list string) (cae_lower : string)
  (company : CompanyModel) (filtered : list CompanyModel) : list CompanyModel :=
  match table with
  | [] => filtered
  | (sector, keywords) :: table' =>
      if str_in sector target_sectors_lower then
        let filtered' :=
          if existsb (fun keyword => contains cae_lower (str_lower B keyword)) keywords
          then filtered ++ [company] else filtered in
        if company_in company filtered' then filtered'
        else sector_keyword_walk table' target_sectors_lower cae_lower company filtered'
      else sector_keyword_walk table' target_sectors_lower cae_lower company filtered
  end.

Fixpoint sector_loop (target_sectors_lower : list string)
  (companies filtered : list CompanyModel) : list CompanyModel :=
  match companies with
  | [] => filtered
  | company :: rest =>
      match cae_primary_label company with
      | None | Some EmptyString => sector_loop target_sectors_lower rest filtered
      | Some label =>
          let cae_lower := str_lower B label in
          if existsb (fun sector => contains cae_lower sector) target_sectors_lower
          then sector_loop target_sectors_lower rest (filtered ++ [company])
          else sector_loop target_sectors_lower rest
                 (sector_keyword_walk sector_keywords target_sectors_lower
                    cae_lower company filtered)
      end
  end.

(** [_filter_by_sector]. *)
Definition _filter_by_sector (companies : list CompanyModel)
  (target_sectors : list string) : list CompanyModel :=
  match target_sectors with
  | [] => companies
  | _ => sector_loop (lowered target_sectors) companies []
  end.

Definition nonempty (s : string) : bool :=
  match s with
  | EmptyString => false
  | _ => true
  end.

(** [_filter_by_keywords]. *)
Definition _filter_by_keywords (companies : list CompanyModel)
  (keywords : list string) : list CompanyModel :=
  match keywords with
  | [] => companies
  | _ =>
      let keywords_lower := lowered (filter nonempty keywords) in
      filter (fun company =>
                let description_lower :=
                  str_lower B (or_empty (trade_description_native company)) in
                existsb (fun keyword => contains description_lower keyword) keywords_lower)
             companies
  end.

(** [f"{company.trade_description_native or ''} {company.cae_primary_label or ''}"]. *)
Definition company_text (company : CompanyModel) : string :=
  (or_empty (trade_description_native company) ++ " "
   ++ or_empty (cae_primary_label company))%string.

(** [_filter_by_focus_areas]. *)
Definition _filter_by_focus_areas (companies : list CompanyModel)
  (focus_keywords : list string) : list CompanyModel :=
  match focus_keywords with
  | [] => companies
  | _ =>
      let focus_lower := lowered focus_keywords in
      filter (fun company =>
                let text_lower := str_lower B (company_text company) in
                existsb (fun keyword => contains text_lower keyword) focus_lower)
             companies
  end.

(** The relevance score of [_rank_and_limit_candidates] for one company. *)
Definition relevance_score (incentive_words : list string)
  (company : CompanyModel) : float :=
  let text := company_text company in
  let company_words := word_set (str_split B (str_lower B text)) in
  let intersection := List.length (filter (fun w => str_in w company_words) incentive_words) in
  let union := (List.length incentive_words + List.length company_words - intersection)%nat in
  let jaccard :=
    if Nat.ltb 0 union
    then (float_of_Z 0 + float_of_Z (Z.of_nat intersection) / float_of_Z (Z.of_nat union))%float
    else float_of_Z 0 in
  let dense :=
    fold_left (fun score word =>
                 if Nat.ltb 3 (str_len B word) && contains (str_lower B text) word
                 then (score + 0.1)%float else score)
              incentive_words jaccard in
  if existsb (fun keyword => contains (str_lower B text) (str_lower B keyword))
       innovation_keywords
  then (dense + 0.2)%float else dense.

(** [_rank_and_limit_candidates]. *)
Definition _rank_and_limit_candidates (companies : list CompanyModel)
  (incentive : IncentiveModel) (limit : nat) : list CompanyModel :=
  let incentive_text := (title incentive ++ " " ++ or_empty (description incentive))%string in
  let incentive_words := word_set (str_split B (str_lower B incentive_text)) in
  let scored_companies :=
    map (fun company => (relevance_score incentive_words company, company)) companies in
  map snd (firstn limit (sort_desc fst PrimFloat.ltb scored_companies)).

(** [_extract_general_keywords]. *)
Definition _extract_general_keywords (incentive : IncentiveModel) : list string :=
  let text := (title incentive ++ " " ++ or_empty (description incentive))%string in
  let text_lower := str_lower B text in
  filter (fun term => contains text_lower term) incentive_terms
  ++ ["empresa"; "negócio"; "atividade"; "projeto"; "investimento"].

(** The broad test of [_expand_candidate_pool] on one company. *)
Definition broad_match (general_keywords : list string) (company : CompanyModel) : bool :=
  let company_text_lower := str_lower B (company_text company) in
  existsb (fun keyword => contains company_text_lower (str_lower B keyword))
    general_keywords.

(** The scan of [_expand_candidate_pool], which stops once [target_count]
    companies are held. *)
Fixpoint broad_scan (general_keywords : list string) (target_count : nat)
  (all_companies candidates : list CompanyModel) : list CompanyModel :=
  match all_companies with
  | [] => candidates
  | company :: rest =>
      if Nat.leb target_count (List.length candidates) then candidates
      else if broad_match general_keywords company
           then broad_scan general_keywords target_count rest (candidates ++ [company])
           else broad_scan general_keywords target_count rest candidates
  end.

(** [_expand_candidate_pool]. *)
Definition _expand_candidate_pool (all_companies : list CompanyModel)
  (incentive : IncentiveModel) (target_count : nat) : list CompanyModel :=
  let general_keywords := _extract_general_keywords incentive in
  let candidates := broad_scan general_keywords target_count all_companies [] in
  if Nat.ltb (List.length candidates) (target_count / 2) then
    let remaining_needed := (target_count - List.length candidates)%nat in
    let available_companies :=
      filter (fun c => negb (company_in c candidates)) all_companies in
    if Nat.ltb remaining_needed (List.length available_companies)
    then candidates ++ random_sample available_companies remaining_needed
    else candidates ++ available_companies
  else candidates.

(** Stages 1 to 4 of [filter_companies_for_incentive]: what survives the
    filtering stages and the over-shoot correction. *)
Definition surviving (companies : list CompanyModel) (incentive : IncentiveModel)
  (target_count : nat) : list CompanyModel :=
  let criteria := _extract_incentive_criteria incentive in
  let candidates := companies in
  let candidates :=
    match crit_target_sectors criteria with
    | [] => candidates
    | _ => _filter_by_sector candidates (crit_target_sectors criteria)
    end in
  let candidates :=
    match relevant_keywords criteria with
    | [] => candidates
    | _ => _filter_by_keywords candidates (relevant_keywords criteria)
    end in
  let focus_filters :=
    (if crit_innovation_focus criteria then innovation_keywords else [])
    ++ (if crit_sustainability_focus criteria then sustainability_keywords else [])
    ++ (if crit_digital_focus criteria then digital_keywords else []) in
  let candidates :=
    match focus_filters with
    | [] => candidates
    | _ => _filter_by_focus_areas candidates focus_filters
    end in
  if Nat.ltb target_count (List.length candidates)
  then _rank_and_limit_candidates candidates incentive target_count
  else candidates.

(** [filter_companies_for_incentive]. *)
Definition filter_companies_for_incentive (companies : list CompanyModel)
  (incentive : IncentiveModel) (target_count : nat) : list CompanyModel :=
  let candidates := surviving companies incentive target_count in
  if Nat.ltb (List.length candidates) (target_count / 2)
  then _expand_candidate_pool companies incentive target_count
  else candidates.

End WithBuiltins.
End PreFilter.

(* ------------------------------------------------------------------ *)
(** ** Concrete inputs, used to run the embedding *)

Module Examples.
Import Py.
Local Open Scope Z_scope.

Definition company (n : Z) (name : string) (sim : float) : Ranker.Candidate :=
  {| Ranker.id := n; Ranker.company_name := name;
     Ranker.cae_primary_label := Some "Software";
     Ranker.trade_description_native := None; Ranker.website := None;
     Ranker.similarity_score := sim |}.

Definition alfa := company 10 "Alfa" 0.91.
Definition beta := company 20 "Beta" 0.85.
Definition gama := company 30 "Gama" 0.80.
Definition delta := company 40 "Delta" 0.74.
Definition epsilon := company 50 "Epsilon" 0.66.
Definition zeta := company 60 "Zeta" 0.61.

(** A scoring entry that only names a candidate. *)
Definition names (n : Z) : value := VDict [("company_number", VInt n)].

(** A scoring entry with the three component scores and no final score. *)
Definition scored (n a q c : Z) : value :=
  VDict [ ("company_number", VInt n);
          ("adequacao_estrategia", VDict [("score", VInt a); ("reasoning", VStr "fit")]);
          ("qualidade", VDict [("score", VInt q); ("reasoning", VStr "quality")]);
          ("capacidade_execucao", VDict [("score", VInt c); ("reasoning", VStr "capacity")]);
          ("recommendation", VStr "apply") ].

(** A completion of the OpenAI client: 900 prompt and 300 completion
    tokens at the gpt-5-mini price. *)
Definition completion (v : value) : Ranker.ResponseData :=
  AIClient.complete AIClient.gpt_5_mini (Ranker.Parsed v) 900 300 1200.

(** Incentive 1 is embedded, incentive 2 is not. *)
Definition incentives : list Orchestrator.IncentiveRow :=
  [ {| Orchestrator.id := 1; Orchestrator.title := "Apoio digital";
       Orchestrator.embedding := Some "[0.12,0.5]" |};
    {| Orchestrator.id := 2; Orchestrator.title := "Fundo verde";
       Orchestrator.embedding := None |} ].

Definition empty_tables : Store.Tables :=
  {| Store.incentive_ids := [1; 2];
     Store.company_ids := [10; 20; 30; 40; 50; 60];
     Store.matches := [];
     Store.matches_id_seq := 1 |}.

Definition start : Orchestrator.State :=
  {| Orchestrator.incentives := incentives;
     Orchestrator.tables := empty_tables;
     Orchestrator.llm_calls := 0;
     Orchestrator.saves := 0 |}.

(** A service whose vector search returns the six companies above and
    whose completions are given call by call. *)
Definition service (completions : nat -> res Ranker.ResponseData)
  : Orchestrator.Capabilities :=
  {| Orchestrator.nearest := fun _ limit =>
       firstn limit [alfa; beta; gama; delta; epsilon; zeta];
     Orchestrator.complete := completions;
     Orchestrator.clock := fun call statement =>
       1000 + 10 * Z.of_nat call + Z.of_nat statement |}.

(** The response names candidate 7 (out of range), then candidate 1 twice. *)
Definition stray_response : value := VList [names 7; names 1; names 1].

(** The service answers the first scoring call with a response that names
    candidate 7 (there are six), then candidate 1 twice. *)
Definition stray_service : Orchestrator.Capabilities :=
  Examples.service (fun _ => Ok (Examples.completion Examples.stray_response)).

(** Two results of the fallback for Alfa and Beta. *)
Definition two_matches : list Ranker.MatchingResult :=
  Ranker.fallback_results PyBuiltins.python [Examples.alfa; Examples.beta] 5
    (Exn ValueError "Expected JSON array response").

Definition ticks (k : nat) : Z := 1000 + Z.of_nat k.
Definition later (k : nat) : Z := 2000 + Z.of_nat k.

(** The tables after company 20 has been deleted. *)
Definition without_beta : Store.Tables :=
  {| Store.incentive_ids := [1; 2]; Store.company_ids := [10; 30; 40; 50; 60];
     Store.matches := []; Store.matches_id_seq := 1 |}.

(** The scoring capability names candidates 1 to 5 at the first call and
    candidate 6 at the second. *)
Definition shifting_service : Orchestrator.Capabilities :=
  Examples.service (fun k =>
    match k with
    | O => Ok (Examples.completion
                 (VList (map Examples.names [1; 2; 3; 4; 5])))
    | _ => Ok (Examples.completion (VList [Examples.names 6]))
    end).

(** Both incentives embedded, and a scoring capability that always
    answers with candidate 1. *)
Definition both_embedded : Orchestrator.State :=
  {| Orchestrator.incentives :=
       [ {| Orchestrator.id := 1; Orchestrator.title := "Apoio digital";
            Orchestrator.embedding := Some "[0.12,0.5]" |};
         {| Orchestrator.id := 2; Orchestrator.title := "Fundo verde";
            Orchestrator.embedding := Some "[0.7,0.1]" |} ];
     Orchestrator.tables := empty_tables;
     Orchestrator.llm_calls := 0;
     Orchestrator.saves := 0 |}.

Definition steady_service : Orchestrator.Capabilities :=
  service (fun _ => Ok (completion (VList [names 1]))).

End Examples.

(** Concrete inputs of the pre-filter. *)
Module FilterExamples.
Import PreFilter.

Definition firm (n : Z) (name description : string) : CompanyModel :=
  {| id := Some n; company_name := name; cae_primary_label := None;
     trade_description_native := Some description; website := None;
     created_at := None |}.

Definition limpa := firm 1 "Limpa" "empresa de limpeza".
Definition obras := firm 2 "Obras" "empresa de obras".
Definition solar := firm 3 "Sol" "solar panels".

(** An incentive with a one-word title and no structured description. *)
Definition solar_incentive : IncentiveModel :=
  {| title := "Solar"; description := None;
     ai_description_structured := None; ai_description := None |}.

(** A generator that draws the first [k] of the population. *)
Definition first_draw (population : list CompanyModel) (k : nat) : list CompanyModel :=
  firstn k population.

End FilterExamples.

(* ------------------------------------------------------------------ *)
(** ** Notions used to state properties of the ranker and the table *)

Module Notions.
Import Py.

(** The exception classes the [except] clause of the ranker lets
    through. *)
Definition escaping (k : exn_class) : bool :=
  match k with
  | AttributeError | TypeError | OverflowError => true
  | _ => false
  end.

(** The exception classes the [try] block of the ranker can raise at
    all. *)
Definition raisable (k : exn_class) : bool :=
  match k with
  | AttributeError | TypeError | OverflowError | ValueError | JSONDecodeError => true
  | _ => false
  end.

(** A result meets both [CHECK] constraints of the [matches] table. *)
Definition passes_checks (m : Ranker.MatchingResult) : bool :=
  (Store.check_score (Ranker.score m)
   && Store.check_rank_position (Ranker.rank m))%bool.

(** [l1] is [l2] with some elements left out: same order, nothing added,
    nothing repeated. *)
Inductive subsequence {A : Type} : list A -> list A -> Prop :=
| sub_nil : subsequence [] []
| sub_skip (x : A) (l1 l2 : list A) : subsequence l1 l2 -> subsequence l1 (x :: l2)
| sub_keep (x : A) (l1 l2 : list A) : subsequence l1 l2 -> subsequence (x :: l1) (x :: l2).

(** The keys the loop of the ranker writes into an entry. *)
Definition written_keys : list string :=
  ["final_score"; "vector_similarity"; "strategic_fit"; "quality";
   "execution_capacity"].

End Notions.

(* ------------------------------------------------------------------ *)
(** ** The match-generation tool of the chatbot and [clear_all_matches] *)

Module Tools.
Import Py.
Local Open Scope Z_scope.

(** [DatabaseService.clear_all_matches]: [DELETE FROM matches]. The
    sequence behind the ids is not reset. *)
Definition clear_all_matches (st : Orchestrator.State) : Orchestrator.State :=
  {| Orchestrator.incentives := Orchestrator.incentives st;
     Orchestrator.tables :=
       {| Store.incentive_ids := Store.incentive_ids (Orchestrator.tables st);
          Store.company_ids := Store.company_ids (Orchestrator.tables st);
          Store.matches := [];
          Store.matches_id_seq := Store.matches_id_seq (Orchestrator.tables st) |};
     Orchestrator.llm_calls := Orchestrator.llm_calls st;
     Orchestrator.saves := Orchestrator.saves st |}.

(** A value of the summary dict of [batch_match_all_incentives]:
    [Dollars f] is the text [f"${f:.4f}"]. *)
Inductive field :=
| Count (n : nat)
| Dollars (f : float)
| Text (s : string)
| PerIncentive (d : list (Z * (nat * float))).

(** The summary dict, key by key as the batch builds it. *)
Definition summary_dict (s : Orchestrator.Summary) : list (string * field) :=
  [ ("total_incentives", Count (Orchestrator.total_incentives s));
    ("successful_matches", Count (Orchestrator.successful_matches s));
    ("failed_matches", Count (Orchestrator.failed_matches s));
    ("total_cost", Dollars (Orchestrator.summary_total_cost s));
    ("avg_cost_per_incentive",
      if Nat.ltb 0 (Orchestrator.successful_matches s)
      then Dollars (Orchestrator.summary_total_cost s
                    / float_of_Z (Z.of_nat (Orchestrator.successful_matches s)))%float
      else Text "$0.00");
    ("results_by_incentive", PerIncentive (Orchestrator.summary_results s)) ].

(** [d[k]] on a dict with [str] keys. *)
Fixpoint getitem (d : list (string * field)) (k : string) : res field :=
  match d with
  | [] => Raise (Exn KeyError ("'" ++ k ++ "'"))
  | (k', v) :: d' => if String.eqb k k' then Ok v else getitem d' k
  end.

(** What the tool returns. *)
Inductive reply :=
| Success (action_taken message : string)
    (total_incentives successful_matches failed_matches total_cost
       matches_per_incentive : field)
    (previous_matches_count : nat)
| Failure (message : string).

Section WithBuiltins.
Variable B : builtins.
Variable E : Orchestrator.Capabilities.
Local Open Scope py_scope.

(** [generate_matches_for_all_incentives], once the matching service is
    built. *)
Definition generate_matches_for_all_incentives (force_refresh : bool)
  (st : Orchestrator.State) : reply * Orchestrator.State :=
  let total_matches := List.length (Store.matches (Orchestrator.tables st)) in
  let '(action_taken, st0) :=
    if (Nat.ltb 0 total_matches && force_refresh)%bool
    then ("force_refresh", clear_all_matches st)
    else if Nat.ltb 0 total_matches then ("refresh_existing", st)
    else ("generate_new", st) in
  let '(summary, st1) :=
    Orchestrator.batch_match_all_incentives B E None true st0 in
  let results := summary_dict summary in
  let generated := String.eqb action_taken "generate_new" in
  let answer :=
    total_incentives <- getitem results "total_incentives" ;;
    successful_matches <- getitem results "successful_matches" ;;
    failed_matches <- getitem results "failed_matches" ;;
    total_cost <- getitem results "total_cost" ;;
    matches_per_incentive <- getitem results "matches_per_incentive" ;;
    Ok (Success action_taken
          ("Successfully " ++ (if generated then "generated" else "refreshed")
           ++ " matches for all incentives")
          total_incentives successful_matches failed_matches total_cost
          matches_per_incentive
          (if generated then 0%nat else total_matches)) in
  match answer with
  | Ok r => (r, st1)
  | Raise e => (Failure ("Failed to generate matches: " ++ exn_msg e), st1)
  end.

End WithBuiltins.
End Tools.

(** A state in which incentive 1 already has the two fallback rows. *)
Module ToolExamples.
Import Py.
Local Open Scope Z_scope.

Definition stored : Orchestrator.State :=
  {| Orchestrator.incentives := Orchestrator.incentives Examples.both_embedded;
     Orchestrator.tables :=
       snd (Store.save_matches_to_database Examples.ticks 1 Examples.two_matches
              Examples.empty_tables);
     Orchestrator.llm_calls := 0;
     Orchestrator.saves := 1 |}.

End ToolExamples.

(* ------------------------------------------------------------------ *)
(** ** [UsageMetrics]: the running totals of an AI client *)

Module Usage.
Import Py.
Local Open Scope Z_scope.

(** [class UsageMetrics]. *)
Record UsageMetrics := {
  total_calls : Z;
  total_tokens : Z;
  prompt_tokens : Z;
  completion_tokens : Z;
  total_cost : float
}.

(** [UsageMetrics()], also what [reset_usage] installs. *)
Definition fresh : UsageMetrics :=
  {| total_calls := 0; total_tokens := 0; prompt_tokens := 0;
     completion_tokens := 0; total_cost := 0.0%float |}.

(** [add_call]. *)
Definition add_call (u : UsageMetrics) (prompt completion : Z) (cost : float)
  : UsageMetrics :=
  {| total_calls := total_calls u + 1;
     total_tokens := total_tokens u + (prompt + completion);
     prompt_tokens := prompt_tokens u + prompt;
     completion_tokens := completion_tokens u + completion;
     total_cost := (total_cost u + cost)%float |}.

(** What [complete] does to the metrics for one API response with the
    given token counts: the cost is computed, then the call is added. *)
Definition track (pricing : AIClient.Pricing) (u : UsageMetrics)
  (prompt completion : Z) : UsageMetrics :=
  add_call u prompt completion (AIClient._calculate_cost pricing prompt completion).

(** The metrics after a sequence of completions, each given by its prompt
    and completion token counts. *)
Definition after (pricing : AIClient.Pricing) (calls : list (Z * Z))
  (u : UsageMetrics) : UsageMetrics :=
  fold_left (fun u call => track pricing u (fst call) (snd call)) calls u.

Definition sum (l : list Z) : Z := fold_right Z.add 0 l.

End Usage.

(* ------------------------------------------------------------------ *)
(** ** The endpoint [POST /matching/run] *)

Module Router.
Import Py.
Local Open Scope Z_scope.

(** What the endpoint reads besides the service: the name
    [get_company_by_id] finds for a company id ([None] when there is no such
    company) and the time the request took. *)
Record Env := {
  company_name_of : Z -> option string;
  elapsed : float
}.

(** [class MatchingResult(BaseModel)] of the router. *)
Record MatchingResult := {
  company_id : Z;
  company_name : string;
  score : float;
  rank : Z;
  reasoning : dict
}.

(** [class MatchingResponse]. *)
Record MatchingResponse := {
  incentive_id : Z;
  matches : list MatchingResult;
  total_cost : float;
  processing_time : float
}.

Inductive outcome :=
| Response (r : MatchingResponse)
| HTTPException (status_code : Z) (detail : string).

(** [isinstance(e, ValueError)]: [json.JSONDecodeError] is a subclass. *)
Definition is_value_error (k : exn_class) : bool :=
  match k with
  | ValueError | JSONDecodeError => true
  | _ => false
  end.

(** The two [except] clauses. *)
Definition failure (e : exn) : outcome :=
  if is_value_error (exn_kind e)
  then HTTPException 404 (exn_msg e)
  else HTTPException 500 ("Internal server error: " ++ exn_msg e).

(** The loop that formats the response: a match whose company is not
    found is left out. *)
Fixpoint format (env : Env) (matches : list Ranker.MatchingResult)
  : list MatchingResult :=
  match matches with
  | [] => []
  | m :: rest =>
      match company_name_of env (Ranker.company_id m) with
      | Some name =>
          {| company_id := Ranker.company_id m; company_name := name;
             score := Ranker.score m; rank := Ranker.rank m;
             reasoning := Ranker.reasoning m |} :: format env rest
      | None => format env rest
      end
  end.

(** [type(llm_cost).__name__] for the cost the ranker read from a
    completion. *)
Definition type_of_cost (r : res Ranker.ResponseData) : string :=
  match r with
  | Ok rd =>
      match Ranker.llm_cost_of rd with
      | Ranker.Int _ => "int"
      | Ranker.Float _ => "float"
      end
  | Raise _ => "float"
  end.

Section WithBuiltins.
Variable B : builtins.
Variable E : Orchestrator.Capabilities.
Variable env : Env.

(** [match_companies_for_incentive] as the endpoint calls it:
    [request.max_cost] may be [None], and then the comparison
    [llm_cost > max_cost_per_incentive], reached once the ranking has
    returned, raises. *)
Definition match_for_request (incentive_id : Z) (max_cost : option float)
  (st : Orchestrator.State)
  : res (list Ranker.MatchingResult) * Orchestrator.State :=
  match max_cost with
  | Some c => Orchestrator.match_companies_for_incentive B E incentive_id 20 c st
  | None =>
      match Orchestrator.match_companies_for_incentive B E incentive_id 20 0.30%float st with
      | (Ok top_5_results, st1) =>
          if Nat.eqb (Orchestrator.llm_calls st1) (Orchestrator.llm_calls st)
          then (Ok top_5_results, st1)
          else (Raise (Exn TypeError
                  ("'>' not supported between instances of '"
                   ++ type_of_cost (Orchestrator.complete E (Orchestrator.llm_calls st))
                   ++ "' and 'NoneType'")),
                st1)
      | (Raise e, st1) => (Raise e, st1)
      end
  end.

(** [run_matching_for_incentive], once the matching service is built. *)
Definition run_matching_for_incentive (incentive_id : Z) (max_cost : option float)
  (st : Orchestrator.State) : outcome * Orchestrator.State :=
  match match_for_request incentive_id max_cost st with
  | (Raise e, st1) => (failure e, st1)
  | (Ok matches, st1) =>
      match Orchestrator.save E incentive_id matches st1 with
      | (Raise e, st2) => (failure e, st2)
      | (Ok _, st2) =>
          (Response {| incentive_id := incentive_id;
                       matches := format env matches;
                       total_cost := 0.0%float;
                       processing_time := elapsed env |}, st2)
      end
  end.

End WithBuiltins.
End Router.

(** An environment of the endpoint. *)
Module EndpointExamples.
Local Open Scope Z_scope.

(** Every company is found under the name Alfa; the request took half a
    second. *)
Definition desk : Router.Env :=
  {| Router.company_name_of := fun _ => Some "Alfa";
     Router.elapsed := 0.5%float |}.

End EndpointExamples.

(* ================================================================== *)
(** * Properties *)

(* ------------------------------------------------------------------ *)
(** ** Lists *)

Module ListFacts.

Lemma In_firstn {A} (n : nat) (l : list A) (x : A) : In x (firstn n l) -> In x l.
Proof.
  intros H. rewrite <- (firstn_skipn n l). apply in_or_app. now left.
Qed.

Lemma NoDup_firstn {A} (n : nat) (l : list A) : NoDup l -> NoDup (firstn n l).
Proof.
  intros H. rewrite <- (firstn_skipn n l) in H.
  eapply NoDup_app_remove_r; exact H.
Qed.

Lemma NoDup_snoc {A} (l : list A) (x : A) : NoDup l -> ~ In x l -> NoDup (l ++ [x]).
Proof.
  intros Hl Hx. apply NoDup_app; [exact Hl | repeat constructor; auto |].
  intros a Ha [<-|[]]. contradiction.
Qed.

Lemma find_app {A} (f : A -> bool) (l1 l2 : list A) :
  find f (l1 ++ l2)%list = match find f l1 with
                           | Some x => Some x
                           | None => find f l2
                           end.
Proof.
  induction l1 as [|a l1 IH]; simpl; [reflexivity|].
  destruct (f a); [reflexivity | exact IH].
Qed.

Lemma nth_error_firstn_some {A} (n i : nat) (l : list A) (x : A) :
  nth_error (firstn n l) i = Some x -> nth_error l i = Some x.
Proof.
  revert i l. induction n as [|n IH]; intros i l H.
  - destruct i; discriminate.
  - destruct l as [|y l]; [destruct i; discriminate|].
    destruct i as [|i]; simpl in *; auto.
Qed.

End ListFacts.

(* ------------------------------------------------------------------ *)
(** ** Facts about the ranker *)

Module RankerFacts.
Import Py Ranker ListFacts.
Local Open Scope Z_scope.

Lemma bind_ok {A C} (m : res A) (k : A -> res C) (c : C) :
  bind m k = Ok c -> exists a, m = Ok a /\ k a = Ok c.
Proof.
  destruct m as [a|e]; simpl; intros H; [eauto | discriminate].
Qed.

Ltac bind_inv H :=
  let x := fresh "x" in
  let Hx := fresh "Hx" in
  apply bind_ok in H; destruct H as [x [Hx H]].

Section WithBuiltins.
Variable B : builtins.

(** [x < y] implies [x <= y] on floats. *)
Lemma ltb_leb (x y : float) : PrimFloat.ltb x y = true -> PrimFloat.leb x y = true.
Proof.
  rewrite ltb_spec, leb_spec. unfold SFltb, SFleb.
  destruct (SFcompare (Prim2SF x) (Prim2SF y)) as [[| |]|]; congruence.
Qed.

(** The clamp keeps every score, NaN and the infinities included, within
    [1.0, 5.0]. *)
Lemma clamp_score_bounds (x : float) :
  PrimFloat.leb 1 (clamp_score x) = true /\ PrimFloat.leb (clamp_score x) 5 = true.
Proof.
  unfold clamp_score, py_max, py_min.
  destruct (PrimFloat.ltb x 5) eqn:Hx.
  - destruct (PrimFloat.ltb 1 x) eqn:H1.
    + split; apply ltb_leb; assumption.
    + split; reflexivity.
  - split; reflexivity.
Qed.

(** What one turn of the loop produces. *)
Lemma rank_entry_some (cands : list Candidate) (r : Z) (entry : value)
  (m : MatchingResult) :
  rank_entry B cands r entry = Ok (Some m) ->
  rank m = r
  /\ (exists d i company,
        entry = VDict d
        /\ candidate_index (dict_get "company_number" (VInt r) d) (List.length cands)
           = Ok (Some i)
        /\ nth_error cands i = Some company
        /\ company_id m = id company
        /\ exists f d', entry_final_score B d = Ok (f, d')
                        /\ score m = clamp_score f).
Proof.
  unfold rank_entry. intros H.
  bind_inv H. bind_inv H.
  destruct entry as [| | | | | |d]; simpl in Hx; try discriminate.
  injection Hx as <-.
  destruct x0 as [i|]; [|discriminate].
  destruct (nth_error cands i) as [company|] eqn:Hn; [|discriminate].
  bind_inv H. destruct x as [f d'].
  bind_inv H. bind_inv H. bind_inv H.
  injection H as <-. simpl.
  split; [reflexivity|].
  exists d, i, company. repeat split; try assumption.
  exists f, d'. split; [assumption | reflexivity].
Qed.

(** The loop returns a sub-sequence of the turns: ranks strictly increase
    from the first position on, and every result names a candidate. *)
Lemma rank_entries_shape (cands : list Candidate) (entries : list value) :
  forall (r : Z) (results : list MatchingResult),
    rank_entries B cands r entries = Ok results ->
    (List.length results <= List.length entries)%nat
    /\ Forall (fun m => r <= rank m < r + Z.of_nat (List.length entries)) results
    /\ StronglySorted Z.lt (map rank results)
    /\ Forall (fun m => In (company_id m) (map id cands)) results.
Proof.
  induction entries as [|entry rest IH]; intros r results H; simpl in H.
  - injection H as <-. simpl. repeat split; constructor.
  - bind_inv H. bind_inv H. injection H as <-.
    destruct (IH _ _ Hx0) as (Hlen & Hrange & Hsorted & Hin).
    assert (Hrange' : Forall (fun m => r <= rank m < r + Z.of_nat (List.length (entry :: rest))) x0).
    { eapply Forall_impl; [|exact Hrange].
      intros m Hm. cbv beta in Hm |- *. simpl List.length. lia. }
    destruct x as [m|].
    + destruct (rank_entry_some _ _ _ Hx) as (Hr & d & i & company & _ & _ & Hn & Hid & _).
      simpl List.length. repeat split.
      * simpl. lia.
      * constructor; [lia | exact Hrange'].
      * simpl. constructor; [exact Hsorted|].
        rewrite Forall_map. eapply Forall_impl; [|exact Hrange].
        intros m' Hm'. cbv beta in Hm'. lia.
      * constructor; [|exact Hin].
        rewrite Hid. apply in_map. eapply nth_error_In; eassumption.
    + repeat split; try assumption. simpl. lia.
Qed.

(** When no turn is skipped the ranks are the positions themselves. *)
Lemma rank_entries_full (cands : list Candidate) (entries : list value) :
  forall (r : Z) (results : list MatchingResult),
    rank_entries B cands r entries = Ok results ->
    List.length results = List.length entries ->
    map rank results = positions r (List.length entries).
Proof.
  induction entries as [|entry rest IH]; intros r results H Hlen; simpl in H.
  - injection H as <-. reflexivity.
  - bind_inv H. bind_inv H. injection H as <-.
    destruct (rank_entries_shape _ _ _ Hx0) as (Hle & _).
    destruct x as [m|].
    + simpl in Hlen. injection Hlen as Hlen.
      destruct (rank_entry_some _ _ _ Hx) as (Hr & _).
      simpl. rewrite Hr. f_equal. apply IH; assumption.
    + simpl in Hlen. lia.
Qed.

(** *** The fallback list *)

Lemma fallback_from_shape (companies : list Candidate) (e : exn) :
  forall r : Z,
    map rank (fallback_from B r companies e) = positions r (List.length companies)
    /\ map company_id (fallback_from B r companies e) = map id companies
    /\ Forall (fun m => score m = 3.0%float) (fallback_from B r companies e)
    /\ Forall2 (fun m company =>
                  dict_lookup "error" (reasoning m) = Some (VStr (exn_msg e))
                  /\ dict_lookup "vector_similarity" (reasoning m)
                     = Some (VFloat (similarity_score company)))
               (fallback_from B r companies e) companies.
Proof.
  induction companies as [|company rest IH]; intros r; simpl.
  - repeat split; constructor.
  - destruct (IH (r + 1)) as (H1 & H2 & H3 & H4).
    repeat split.
    + f_equal. exact H1.
    + f_equal. exact H2.
    + constructor; [reflexivity | exact H3].
    + constructor; [split; reflexivity | exact H4].
Qed.

Lemma positions_length (n : nat) : forall r, List.length (positions r n) = n.
Proof. induction n as [|n IH]; intros r; simpl; [reflexivity | now rewrite IH]. Qed.

Lemma positions_sorted (n : nat) :
  forall r, StronglySorted Z.lt (positions r n)
            /\ Forall (fun k => r <= k < r + Z.of_nat n) (positions r n).
Proof.
  induction n as [|n IH]; intros r; simpl positions.
  - split; constructor.
  - destruct (IH (r + 1)) as [Hs Hf]. split.
    + constructor; [exact Hs|].
      eapply Forall_impl; [|exact Hf]. intros k Hk. cbv beta in Hk. lia.
    + constructor; [lia|].
      eapply Forall_impl; [|exact Hf]. intros k Hk. cbv beta in Hk |- *. lia.
Qed.

(** *** Which candidate each turn names *)

Lemma rank_entry_none (cands : list Candidate) (r : Z) (entry : value) :
  rank_entry B cands r entry = Ok None -> named (List.length cands) r entry = None.
Proof.
  unfold rank_entry, named. intros H.
  bind_inv H. bind_inv H.
  destruct entry as [| | | | | |d]; simpl in Hx; try discriminate.
  injection Hx as <-. rewrite Hx0.
  destruct x0 as [i|]; [|reflexivity].
  destruct (nth_error cands i) as [company|]; [|discriminate].
  bind_inv H. destruct x as [f d'].
  bind_inv H. bind_inv H. bind_inv H. discriminate.
Qed.

Lemma rank_entries_named (cands : list Candidate) (entries : list value) :
  forall (r : Z) (results : list MatchingResult),
    rank_entries B cands r entries = Ok results ->
    Forall2 (fun m i => exists c, nth_error cands i = Some c /\ company_id m = id c)
            results (named_from (List.length cands) r entries).
Proof.
  induction entries as [|entry rest IH]; intros r results H; simpl in H.
  - injection H as <-. constructor.
  - bind_inv H. bind_inv H. injection H as <-. simpl.
    destruct x as [m|].
    + destruct (rank_entry_some _ _ _ Hx) as (_ & d & i & c & -> & Hi & Hn & Hid & _).
      simpl. rewrite Hi. constructor; [eauto | auto].
    + rewrite (rank_entry_none _ _ _ Hx). auto.
Qed.

Lemma nth_error_id_inj (cands : list Candidate) (i j : nat) (c c' : Candidate) :
  NoDup (map id cands) ->
  nth_error cands i = Some c -> nth_error cands j = Some c' -> id c = id c' ->
  i = j.
Proof.
  intros Hnd Hi Hj Hid.
  rewrite NoDup_nth_error in Hnd. apply Hnd.
  - rewrite length_map. apply nth_error_Some. congruence.
  - rewrite (map_nth_error id _ _ Hi), (map_nth_error id _ _ Hj). congruence.
Qed.

Lemma named_distinct (cands : list Candidate) (results : list MatchingResult)
  (idxs : list nat) :
  NoDup (map id cands) ->
  Forall2 (fun m i => exists c, nth_error cands i = Some c /\ company_id m = id c)
          results idxs ->
  NoDup idxs -> NoDup (map company_id results).
Proof.
  intros Hids HF. induction HF as [|m i ms is_ (c & Hc & Hm) HF IH]; intros Hnd.
  - constructor.
  - inversion Hnd as [|? ? Hnotin Hnd']; subst. simpl. constructor; [|auto].
    intros Hin. apply Hnotin.
    apply in_map_iff in Hin as (m' & Hm' & Hin').
    clear IH Hnd Hnd' Hnotin.
    induction HF as [|m2 i2 ms2 is2 (c2 & Hc2 & Hm2) HF2 IH2]; [contradiction|].
    destruct Hin' as [<-|Hin'].
    + left. eapply nth_error_id_inj; eauto. congruence.
    + right. auto.
Qed.

(** Every result comes from the turn whose position is its rank. *)
Lemma rank_entries_origin (cands : list Candidate) (entries : list value) :
  forall (r : Z) (results : list MatchingResult) (m : MatchingResult),
    rank_entries B cands r entries = Ok results ->
    In m results ->
    exists entry,
      nth_error entries (Z.to_nat (rank m - r)) = Some entry
      /\ rank_entry B cands (rank m) entry = Ok (Some m).
Proof.
  induction entries as [|entry rest IH]; intros r results m H Hin; simpl in H.
  - injection H as <-. contradiction.
  - bind_inv H. bind_inv H. injection H as <-.
    assert (Htail : In m x0 ->
              exists entry',
                nth_error (entry :: rest) (Z.to_nat (rank m - r)) = Some entry'
                /\ rank_entry B cands (rank m) entry' = Ok (Some m)).
    { intros Hm. destruct (IH _ _ _ Hx0 Hm) as (entry' & Hn & He).
      destruct (rank_entries_shape _ _ _ Hx0) as (_ & Hrange & _).
      rewrite Forall_forall in Hrange. specialize (Hrange _ Hm). cbv beta in Hrange.
      exists entry'. split; [|exact He].
      replace (Z.to_nat (rank m - r)) with (S (Z.to_nat (rank m - (r + 1)))) by lia.
      exact Hn. }
    destruct x as [m0|]; [|auto].
    destruct Hin as [<-|Hin]; [|auto].
    destruct (rank_entry_some _ _ _ Hx) as (Hr & _).
    exists entry. rewrite Hr, Z.sub_diag. split; [reflexivity | exact Hx].
Qed.

(** An entry without [final_score] is scored by the weighted formula. *)
Lemma entry_final_score_computed (d d' : dict) (f : float) :
  dict_mem "final_score" d = false ->
  entry_final_score B d = Ok (f, d') ->
  exists a q c,
    component_score B d "adequacao_estrategia" = Ok a
    /\ component_score B d "qualidade" = Ok q
    /\ component_score B d "capacidade_execucao" = Ok c
    /\ f = weighted_score a q c.
Proof.
  unfold entry_final_score. intros -> H.
  bind_inv H. bind_inv H. bind_inv H. injection H as <- _.
  exists x, x0, x1. auto.
Qed.

(** *** The whole call *)

(** A call returns either what the loop produced or the fallback list. *)
Lemma rank_call_cases (cands : list Candidate) (top_n : nat) (rd : ResponseData)
  (results : list MatchingResult) (cost : number) :
  _llm_rank_candidates B cands top_n rd = Ok (results, cost) ->
  cost = llm_cost_of rd
  /\ ((exists arr, response rd = Parsed (VList arr)
                   /\ rank_entries B cands 1 (firstn top_n arr) = Ok results)
      \/ (exists e, parse_and_rank B cands top_n (response rd) = Raise e
                    /\ handled e = true
                    /\ results = fallback_results B cands top_n e)).
Proof.
  unfold _llm_rank_candidates. intros H.
  destruct (parse_and_rank B cands top_n (response rd)) as [rs|e] eqn:Hp.
  - injection H as <- <-. split; [reflexivity|]. left.
    unfold parse_and_rank in Hp.
    destruct (response rd) as [| msg | v]; try discriminate.
    destruct v; try discriminate. eauto.
  - destruct (handled e) eqn:He; [|discriminate].
    injection H as <- <-. split; [reflexivity|]. right. eauto.
Qed.

End WithBuiltins.
End RankerFacts.

(* ------------------------------------------------------------------ *)
(** ** Ranking results of [match_companies_for_incentive] *)

Section MatchOne.
Import Py Ranker ListFacts RankerFacts.
Local Open Scope Z_scope.
Variable B : builtins.
Variable E : Orchestrator.Capabilities.

Lemma fallback_results_shape (cands : list Candidate) (top_n : nat) (e : exn) :
  let rs := fallback_results B cands top_n e in
  List.length rs = Nat.min top_n (List.length cands)
  /\ map rank rs = positions 1 (List.length rs)
  /\ map company_id rs = map id (firstn top_n cands).
Proof.
  unfold fallback_results.
  destruct (fallback_from_shape B (firstn top_n cands) e 1) as (Hr & Hc & _).
  assert (Hlen : List.length (fallback_from B 1 (firstn top_n cands) e)
                 = List.length (firstn top_n cands)).
  { rewrite <- (length_map rank), Hr. apply positions_length. }
  cbv zeta. repeat split.
  - rewrite Hlen. apply length_firstn.
  - rewrite Hlen. exact Hr.
  - exact Hc.
Qed.

(** The shape of every list the ranker returns. *)
Lemma rank_call_shape (cands : list Candidate) (top_n : nat) (rd : ResponseData)
  (results : list MatchingResult) (cost : number) :
  _llm_rank_candidates B cands top_n rd = Ok (results, cost) ->
  (List.length results <= top_n)%nat
  /\ StronglySorted Z.lt (map rank results)
  /\ Forall (fun m => 1 <= rank m <= Z.of_nat top_n) results
  /\ Forall (fun m => In (company_id m) (map id cands)) results.
Proof.
  intros H. apply rank_call_cases in H as (_ & [(arr & _ & Hl) | (e & _ & _ & ->)]).
  - destruct (rank_entries_shape _ _ _ _ Hl) as (Hlen & Hrange & Hs & Hin).
    pose proof (firstn_le_length top_n arr) as Hf.
    assert (List.length (firstn top_n arr) <= top_n)%nat
      by (rewrite length_firstn; lia).
    repeat split; try assumption; [lia|].
    eapply Forall_impl; [|exact Hrange]. intros m Hm. cbv beta in Hm. lia.
  - destruct (fallback_results_shape cands top_n e) as (Hlen & Hr & Hc).
    destruct (positions_sorted (List.length (fallback_results B cands top_n e)) 1)
      as (Hs & Hf).
    repeat split.
    + rewrite Hlen. lia.
    + rewrite Hr. exact Hs.
    + rewrite <- Hr in Hf. rewrite Forall_map in Hf.
      eapply Forall_impl; [|exact Hf]. intros m Hm. cbv beta in Hm. lia.
    + apply Forall_forall. intros m Hm.
      apply (in_map company_id) in Hm. rewrite Hc in Hm.
      apply in_map_iff in Hm as (c & <- & Hc').
      apply in_map. eapply In_firstn. exact Hc'.
Qed.


End MatchOne.

Section MatchOneExamples.
Import Py Ranker RankerFacts Examples.
Local Open Scope Z_scope.



End MatchOneExamples.

(* ------------------------------------------------------------------ *)
(** ** The fallback, the returned cost and the composite score *)

Section RankCall.
Import Py Ranker ListFacts RankerFacts.
Local Open Scope Z_scope.
Variable B : builtins.

Lemma fails_parsing_raises (cands : list Candidate) (top_n : nat) (c : content) :
  fails_parsing B cands top_n c ->
  exists e, parse_and_rank B cands top_n c = Raise e /\ handled e = true.
Proof.
  intros [msg | v Hv | arr e He Hh]; simpl.
  - eexists. split; reflexivity.
  - destruct v; try (eexists; split; reflexivity).
    exfalso. eapply Hv. reflexivity.
  - exists e. split; assumption.
Qed.


(** The ranker hands back what it read under ["total_cost"], and the
    result list does not depend on the usage dict. *)
Lemma rank_call_ignores_usage (cands : list Candidate) (top_n : nat)
  (rd rd' : ResponseData) :
  response rd = response rd' ->
  match _llm_rank_candidates B cands top_n rd,
        _llm_rank_candidates B cands top_n rd' with
  | Ok (results, cost), Ok (results', cost') =>
      results = results' /\ cost = llm_cost_of rd /\ cost' = llm_cost_of rd'
  | Raise e, Raise e' => e = e'
  | _, _ => False
  end.
Proof.
  intros Hr. unfold _llm_rank_candidates. rewrite <- Hr.
  destruct (parse_and_rank B cands top_n (response rd)) as [rs|e].
  - auto.
  - destruct (handled e); auto.
Qed.

(** Both clients store the cost of the call under ["cost"]; the ranker
    reads ["total_cost"] and finds nothing. *)
Lemma llm_cost_of_client (pricing : AIClient.Pricing) (text : content)
  (prompt_tokens completion_tokens total_tokens : Z) :
  llm_cost_of (AIClient.complete pricing text prompt_tokens completion_tokens
                 total_tokens) = Float 0%float.
Proof. reflexivity. Qed.


End RankCall.

Section RankCallExamples.
Import Py Ranker RankerFacts Examples.
Local Open Scope Z_scope.



(** C4 on a completion of the OpenAI client that cost 0.00021 dollars: the
    ranker returns the results with cost 0. *)
Theorem llm_cost_reads_wrong_key :
  exists results,
    _llm_rank_candidates PyBuiltins.python [alfa; beta] 5
      (completion (VList [scored 2 5 3 1]))
    = Ok (results, Float 0%float)
    /\ map company_id results = [20]
    /\ usage_lookup "cost"
         (usage (completion (VList [scored 2 5 3 1])))
       = Some (Float 0.00021%float)
    /\ usage_lookup "total_cost"
         (usage (completion (VList [scored 2 5 3 1])))
       = None.
Proof.
  eexists. split; [vm_compute; reflexivity|].
  repeat split; vm_compute; reflexivity.
Qed.


End RankCallExamples.

(* ------------------------------------------------------------------ *)
(** ** Facts about the [matches] table *)

Module StoreFacts.
Import Py Store ListFacts.
Local Open Scope Z_scope.

Lemma same_pair_iff (i c : Z) (r : MatchRow) :
  same_pair i c r = true <-> pair r = (i, c).
Proof.
  unfold same_pair, pair. rewrite andb_true_iff, !Z.eqb_eq.
  split; [intros [-> ->]; reflexivity | intros H; injection H; auto].
Qed.

Lemma exists_pair_iff (i c : Z) (rows : list MatchRow) :
  existsb (same_pair i c) rows = true <-> In (i, c) (map pair rows).
Proof.
  rewrite existsb_exists, in_map_iff. split.
  - intros (r & Hr & Hp). exists r. split; [now apply same_pair_iff | exact Hr].
  - intros (r & Hp & Hr). exists r. split; [exact Hr | now apply same_pair_iff].
Qed.

Lemma do_update_pairs (now i c : Z) (s : float) (rk : Z) (rs : option dict)
  (rows : list MatchRow) :
  map pair (do_update now i c s rk rs rows) = map pair rows.
Proof.
  induction rows as [|r rows IH]; simpl; [reflexivity|].
  destruct (same_pair i c r) eqn:E; simpl.
  - apply same_pair_iff in E. unfold pair at 1. simpl. now rewrite E.
  - now rewrite IH.
Qed.

(** The two ways a statement succeeds, and what a failing one leaves. *)
Lemma upsert_cases (now i c : Z) (s : float) (rk : Z) (rs : option dict)
  (t t' : Tables) (r : res unit) :
  upsert now i c s rk rs t = (r, t') ->
  incentive_ids t' = incentive_ids t /\ company_ids t' = company_ids t
  /\ match r with
     | Ok _ =>
         (check_score s && check_rank_position rk)%bool = true
         /\ ((existsb (same_pair i c) (matches t) = true
              /\ matches t' = do_update now i c s rk rs (matches t))
             \/ (existsb (same_pair i c) (matches t) = false
                 /\ matches t' = (matches t ++
                      [{| row_id := matches_id_seq t; incentive_id := i;
                          company_id := c; score := s; rank_position := rk;
                          reasoning := rs; created_at := now |}])%list))
     | Raise _ => matches t' = matches t
     end.
Proof.
  unfold upsert.
  destruct (check_score s && check_rank_position rk)%bool; simpl.
  - destruct (existsb (same_pair i c) (matches t)) eqn:Ex.
    + intros H; injection H as <- <-. simpl.
      split; [reflexivity|]. split; [reflexivity|]. split; [reflexivity|].
      left. split; reflexivity.
    + destruct (mem i (incentive_ids t) && mem c (company_ids t))%bool; simpl;
        intros H; injection H as <- <-; simpl.
      * split; [reflexivity|]. split; [reflexivity|]. split; [reflexivity|].
        right. split; reflexivity.
      * auto.
  - intros H; injection H as <- <-. simpl. auto.
Qed.

(** A statement leaves the keys as they were or adds its own, new, key. *)
Lemma upsert_pairs (now i c : Z) (s : float) (rk : Z) (rs : option dict)
  (t t' : Tables) (r : res unit) :
  upsert now i c s rk rs t = (r, t') ->
  pairs t' = pairs t
  \/ (pairs t' = (pairs t ++ [(i, c)])%list /\ ~ In (i, c) (pairs t)).
Proof.
  intros H. apply upsert_cases in H as (_ & _ & H). unfold pairs.
  destruct r as [u|e].
  - destruct H as (_ & [(_ & ->) | (Ex & ->)]).
    + left. apply do_update_pairs.
    + right. rewrite map_app. split; [reflexivity|].
      rewrite <- exists_pair_iff. congruence.
  - left. now rewrite H.
Qed.

(** What a whole call does to the keys: it appends the keys of this
    incentive that were not there, at most one per match, and removes
    none. *)
Lemma save_pairs (incentive : Z) (ms : list Ranker.MatchingResult) :
  forall (now : nat -> Z) (t t' : Tables) (r : res unit),
    NoDup (pairs t) ->
    save_matches_to_database now incentive ms t = (r, t') ->
    exists added,
      pairs t' = (pairs t ++ added)%list
      /\ NoDup (pairs t')
      /\ (List.length added <= List.length ms)%nat
      /\ Forall (fun p => fst p = incentive /\ In (snd p) (map Ranker.company_id ms))
                added.
Proof.
  induction ms as [|m ms IH]; intros now t t' r Hnd H; simpl in H.
  - injection H as <- <-. exists []. rewrite app_nil_r. simpl.
    repeat split; auto.
  - destruct (upsert (now 0%nat) incentive (Ranker.company_id m) (Ranker.score m)
                (Ranker.rank m) (reasoning_column (Ranker.reasoning m)) t)
      as [r1 t1] eqn:Hu.
    pose proof (upsert_pairs _ _ _ _ _ _ _ Hu) as Hp.
    assert (Hstep : exists a1, pairs t1 = (pairs t ++ a1)%list /\ NoDup (pairs t1)
                      /\ (List.length a1 <= 1)%nat
                      /\ Forall (fun p => fst p = incentive
                                          /\ snd p = Ranker.company_id m) a1).
    { destruct Hp as [Hp | [Hp Hn]].
      - exists []. rewrite app_nil_r, Hp. simpl. repeat split; auto.
      - exists [(incentive, Ranker.company_id m)]. rewrite Hp. simpl.
        repeat split; auto. now apply NoDup_snoc. }
    destruct Hstep as (a1 & Hp1 & Hnd1 & Hl1 & Hf1).
    destruct r1 as [u|e].
    + destruct (IH _ _ _ _ Hnd1 H) as (a2 & Hp2 & Hnd2 & Hl2 & Hf2).
      exists (a1 ++ a2)%list. rewrite Hp2, Hp1, app_assoc. repeat split.
      * rewrite <- Hp1, <- Hp2. exact Hnd2.
      * rewrite length_app. simpl. lia.
      * apply Forall_app. split.
        -- eapply Forall_impl; [|exact Hf1]. intros p [Hp' ->]. simpl. auto.
        -- eapply Forall_impl; [|exact Hf2]. intros p [Hp' Hin]. simpl. auto.
    + injection H as <- <-. exists a1. repeat split; auto.
      * simpl. lia.
      * eapply Forall_impl; [|exact Hf1]. intros p [Hp' ->]. simpl. auto.
Qed.

Lemma rows_of_length (incentive : Z) (t : Tables) :
  List.length (rows_of incentive t)
  = List.length (filter (fun p => fst p =? incentive) (pairs t)).
Proof.
  unfold rows_of, pairs. induction (matches t) as [|r rows IH]; simpl; [reflexivity|].
  destruct (incentive_id r =? incentive); simpl; now rewrite IH.
Qed.

(** *** A call that fails on the way *)

Lemma save_app (incentive : Z) (ms1 ms2 : list Ranker.MatchingResult) :
  forall (now : nat -> Z) (t : Tables),
    save_matches_to_database now incentive (ms1 ++ ms2) t
    = match save_matches_to_database now incentive ms1 t with
      | (Ok _, t1) =>
          save_matches_to_database (fun k => now (List.length ms1 + k)%nat)
            incentive ms2 t1
      | (Raise e, t1) => (Raise e, t1)
      end.
Proof.
  induction ms1 as [|m ms1 IH]; intros now t; simpl.
  - reflexivity.
  - destruct (upsert (now 0%nat) incentive (Ranker.company_id m) (Ranker.score m)
                (Ranker.rank m) (reasoning_column (Ranker.reasoning m)) t)
      as [[u|e] t1]; [|reflexivity].
    apply IH.
Qed.

(** When the statement of some match raises, the call raises the same
    exception and the rows written for the matches before it stay. *)
Lemma save_keeps_written_prefix (now : nat -> Z) (incentive : Z)
  (ms1 ms2 : list Ranker.MatchingResult) (m : Ranker.MatchingResult)
  (t t1 t2 : Tables) (e : exn) :
  save_matches_to_database now incentive ms1 t = (Ok tt, t1) ->
  upsert (now (List.length ms1)) incentive (Ranker.company_id m) (Ranker.score m)
    (Ranker.rank m) (reasoning_column (Ranker.reasoning m)) t1 = (Raise e, t2) ->
  save_matches_to_database now incentive (ms1 ++ m :: ms2) t = (Raise e, t2)
  /\ matches t2 = matches t1.
Proof.
  intros H1 H2. rewrite save_app, H1. simpl.
  rewrite Nat.add_0_r, H2. split; [reflexivity|].
  now apply upsert_cases in H2 as (_ & _ & H2).
Qed.

(** *** What a call leaves in the rows it names *)

Lemma last_for_cons (c : Z) (m : Ranker.MatchingResult)
  (ms : list Ranker.MatchingResult) :
  last_for c (m :: ms) =
  match last_for c ms with
  | Some x => Some x
  | None => if names_company c m then Some m else None
  end.
Proof. unfold last_for. simpl. rewrite find_app. reflexivity. Qed.

Lemma last_for_none (c : Z) (ms : list Ranker.MatchingResult) :
  last_for c ms = None <-> ~ In c (map Ranker.company_id ms).
Proof.
  unfold last_for. split.
  - intros H Hin. apply in_map_iff in Hin as (m & Hm & Hin).
    apply in_rev in Hin.
    pose proof (find_none _ _ H _ Hin) as Hf.
    unfold names_company in Hf. apply Z.eqb_neq in Hf. contradiction.
  - intros H. destruct (find (names_company c) (rev ms)) as [m|] eqn:Hf; [|reflexivity].
    apply find_some in Hf as [Hin Hc]. apply in_rev in Hin.
    unfold names_company in Hc. apply Z.eqb_eq in Hc.
    exfalso. apply H. rewrite <- Hc. now apply in_map.
Qed.

Lemma do_update_written (now i c : Z) (s : float) (rk : Z) (rs : option dict)
  (rows : list MatchRow) (r : MatchRow) :
  NoDup (map pair rows) ->
  In r (do_update now i c s rk rs rows) -> pair r = (i, c) ->
  score r = s /\ rank_position r = rk /\ reasoning r = rs.
Proof.
  induction rows as [|r0 rows IH]; simpl; intros Hnd Hin Hp; [contradiction|].
  inversion Hnd as [|? ? Hnotin Hnd']; subst.
  destruct (same_pair i c r0) eqn:E.
  - destruct Hin as [<-|Hin]; [simpl; auto|].
    exfalso. apply Hnotin. apply same_pair_iff in E. rewrite E, <- Hp.
    now apply in_map.
  - destruct Hin as [<-|Hin]; [|auto].
    apply same_pair_iff in Hp. congruence.
Qed.

Lemma do_update_other (now i c : Z) (s : float) (rk : Z) (rs : option dict)
  (rows : list MatchRow) (r : MatchRow) :
  In r (do_update now i c s rk rs rows) -> pair r <> (i, c) -> In r rows.
Proof.
  induction rows as [|r0 rows IH]; simpl; intros Hin Hp; [contradiction|].
  destruct (same_pair i c r0) eqn:E.
  - destruct Hin as [<-|Hin]; [|auto]. exfalso. apply Hp. reflexivity.
  - destruct Hin as [<-|Hin]; auto.
Qed.

(** After a successful statement the row of its key holds its values. *)
Lemma upsert_written (now i c : Z) (s : float) (rk : Z) (rs : option dict)
  (t t' : Tables) (r : MatchRow) :
  NoDup (pairs t) ->
  upsert now i c s rk rs t = (Ok tt, t') ->
  In r (matches t') -> pair r = (i, c) ->
  score r = s /\ rank_position r = rk /\ reasoning r = rs.
Proof.
  intros Hnd H Hin Hp. apply upsert_cases in H as (_ & _ & _ & [(_ & Hm) | (Ex & Hm)]);
    rewrite Hm in Hin.
  - eapply do_update_written; eassumption.
  - apply in_app_or in Hin as [Hin | [<- | []]]; [|simpl; auto].
    exfalso. apply (in_map pair) in Hin. rewrite Hp in Hin.
    apply exists_pair_iff in Hin. congruence.
Qed.

(** A statement does not touch the rows of other keys. *)
Lemma upsert_other (now i c : Z) (s : float) (rk : Z) (rs : option dict)
  (t t' : Tables) (res : res unit) (r : MatchRow) :
  upsert now i c s rk rs t = (res, t') ->
  In r (matches t') -> pair r <> (i, c) -> In r (matches t).
Proof.
  intros H Hin Hp. apply upsert_cases in H as (_ & _ & H).
  destruct res as [u|e].
  - destruct H as (_ & [(_ & Hm) | (_ & Hm)]); rewrite Hm in Hin.
    + eapply do_update_other; eassumption.
    + apply in_app_or in Hin as [Hin | [<- | []]]; [exact Hin|].
      exfalso. apply Hp. reflexivity.
  - now rewrite H in Hin.
Qed.

Lemma save_other (incentive : Z) (ms : list Ranker.MatchingResult) :
  forall (now : nat -> Z) (t t' : Tables) (res : res unit) (r : MatchRow),
    save_matches_to_database now incentive ms t = (res, t') ->
    In r (matches t') ->
    incentive_id r <> incentive \/ ~ In (company_id r) (map Ranker.company_id ms) ->
    In r (matches t).
Proof.
  induction ms as [|m ms IH]; intros now t t' res r H Hin Hr; simpl in H.
  - injection H as <- <-. exact Hin.
  - destruct (upsert (now 0%nat) incentive (Ranker.company_id m) (Ranker.score m)
                (Ranker.rank m) (reasoning_column (Ranker.reasoning m)) t)
      as [r1 t1] eqn:Hu.
    assert (Hp : pair r <> (incentive, Ranker.company_id m)).
    { unfold pair. intros Hp. injection Hp as Hi Hc.
      destruct Hr as [Hr|Hr]; [contradiction|]. apply Hr. simpl. auto. }
    destruct r1 as [u|e].
    + eapply upsert_other; [exact Hu | | exact Hp].
      eapply IH; [exact H | exact Hin |].
      destruct Hr as [Hr|Hr]; [now left | right]. simpl in Hr. tauto.
    + injection H as <- <-. eapply upsert_other; eassumption.
Qed.

(** After a successful call every row of the incentive whose company the
    list names holds the values of the last match naming it. *)
Lemma save_last (incentive : Z) (ms : list Ranker.MatchingResult) :
  forall (now : nat -> Z) (t t' : Tables) (r : MatchRow) (m : Ranker.MatchingResult),
    NoDup (pairs t) ->
    save_matches_to_database now incentive ms t = (Ok tt, t') ->
    In r (matches t') -> incentive_id r = incentive ->
    last_for (company_id r) ms = Some m ->
    writes m r.
Proof.
  induction ms as [|m0 ms IH]; intros now t t' r m Hnd H Hin Hi Hl; simpl in H.
  - discriminate.
  - destruct (upsert (now 0%nat) incentive (Ranker.company_id m0) (Ranker.score m0)
                (Ranker.rank m0) (reasoning_column (Ranker.reasoning m0)) t)
      as [r1 t1] eqn:Hu.
    destruct r1 as [[]|e]; [|discriminate].
    assert (Hnd1 : NoDup (pairs t1)).
    { destruct (upsert_pairs _ _ _ _ _ _ _ Hu) as [-> | [-> Hn]];
        [exact Hnd | now apply NoDup_snoc]. }
    rewrite last_for_cons in Hl.
    destruct (last_for (company_id r) ms) as [m'|] eqn:Hl'.
    + injection Hl as <-. eapply IH; eassumption.
    + destruct (names_company (company_id r) m0) eqn:Hc; [|discriminate].
      injection Hl as <-. unfold names_company in Hc. apply Z.eqb_eq in Hc.
      apply last_for_none in Hl'.
      assert (Hin1 : In r (matches t1)) by (eapply save_other; eauto).
      unfold writes. apply (@upsert_written _ _ _ _ _ _ _ _ _ Hnd Hu Hin1).
      unfold pair. congruence.
Qed.

(** After a successful call every match has its row, and passed the
    checks. *)
Lemma save_present (incentive : Z) (ms : list Ranker.MatchingResult) :
  forall (now : nat -> Z) (t t' : Tables) (m : Ranker.MatchingResult),
    NoDup (pairs t) ->
    save_matches_to_database now incentive ms t = (Ok tt, t') ->
    In m ms ->
    In (incentive, Ranker.company_id m) (pairs t')
    /\ (check_score (Ranker.score m) && check_rank_position (Ranker.rank m))%bool = true.
Proof.
  induction ms as [|m0 ms IH]; intros now t t' m Hnd H Hin; simpl in H.
  - contradiction.
  - destruct (upsert (now 0%nat) incentive (Ranker.company_id m0) (Ranker.score m0)
                (Ranker.rank m0) (reasoning_column (Ranker.reasoning m0)) t)
      as [r1 t1] eqn:Hu.
    destruct r1 as [[]|e]; [|discriminate].
    assert (Hnd1 : NoDup (pairs t1)).
    { destruct (upsert_pairs _ _ _ _ _ _ _ Hu) as [-> | [-> Hn]];
        [exact Hnd | now apply NoDup_snoc]. }
    destruct Hin as [<-|Hin]; [|eapply IH; eassumption].
    destruct (save_pairs _ _ _ _ Hnd1 H) as (added & Hp & _).
    pose proof (upsert_cases _ _ _ _ _ _ _ Hu) as (_ & _ & Hchk & Hcase).
    split; [|exact Hchk].
    rewrite Hp. apply in_or_app. left. unfold pairs.
    destruct Hcase as [(Ex & ->) | (_ & ->)].
    + rewrite do_update_pairs. now apply exists_pair_iff.
    + rewrite map_app. apply in_or_app. right. simpl. auto.
Qed.

(** *** Saving the same list again *)

Lemma save_again (incentive : Z) (ms : list Ranker.MatchingResult) :
  forall (now : nat -> Z) (t : Tables),
    (forall m, In m ms ->
       In (incentive, Ranker.company_id m) (pairs t)
       /\ (check_score (Ranker.score m) && check_rank_position (Ranker.rank m))%bool
          = true) ->
    exists t',
      save_matches_to_database now incentive ms t = (Ok tt, t')
      /\ matches t' = update_all now incentive ms (matches t).
Proof.
  induction ms as [|m ms IH]; intros now t Hall; simpl.
  - eauto.
  - destruct (Hall m (or_introl eq_refl)) as [Hin Hchk].
    unfold upsert. rewrite Hchk. simpl.
    apply exists_pair_iff in Hin. rewrite Hin.
    apply IH. simpl. intros m' Hm'. destruct (Hall m' (or_intror Hm')) as [Hin' Hchk'].
    split; [|exact Hchk']. unfold pairs. simpl. now rewrite do_update_pairs.
Qed.

Lemma same_pair_forget (i c : Z) (r : MatchRow) :
  same_pair i c (forget r) = same_pair i c r.
Proof. reflexivity. Qed.

Lemma do_update_forget (now i c : Z) (s : float) (rk : Z) (rs : option dict)
  (rows : list MatchRow) :
  map forget (do_update now i c s rk rs rows)
  = do_update 0 i c s rk rs (map forget rows).
Proof.
  induction rows as [|r rows IH]; simpl; [reflexivity|].
  rewrite same_pair_forget. destruct (same_pair i c r); simpl.
  - reflexivity.
  - now rewrite IH.
Qed.

Lemma update_all_forget (incentive : Z) (ms : list Ranker.MatchingResult) :
  forall (now : nat -> Z) (rows : list MatchRow),
    map forget (update_all now incentive ms rows)
    = update_all (fun _ => 0) incentive ms (map forget rows).
Proof.
  induction ms as [|m ms IH]; intros now rows; simpl; [reflexivity|].
  now rewrite IH, do_update_forget.
Qed.

Lemma agree_refl (incentive : Z) (cs : list Z) (rows : list MatchRow) :
  agree incentive cs rows rows.
Proof. induction rows; constructor; auto. Qed.

Lemma agree_nil (incentive : Z) (rows rows' : list MatchRow) :
  agree incentive [] rows rows' -> rows = rows'.
Proof.
  induction 1 as [|r r' rows rows' [Hr | (_ & _ & _ & [])] _ IH].
  - reflexivity.
  - now subst.
Qed.

(** A company without a row of this incentive can be left out. *)
Lemma agree_drop (incentive c : Z) (cs : list Z) (rows rows' : list MatchRow) :
  ~ In (incentive, c) (map pair rows) ->
  agree incentive (c :: cs) rows rows' -> agree incentive cs rows rows'.
Proof.
  intros Hnotin Ha. revert Hnotin.
  induction Ha as [|x x' xs xs' Hx Ha IH]; intros Hnotin; constructor.
  - destruct Hx as [->|(Hpx & Hidx & Hix & [Hc|Hcx])].
    + now left.
    + exfalso. apply Hnotin. simpl. left. unfold pair. congruence.
    + right. auto.
  - apply IH. intros Hin. apply Hnotin. simpl. auto.
Qed.

(** One statement makes the rows of its company equal on both sides. *)
Lemma do_update_agree (incentive c : Z) (cs : list Z) (s : float) (rk : Z)
  (rs : option dict) (rows rows' : list MatchRow) :
  NoDup (map pair rows) ->
  agree incentive (c :: cs) rows rows' ->
  agree incentive cs (do_update 0 incentive c s rk rs rows)
                     (do_update 0 incentive c s rk rs rows').
Proof.
  intros Hnd Ha. revert Hnd.
  induction Ha as [|r r' rows rows' Hr Ha IH]; intros Hnd; simpl.
  - constructor.
  - inversion Hnd as [|? ? Hnotin Hnd']; subst.
    assert (Hp : pair r = pair r') by (destruct Hr as [->|(Hp & _)]; auto).
    assert (Hid : row_id r = row_id r') by (destruct Hr as [->|(_ & Hid & _)]; auto).
    assert (Hsame : same_pair incentive c r' = same_pair incentive c r).
    { unfold same_pair. unfold pair in Hp. injection Hp as -> ->. reflexivity. }
    rewrite Hsame. destruct (same_pair incentive c r) eqn:E.
    + constructor; [left; now rewrite Hid|].
      apply same_pair_iff in E. rewrite E in Hnotin.
      eapply agree_drop; eassumption.
    + constructor; [|exact (IH Hnd')].
      destruct Hr as [->|(Hpr & Hidr & Hir & [Hc|Hcr])].
      * now left.
      * exfalso. assert (same_pair incentive c r = true).
        { apply same_pair_iff. unfold pair. congruence. }
        congruence.
      * right. auto.
Qed.

(** Rows that differ only where the list writes end up equal. *)
Lemma update_all_absorbs (incentive : Z) (ms : list Ranker.MatchingResult) :
  forall rows rows' : list MatchRow,
    NoDup (map pair rows) ->
    agree incentive (map Ranker.company_id ms) rows rows' ->
    update_all (fun _ => 0) incentive ms rows
    = update_all (fun _ => 0) incentive ms rows'.
Proof.
  induction ms as [|m ms IH]; intros rows rows' Hnd Ha; simpl.
  - eapply agree_nil; exact Ha.
  - apply IH.
    + now rewrite do_update_pairs.
    + apply do_update_agree; assumption.
Qed.

(** Writing into a row the values it already holds changes nothing. *)
Lemma do_update_same (incentive : Z) (m : Ranker.MatchingResult)
  (cs : list Z) (rows : list MatchRow) :
  (forall r, In r rows -> created_at r = 0) ->
  (forall r, In r rows -> pair r = (incentive, Ranker.company_id m) ->
             In (Ranker.company_id m) cs \/ writes m r) ->
  agree incentive cs
    (do_update 0 incentive (Ranker.company_id m) (Ranker.score m) (Ranker.rank m)
       (reasoning_column (Ranker.reasoning m)) rows)
    rows.
Proof.
  induction rows as [|r rows IH]; intros Ht Hw; simpl.
  - constructor.
  - destruct (same_pair incentive (Ranker.company_id m) r) eqn:E.
    + constructor; [|apply agree_refl].
      apply same_pair_iff in E.
      destruct (Hw r (or_introl eq_refl) E) as [Hin | (Hs & Hk & Hr)].
      * right. unfold pair in *. simpl. injection E as Hi Hc.
        repeat split; auto; congruence.
      * left. specialize (Ht r (or_introl eq_refl)).
        unfold pair in E. injection E as Hi Hc.
        destruct r; simpl in *. congruence.
    + constructor; [now left|].
      apply IH; intros; [apply Ht | apply Hw]; simpl; auto.
Qed.

(** A list of rows that already holds, for every company the list names,
    the values of the last match naming it, is left as it is. *)
Lemma update_all_fixed (incentive : Z) (ms : list Ranker.MatchingResult) :
  forall rows : list MatchRow,
    NoDup (map pair rows) ->
    (forall r, In r rows -> created_at r = 0) ->
    (forall r m, In r rows -> incentive_id r = incentive ->
                 last_for (company_id r) ms = Some m -> writes m r) ->
    update_all (fun _ => 0) incentive ms rows = rows.
Proof.
  induction ms as [|m ms IH]; intros rows Hnd Ht Hl; simpl; [reflexivity|].
  rewrite (@update_all_absorbs incentive ms _ rows).
  - apply IH; try assumption.
    intros r m' Hin Hi Hm'. apply (Hl r m' Hin Hi).
    rewrite last_for_cons, Hm'. reflexivity.
  - now rewrite do_update_pairs.
  - apply do_update_same; [exact Ht|].
    intros r Hin Hp.
    destruct (in_dec Z.eq_dec (Ranker.company_id m) (map Ranker.company_id ms))
      as [Hc|Hc]; [now left | right].
    unfold pair in Hp. injection Hp as Hi Hcr.
    apply (Hl r m Hin Hi). rewrite last_for_cons.
    rewrite Hcr. apply last_for_none in Hc. rewrite Hc.
    unfold names_company. now rewrite Z.eqb_refl.
Qed.

Lemma one_row_per_pair (i c : Z) (rows : list MatchRow) :
  NoDup (map pair rows) -> In (i, c) (map pair rows) ->
  List.length (filter (same_pair i c) rows) = 1%nat.
Proof.
  induction rows as [|r rows IH]; simpl; intros Hnd Hin; [contradiction|].
  inversion Hnd as [|? ? Hnotin Hnd']; subst.
  destruct (same_pair i c r) eqn:E.
  - simpl. f_equal. apply same_pair_iff in E.
    destruct (filter (same_pair i c) rows) as [|x xs] eqn:Hf; [reflexivity|].
    exfalso. assert (Hx : In x (filter (same_pair i c) rows)) by (rewrite Hf; now left).
    apply filter_In in Hx as [Hx Hs]. apply same_pair_iff in Hs.
    apply Hnotin. rewrite E, <- Hs. now apply in_map.
  - destruct Hin as [Hin|Hin]; [|auto].
    apply same_pair_iff in Hin. congruence.
Qed.

End StoreFacts.

(* ------------------------------------------------------------------ *)
(** ** Rows per incentive *)

Section RowsPerIncentive.
Import Py Store StoreFacts.
Local Open Scope Z_scope.


End RowsPerIncentive.

(* ------------------------------------------------------------------ *)
(** ** Saving twice, and saving that fails on the way *)

Section SaveTwice.
Import Py Store StoreFacts.
Local Open Scope Z_scope.

(** C8. When a call of [save_matches_to_database] has succeeded, calling it
    again with the same incentive and the same list succeeds too and
    leaves the same rows, in the same order and with the same ids, scores,
    rank positions and reasoning: only [created_at] may differ. Each
    (incentive, company) pair of the list has exactly one row. *)
Theorem save_is_idempotent (now now' : nat -> Z) (incentive : Z)
  (ms : list Ranker.MatchingResult) (t t1 : Tables) :
  NoDup (pairs t) ->
  save_matches_to_database now incentive ms t = (Ok tt, t1) ->
  exists t2,
    save_matches_to_database now' incentive ms t1 = (Ok tt, t2)
    /\ map forget (matches t2) = map forget (matches t1)
    /\ forall m, In m ms ->
         List.length (filter (same_pair incentive (Ranker.company_id m)) (matches t2))
         = 1%nat.
Proof.
  intros Hnd H1.
  destruct (save_pairs _ _ _ _ Hnd H1) as (_ & _ & Hnd1 & _).
  destruct (@save_again incentive ms now' t1) as (t2 & H2 & Hm2).
  { intros m Hm. exact (@save_present incentive ms now t t1 m Hnd H1 Hm). }
  exists t2. split; [exact H2|].
  assert (Hsame : map forget (matches t2) = map forget (matches t1)).
  { rewrite Hm2, update_all_forget. apply update_all_fixed.
    - unfold pairs in Hnd1. rewrite map_map. exact Hnd1.
    - intros r Hr. apply in_map_iff in Hr as (r0 & <- & _). reflexivity.
    - intros r m Hr Hi Hl. apply in_map_iff in Hr as (r0 & <- & Hr0).
      exact (@save_last incentive ms now t t1 r0 m Hnd H1 Hr0 Hi Hl). }
  split; [exact Hsame|].
  intros m Hm.
  assert (Hp2 : map pair (matches t2) = pairs t1).
  { assert (Hpf : forall rows, map pair (map forget rows) = map pair rows)
      by (intros rows; rewrite map_map; reflexivity).
    unfold pairs. now rewrite <- (Hpf (matches t2)), Hsame, Hpf. }
  apply one_row_per_pair.
  - rewrite Hp2. exact Hnd1.
  - rewrite Hp2. exact (proj1 (@save_present incentive ms now t t1 m Hnd H1 Hm)).
Qed.

End SaveTwice.

Section StoreExamples.
Import Py Store StoreFacts Examples.
Local Open Scope Z_scope.

(** Saving the two fallback results twice into the empty table. *)
Lemma save_is_idempotent_witness :
  exists t1 t2,
    save_matches_to_database ticks 1 two_matches empty_tables = (Ok tt, t1)
    /\ save_matches_to_database later 1 two_matches t1 = (Ok tt, t2)
    /\ map forget (matches t2) = map forget (matches t1)
    /\ map created_at (matches t1) = [1000; 1001]
    /\ map created_at (matches t2) = [2000; 2001].
Proof.
  eexists.
  assert (Hnd : NoDup (pairs empty_tables)) by constructor.
  destruct (@save_is_idempotent ticks later 1 two_matches empty_tables _
              Hnd eq_refl) as (t2 & H2 & Hsame & _).
  exists t2. split; [reflexivity|]. split; [exact H2|]. split; [exact Hsame|].
  split; [reflexivity|].
  vm_compute in H2. injection H2 as <-. reflexivity.
Defined.


(** C6 on a list of two results whose second company is gone from
    [companies]: the second statement raises, the call fails, and the
    row written by the first statement stays in the table. *)
Theorem save_stops_halfway :
  exists e t',
    save_matches_to_database ticks 1 two_matches without_beta = (Raise e, t')
    /\ exn_kind e = ForeignKeyViolationError
    /\ map company_id (rows_of 1 t') = [10]
    /\ List.length (rows_of 1 t') <> List.length two_matches
    /\ List.length (rows_of 1 t') <> List.length (rows_of 1 without_beta).
Proof.
  eexists. eexists. split; [vm_compute; reflexivity|].
  repeat split; try reflexivity; simpl; discriminate.
Qed.


End StoreExamples.

(* ------------------------------------------------------------------ *)
(** ** The orchestrator: missing incentives and the batch ceiling *)

Section Orchestration.
Import Py Orchestrator.
Local Open Scope Z_scope.
Variable B : builtins.
Variable E : Capabilities.

(** The ranker only lets exceptions of unhandled classes through. *)
Lemma rank_call_raises (cands : list Ranker.Candidate) (top_n : nat)
  (rd : Ranker.ResponseData) (e : exn) :
  Ranker._llm_rank_candidates B cands top_n rd = Raise e -> Ranker.handled e = false.
Proof.
  unfold Ranker._llm_rank_candidates.
  destruct (Ranker.parse_and_rank B cands top_n (Ranker.response rd)) as [rs|e'];
    [discriminate|].
  destruct (Ranker.handled e') eqn:He; [discriminate|].
  intros H; injection H as <-. exact He.
Qed.


(** In the batch loop the running total is never written. *)
Lemma batch_loop_total (max_cost_total : option float) (save_to_db : bool)
  (todo : list IncentiveRow) :
  forall (acc acc' : Tally) (st st' : State),
    batch_loop B E max_cost_total save_to_db todo acc st = (acc', st') ->
    total_cost acc' = total_cost acc.
Proof.
  induction todo as [|incentive rest IH]; intros acc acc' st st' H; simpl in H.
  - now injection H as <- _.
  - destruct (truthy max_cost_total &&
              match max_cost_total with
              | Some c => PrimFloat.leb c (total_cost acc)
              | None => false
              end)%bool.
    + now injection H as <- _.
    + destruct (match_and_save B E max_cost_total save_to_db (total_cost acc)
                  incentive st) as [[matches|e] st1];
        apply IH in H; exact H.
Qed.

(** Unless the ceiling is negative, every incentive is processed. *)
Lemma batch_loop_counts (max_cost_total : option float) (save_to_db : bool)
  (todo : list IncentiveRow) :
  stops_at_zero max_cost_total = false ->
  forall (acc acc' : Tally) (st st' : State),
    total_cost acc = 0%float ->
    batch_loop B E max_cost_total save_to_db todo acc st = (acc', st') ->
    (successful acc' + failed acc'
     = successful acc + failed acc + List.length todo)%nat.
Proof.
  intros Hstop.
  induction todo as [|incentive rest IH]; intros acc acc' st st' Hz H; simpl in H.
  - injection H as <- _. simpl. lia.
  - rewrite Hz in H. unfold stops_at_zero in Hstop. rewrite Hstop in H.
    destruct (match_and_save B E max_cost_total save_to_db 0 incentive st)
      as [[matches|e] st1];
      apply IH in H; simpl in H |- *; try reflexivity; lia.
Qed.

Lemma positive_ceiling_never_stops (c : float) :
  PrimFloat.ltb 0 c = true -> stops_at_zero (Some c) = false.
Proof.
  intros H. unfold stops_at_zero. simpl.
  rewrite ltb_spec in H. rewrite leb_spec.
  unfold SFltb in H. unfold SFleb.
  replace (Prim2SF 0) with (S754_zero false) in * by reflexivity.
  destruct (Prim2SF c) as [s|s| |s m e]; simpl in *;
    try destruct s; simpl in *; try discriminate;
    now rewrite andb_false_r.
Qed.

(** Whatever the ceiling, the summary reports a total cost of zero; and
    with no ceiling, a zero ceiling or a positive one, the batch goes
    through every incentive. *)
Lemma batch_never_reaches_ceiling (max_cost_total : option float)
  (save_to_db : bool) (st st' : State) (summary : Summary) :
  batch_match_all_incentives B E max_cost_total save_to_db st = (summary, st') ->
  summary_total_cost summary = 0%float
  /\ (stops_at_zero max_cost_total = false ->
      (successful_matches summary + failed_matches summary
       = total_incentives summary)%nat).
Proof.
  unfold batch_match_all_incentives.
  destruct (batch_loop B E max_cost_total save_to_db (incentives st)
              {| total_cost := 0; successful := 0; failed := 0;
                 results_by_incentive := [] |} st) as [acc st1] eqn:Hl.
  intros H; injection H as <- <-. simpl. split.
  - now apply batch_loop_total in Hl.
  - intros Hstop.
    eapply batch_loop_counts in Hl; [exact Hl | exact Hstop | reflexivity].
Qed.

End Orchestration.

Section OrchestrationExamples.
Import Py Orchestrator Examples.
Local Open Scope Z_scope.


(** C3 with a ceiling of zero: both incentives are processed, the scoring
    capability is called for the embedded one, and the summary reports two
    successes. *)
Theorem batch_ignores_zero_ceiling :
  exists summary st',
    batch_match_all_incentives PyBuiltins.python stray_service (Some 0%float) true
      start = (summary, st')
    /\ total_incentives summary = 2%nat
    /\ successful_matches summary = 2%nat
    /\ failed_matches summary = 0%nat
    /\ llm_calls st' = 1%nat
    /\ summary_total_cost summary = 0%float.
Proof.
  eexists. eexists. split; [vm_compute; reflexivity|].
  repeat split; reflexivity.
Qed.

(** With a ceiling of 0.0001 dollars and calls that each cost 0.00021, the
    batch still scores both incentives. *)
Lemma batch_ignores_reached_ceiling :
  exists summary st',
    batch_match_all_incentives PyBuiltins.python steady_service (Some 0.0001%float)
      true both_embedded = (summary, st')
    /\ successful_matches summary = 2%nat
    /\ llm_calls st' = 2%nat
    /\ Ranker.usage_lookup "cost" (Ranker.usage (completion (VList [names 1])))
       = Some (Ranker.Float 0.00021%float)
    /\ summary_total_cost summary = 0%float.
Proof.
  eexists. eexists. split; [vm_compute; reflexivity|].
  repeat split; vm_compute; reflexivity.
Qed.

End OrchestrationExamples.

(* ------------------------------------------------------------------ *)
(** ** Facts about the pre-filter *)

Module PreFilterFacts.
Import Py PreFilter ListFacts.
Local Open Scope list_scope.

Lemma option_eqb_eq {A} (eqb : A -> A -> bool) (x y : option A) :
  (forall a b, eqb a b = true -> a = b) -> option_eqb eqb x y = true -> x = y.
Proof.
  intros Heq. destruct x as [a|], y as [b|]; simpl; try discriminate; auto.
  intros H. f_equal. auto.
Qed.

Lemma company_eqb_eq (a b : CompanyModel) : company_eqb a b = true <-> a = b.
Proof.
  split.
  - unfold company_eqb. rewrite !andb_true_iff.
    intros (((((H1 & H2) & H3) & H4) & H5) & H6).
    apply (option_eqb_eq Z.eqb) in H1; [|intros ? ?; apply Z.eqb_eq].
    apply String.eqb_eq in H2.
    apply (option_eqb_eq String.eqb) in H3; [|intros ? ?; apply String.eqb_eq].
    apply (option_eqb_eq String.eqb) in H4; [|intros ? ?; apply String.eqb_eq].
    apply (option_eqb_eq String.eqb) in H5; [|intros ? ?; apply String.eqb_eq].
    apply (option_eqb_eq Z.eqb) in H6; [|intros ? ?; apply Z.eqb_eq].
    destruct a, b; simpl in *. congruence.
  - intros <-. unfold company_eqb.
    assert (Hz : forall o : option Z, option_eqb Z.eqb o o = true)
      by (intros [z|]; simpl; [apply Z.eqb_refl | reflexivity]).
    assert (Hs : forall o : option string, option_eqb String.eqb o o = true)
      by (intros [s|]; simpl; [apply String.eqb_refl | reflexivity]).
    now rewrite !Hz, !Hs, String.eqb_refl.
Qed.

Lemma company_in_iff (c : CompanyModel) (l : list CompanyModel) :
  company_in c l = true <-> In c l.
Proof.
  unfold company_in. rewrite existsb_exists. split.
  - intros (x & Hx & He). apply company_eqb_eq in He. now subst.
  - intros H. exists c. split; [exact H | now apply company_eqb_eq].
Qed.

Section WithBuiltins.
Variable B : builtins.
Variable random_sample : list CompanyModel -> nat -> list CompanyModel.

(** The scan keeps the first [target_count] companies that match. *)
Lemma broad_scan_spec (kws : list string) (target_count : nat)
  (all_companies : list CompanyModel) :
  forall candidates,
    broad_scan B kws target_count all_companies candidates
    = candidates ++ firstn (target_count - List.length candidates)
                      (filter (broad_match B kws) all_companies).
Proof.
  induction all_companies as [|company rest IH]; intros candidates; simpl.
  - now rewrite firstn_nil, app_nil_r.
  - destruct (Nat.leb target_count (List.length candidates)) eqn:E.
    + apply Nat.leb_le in E.
      replace (target_count - List.length candidates)%nat with 0%nat by lia.
      now rewrite app_nil_r.
    + apply Nat.leb_gt in E.
      destruct (broad_match B kws company).
      * rewrite IH, length_app, <- app_assoc. simpl.
        replace (target_count - List.length candidates)%nat
          with (S (target_count - (List.length candidates + 1))) by lia.
        reflexivity.
      * apply IH.
Qed.

(** *** The stages only select *)

Lemma sector_keyword_walk_In (table : list (string * list string))
  (tl : list string) (cae : string) (company : CompanyModel) :
  forall filtered x,
    In x (sector_keyword_walk B table tl cae company filtered) ->
    x = company \/ In x filtered.
Proof.
  induction table as [|[sector keywords] table IH]; intros filtered x; simpl.
  - auto.
  - destruct (str_in sector tl); [|apply IH].
    destruct (existsb (fun keyword => contains cae (str_lower B keyword)) keywords).
    + destruct (company_in company (filtered ++ [company])).
      * intros H. apply in_app_or in H as [H | [<- | []]]; auto.
      * intros H. apply IH in H as [H|H]; auto.
        apply in_app_or in H as [H | [<- | []]]; auto.
    + destruct (company_in company filtered); [auto | apply IH].
Qed.

Lemma sector_loop_In (tl : list string) (companies : list CompanyModel) :
  forall filtered x,
    In x (sector_loop B tl companies filtered) -> In x companies \/ In x filtered.
Proof.
  induction companies as [|company rest IH]; intros filtered x; cbn [sector_loop In].
  - auto.
  - assert (Hstep : forall f,
               (forall y, In y f -> y = company \/ In y filtered) ->
               In x (sector_loop B tl rest f) ->
               (company = x \/ In x rest) \/ In x filtered).
    { intros f Hf H. apply IH in H as [H|H]; [auto|].
      apply Hf in H as [->|H]; auto. }
    destruct (cae_primary_label company) as [[|a label]|].
    + apply Hstep. auto.
    + destruct (existsb _ tl).
      * apply Hstep. intros y Hy.
        apply in_app_or in Hy as [Hy | [<- | []]]; auto.
      * apply Hstep. intros y Hy.
        apply sector_keyword_walk_In in Hy as [->|Hy]; auto.
    + apply Hstep. auto.
Qed.

Lemma insert_desc_In {A K} (key : A -> K) (lt : K -> K -> bool) (x y : A) (l : list A) :
  In x (insert_desc key lt y l) -> x = y \/ In x l.
Proof.
  induction l as [|z l IH]; simpl.
  - intros [<-|[]]. now left.
  - destruct (lt (key y) (key z)).
    + intros [<-|H]; [right; now left|].
      apply IH in H as [H|H]; [now left | right; now right].
    + intros [<-|H]; [now left | now right].
Qed.

Lemma sort_desc_In {A K} (key : A -> K) (lt : K -> K -> bool) (x : A) (l : list A) :
  In x (sort_desc key lt l) -> In x l.
Proof.
  induction l as [|y l IH]; simpl; [auto|].
  intros H. apply insert_desc_In in H as [<-|H]; auto.
Qed.

(** What survives the stages is part of the input. *)
Lemma surviving_incl (companies : list CompanyModel) (incentive : IncentiveModel)
  (target_count : nat) (x : CompanyModel) :
  In x (surviving B companies incentive target_count) -> In x companies.
Proof.
  unfold surviving.
  set (criteria := _extract_incentive_criteria B incentive).
  set (s1 := match crit_target_sectors criteria with
             | [] => companies
             | _ => _filter_by_sector B companies (crit_target_sectors criteria)
             end).
  assert (H1 : In x s1 -> In x companies).
  { unfold s1, _filter_by_sector.
    destruct (crit_target_sectors criteria); [auto|].
    intros H. apply sector_loop_In in H as [H|[]]. exact H. }
  set (s2 := match relevant_keywords criteria with
             | [] => s1
             | _ => _filter_by_keywords B s1 (relevant_keywords criteria)
             end).
  assert (H2 : In x s2 -> In x s1).
  { unfold s2, _filter_by_keywords.
    destruct (relevant_keywords criteria); [auto|].
    intros H. now apply filter_In in H. }
  set (focus := (if crit_innovation_focus criteria then innovation_keywords else [])
                ++ (if crit_sustainability_focus criteria then sustainability_keywords else [])
                ++ (if crit_digital_focus criteria then digital_keywords else [])).
  set (s3 := match focus with
             | [] => s2
             | _ => _filter_by_focus_areas B s2 focus
             end).
  assert (H3 : In x s3 -> In x s2).
  { unfold s3, _filter_by_focus_areas.
    destruct focus; [auto|].
    intros H. now apply filter_In in H. }
  destruct (Nat.ltb target_count (List.length s3)); [|auto].
  unfold _rank_and_limit_candidates. intros H.
  apply in_map_iff in H as ([score c] & <- & H).
  apply In_firstn, sort_desc_In, in_map_iff in H as (c' & Hc & H).
  injection Hc as _ <-. auto.
Qed.

End WithBuiltins.
End PreFilterFacts.

(* ------------------------------------------------------------------ *)
(** ** The under-shoot correction *)

Section Undershoot.
Import Py PreFilter PreFilterFacts.
Local Open Scope list_scope.
Variable B : builtins.
Variable random_sample : list CompanyModel -> nat -> list CompanyModel.

(** C5, as the code has it. Whenever fewer than half the target count
    survive the filtering stages, the returned list is rebuilt from the
    original full company set alone: first the companies, in their
    original order and at most [target_count] of them, whose text contains a
    broadened keyword; then, only if these are fewer than half the target,
    companies not yet selected -- all of them when no more than the
    missing number remain, otherwise a random sample of that size. The
    survivors of the earlier stages are not carried over: a survivor is
    returned when it contains a broadened keyword (and the cap was not
    reached) or when all unselected companies are appended. *)
Theorem undershoot_rebuilds_from_all (companies : list CompanyModel)
  (incentive : IncentiveModel) (target_count : nat) :
  let survivors := surviving B companies incentive target_count in
  let general_keywords := _extract_general_keywords B incentive in
  let broad := filter (broad_match B general_keywords) companies in
  let matched := firstn target_count broad in
  let unselected := filter (fun c => negb (company_in c matched)) companies in
  let missing := (target_count - List.length matched)%nat in
  let returned :=
    filter_companies_for_incentive B random_sample companies incentive target_count in
  (forall population k, incl (random_sample population k) population) ->
  (List.length survivors < target_count / 2)%nat ->
  (exists fill,
      returned = matched ++ fill
      /\ ((target_count / 2 <= List.length matched)%nat -> fill = [])
      /\ ((List.length matched < target_count / 2)%nat ->
          fill = if Nat.ltb missing (List.length unselected)
                 then random_sample unselected missing
                 else unselected)
      /\ Forall (fun c => In c companies /\ ~ In c matched) fill)
  /\ (forall c, In c survivors -> broad_match B general_keywords c = true ->
                (List.length broad <= target_count)%nat -> In c returned)
  /\ ((List.length matched < target_count / 2)%nat ->
      (List.length unselected <= missing)%nat ->
      forall c, In c survivors -> In c returned).
Proof.
  intros survivors general_keywords broad matched unselected missing returned
    Hsample Hshort.
  assert (Hret : returned =
            if Nat.ltb (List.length matched) (target_count / 2)
            then if Nat.ltb missing (List.length unselected)
                 then matched ++ random_sample unselected missing
                 else matched ++ unselected
            else matched).
  { unfold returned, filter_companies_for_incentive.
    fold survivors. apply Nat.ltb_lt in Hshort. rewrite Hshort.
    unfold _expand_candidate_pool. rewrite broad_scan_spec. simpl.
    rewrite Nat.sub_0_r. reflexivity. }
  assert (Hun : forall c, In c unselected -> In c companies /\ ~ In c matched).
  { intros c Hc. apply filter_In in Hc as [Hc Hn]. split; [exact Hc|].
    intros Hm. apply company_in_iff in Hm. rewrite Hm in Hn. discriminate. }
  split; [|split].
  - destruct (Nat.ltb (List.length matched) (target_count / 2)) eqn:E.
    + apply Nat.ltb_lt in E.
      exists (if Nat.ltb missing (List.length unselected)
              then random_sample unselected missing else unselected).
      split; [|split; [|split]].
      * rewrite Hret. now destruct (Nat.ltb missing (List.length unselected)).
      * intros Hge. lia.
      * reflexivity.
      * apply Forall_forall. intros c Hc. apply Hun.
        destruct (Nat.ltb missing (List.length unselected)); [|exact Hc].
        eapply Hsample; exact Hc.
    + apply Nat.ltb_ge in E.
      exists []. rewrite app_nil_r. split; [exact Hret|].
      split; [reflexivity|]. split; [intros; lia | constructor].
  - intros c Hc Hb Hcap.
    assert (Hm : In c matched).
    { unfold matched. rewrite firstn_all2 by exact Hcap.
      apply filter_In. split; [|exact Hb].
      eapply surviving_incl; exact Hc. }
    rewrite Hret.
    destruct (Nat.ltb (List.length matched) (target_count / 2)); [|exact Hm].
    destruct (Nat.ltb missing (List.length unselected)); apply in_or_app; now left.
  - intros Hlt Hall c Hc.
    rewrite Hret.
    apply Nat.ltb_lt in Hlt. rewrite Hlt.
    apply Nat.ltb_ge in Hall. rewrite Hall.
    apply in_or_app.
    destruct (company_in c matched) eqn:E.
    + left. now apply company_in_iff.
    + right. apply filter_In. split; [|now rewrite E].
      eapply surviving_incl; exact Hc.
Qed.

End Undershoot.

Section UndershootExamples.
Import Py PreFilter ListFacts PreFilterFacts FilterExamples.
Local Open Scope list_scope.

(** C5 fails as stated: with a target of 4 the only survivor of the
    keyword stage is [solar]; the re-scan selects the two companies that
    contain a broadened keyword, which is no longer short, and the
    survivor is not in the returned list. *)
Lemma survivor_dropped_by_undershoot_correction :
  surviving PyBuiltins.python [limpa; obras; solar] solar_incentive 4 = [solar]
  /\ _extract_general_keywords PyBuiltins.python solar_incentive
     = ["empresa"; "negócio"; "atividade"; "projeto"; "investimento"]
  /\ filter_companies_for_incentive PyBuiltins.python first_draw
       [limpa; obras; solar] solar_incentive 4 = [limpa; obras]
  /\ ~ In solar [limpa; obras].
Proof.
  split; [vm_compute; reflexivity|].
  split; [vm_compute; reflexivity|].
  split; [vm_compute; reflexivity|].
  intros [H | [H | []]]; discriminate.
Qed.

(** With only [limpa] and [solar] in the pool the re-scan is short and
    everything unselected is appended. *)
Lemma undershoot_rebuilds_from_all_witness :
  (List.length (surviving PyBuiltins.python [limpa; solar] solar_incentive 4) < 4 / 2)%nat
  /\ filter_companies_for_incentive PyBuiltins.python first_draw
       [limpa; solar] solar_incentive 4 = [limpa; solar]
  /\ In solar (filter_companies_for_incentive PyBuiltins.python first_draw
                 [limpa; solar] solar_incentive 4).
Proof.
  assert (Hsample : forall population k, incl (first_draw population k) population).
  { intros population k c Hc. eapply In_firstn. exact Hc. }
  assert (Hshort : (List.length (surviving PyBuiltins.python [limpa; solar]
                                   solar_incentive 4) < 4 / 2)%nat)
    by (vm_compute; lia).
  destruct (@undershoot_rebuilds_from_all PyBuiltins.python first_draw
              [limpa; solar] solar_incentive 4 Hsample Hshort) as (_ & _ & Hall).
  split; [exact Hshort|]. split; [vm_compute; reflexivity|].
  apply Hall.
  - vm_compute. lia.
  - vm_compute. lia.
  - vm_compute. now left.
Defined.

End UndershootExamples.

(* ------------------------------------------------------------------ *)
(** ** More on the ranker: what escapes it and what it writes *)

Section RankerMore.
Import Py Ranker ListFacts RankerFacts Notions.
Local Open Scope Z_scope.
Variable B : builtins.

Lemma bind_raise {A C} (m : res A) (k : A -> res C) (e : exn) :
  bind m k = Raise e -> m = Raise e \/ exists a, m = Ok a /\ k a = Raise e.
Proof.
  destruct m as [a|e']; simpl; intros H;
    [right; eauto | left; injection H as <-; reflexivity].
Qed.

Lemma py_float_raises (v : value) (e : exn) :
  py_float B v = Raise e -> raisable (exn_kind e) = true.
Proof.
  destruct v as [|b|z|f|s|l|d]; simpl; try discriminate;
    try (intros H; injection H as <-; reflexivity).
  - destruct (PrimFloat.is_infinity (float_of_Z z)); [|discriminate].
    intros H; injection H as <-. reflexivity.
  - destruct (float_of_str B s); [discriminate|].
    intros H; injection H as <-. reflexivity.
Qed.

Lemma value_get_raises (v : value) (k : string) (default : value) (e : exn) :
  value_get v k default = Raise e -> raisable (exn_kind e) = true.
Proof.
  destruct v; simpl; try discriminate; intros H; injection H as <-; reflexivity.
Qed.

Lemma component_score_raises (d : dict) (k : string) (e : exn) :
  component_score B d k = Raise e -> raisable (exn_kind e) = true.
Proof.
  unfold component_score. intros H.
  apply bind_raise in H as [H | (c & _ & H)].
  - eapply value_get_raises; exact H.
  - eapply py_float_raises; exact H.
Qed.

Lemma entry_final_score_raises (d : dict) (e : exn) :
  entry_final_score B d = Raise e -> raisable (exn_kind e) = true.
Proof.
  unfold entry_final_score. destruct (dict_mem "final_score" d); intros H.
  - apply bind_raise in H as [H | (f & _ & H)]; [|discriminate].
    eapply py_float_raises; exact H.
  - apply bind_raise in H as [H | (a & _ & H)];
      [eapply component_score_raises; exact H|].
    apply bind_raise in H as [H | (q & _ & H)];
      [eapply component_score_raises; exact H|].
    apply bind_raise in H as [H | (c & _ & H)];
      [eapply component_score_raises; exact H | discriminate].
Qed.

(** An index that passes the range test is a position of the list. *)
Lemma candidate_index_in_range (v : value) (n i : nat) :
  candidate_index v n = Ok (Some i) -> (i < n)%nat.
Proof.
  destruct v as [|b|z|f|s|l|d]; simpl; try discriminate.
  - destruct b; simpl.
    + destruct (1 <=? Z.of_nat n) eqn:E; [|discriminate].
      intros H; injection H as <-. apply Z.leb_le in E. simpl. lia.
    + discriminate.
  - destruct ((1 <=? z) && (z <=? Z.of_nat n))%bool eqn:E; [|discriminate].
    intros H; injection H as <-.
    apply andb_prop in E as [E1 E2]. apply Z.leb_le in E1, E2. lia.
  - destruct (Z_le_float 1 f && float_le_Z f (Z.of_nat n))%bool; discriminate.
Qed.

Lemma candidate_index_raises (v : value) (n : nat) (e : exn) :
  candidate_index v n = Raise e -> raisable (exn_kind e) = true.
Proof.
  destruct v as [|b|z|f|s|l|d]; simpl; try discriminate;
    try (intros H; injection H as <-; reflexivity).
  destruct (Z_le_float 1 f && float_le_Z f (Z.of_nat n))%bool; [|discriminate].
  intros H; injection H as <-. reflexivity.
Qed.

Lemma rank_entry_raises (cands : list Candidate) (r : Z) (entry : value) (e : exn) :
  rank_entry B cands r entry = Raise e -> raisable (exn_kind e) = true.
Proof.
  unfold rank_entry. intros H.
  apply bind_raise in H as [H | (cn & Hcn & H)];
    [eapply value_get_raises; exact H|].
  apply bind_raise in H as [H | (idx & Hidx & H)];
    [eapply candidate_index_raises; exact H|].
  destruct idx as [i|]; [|discriminate].
  destruct entry as [| | | | | |d]; try discriminate.
  destruct (nth_error cands i) as [company|] eqn:Hn.
  - apply bind_raise in H as [H | ([f d'] & _ & H)];
      [eapply entry_final_score_raises; exact H|].
    apply bind_raise in H as [H | (a & _ & H)];
      [eapply component_score_raises; exact H|].
    apply bind_raise in H as [H | (q & _ & H)];
      [eapply component_score_raises; exact H|].
    apply bind_raise in H as [H | (c & _ & H)];
      [eapply component_score_raises; exact H | discriminate].
  - exfalso. apply candidate_index_in_range in Hidx.
    apply nth_error_None in Hn. lia.
Qed.

Lemma rank_entries_raises (cands : list Candidate) (entries : list value) :
  forall (r : Z) (e : exn),
    rank_entries B cands r entries = Raise e -> raisable (exn_kind e) = true.
Proof.
  induction entries as [|entry rest IH]; intros r e H; simpl in H; [discriminate|].
  apply bind_raise in H as [H | (m & _ & H)];
    [eapply rank_entry_raises; exact H|].
  apply bind_raise in H as [H | (ms & _ & H)]; [eapply IH; exact H | discriminate].
Qed.


(** X2. The fallback does not cover every malformed response: when the
    first entry of the array is not a JSON object (a number, a string, a
    list, [null] ...) and at least one result is asked for, the call raises
    an [AttributeError] instead of returning the fallback list. *)
Theorem non_object_entry_escapes (cands : list Candidate) (top_n : nat)
  (rd : ResponseData) (v : value) (rest : list value) :
  response rd = Parsed (VList (v :: rest)) ->
  (forall d, v <> VDict d) ->
  (0 < top_n)%nat ->
  exists e,
    _llm_rank_candidates B cands top_n rd = Raise e
    /\ exn_kind e = AttributeError.
Proof.
  intros Hr Hv Hn. unfold _llm_rank_candidates, parse_and_rank. rewrite Hr.
  destruct top_n as [|n]; [lia|]. simpl.
  unfold rank_entry.
  destruct v as [| | | | | |d]; simpl; try (eexists; split; reflexivity).
  exfalso. eapply Hv. reflexivity.
Qed.

End RankerMore.

Section RankerMoreExamples.
Import Py Ranker Notions Examples.
Local Open Scope Z_scope.


(** X2 at a response whose first entry is a string. *)
Lemma non_object_entry_escapes_witness :
  exists e,
    _llm_rank_candidates PyBuiltins.python [alfa; beta] 5
      (completion (VList [VStr "Alfa"; names 2])) = Raise e
    /\ exn_kind e = AttributeError.
Proof.
  apply (@non_object_entry_escapes PyBuiltins.python [alfa; beta] 5
           (completion (VList [VStr "Alfa"; names 2])) (VStr "Alfa") [names 2]).
  - reflexivity.
  - intros d; discriminate.
  - lia.
Defined.

End RankerMoreExamples.

(* ------------------------------------------------------------------ *)
(** ** Ranked results against the constraints of the [matches] table *)

Section ChecksOfResults.
Import Py Ranker ListFacts RankerFacts Notions.
Local Open Scope Z_scope.
Variable B : builtins.
Variable E : Orchestrator.Capabilities.

(** A float that is at least 1 is at least 0. *)
Lemma leb_one_zero (x : float) :
  PrimFloat.leb 1 x = true -> PrimFloat.leb 0 x = true.
Proof.
  rewrite !leb_spec.
  set (one := Prim2SF 1). vm_compute in one. subst one.
  set (zero := Prim2SF 0). vm_compute in zero. subst zero.
  unfold SFleb.
  destruct (Prim2SF x) as [s|s| |s m e]; simpl; try discriminate;
    destruct s; simpl; try discriminate; reflexivity.
Qed.

Lemma rank_entries_scores (cands : list Candidate) (entries : list value) :
  forall (r : Z) (results : list MatchingResult),
    rank_entries B cands r entries = Ok results ->
    Forall (fun m => Store.check_score (score m) = true) results.
Proof.
  intros r results H. apply Forall_forall. intros m Hm.
  destruct (@rank_entries_origin B cands entries r results m H Hm) as (entry & _ & He).
  apply rank_entry_some in He as (_ & d & i & company & _ & _ & _ & _ & f & d' & _ & ->).
  destruct (clamp_score_bounds f) as (H1 & H5).
  unfold Store.check_score. rewrite H5, (leb_one_zero H1). reflexivity.
Qed.

(** The scores of a returned list, scored or fallback, lie in [0, 5]. *)
Lemma rank_call_scores (cands : list Candidate) (top_n : nat)
  (rd : ResponseData) (results : list MatchingResult) (cost : number) :
  _llm_rank_candidates B cands top_n rd = Ok (results, cost) ->
  Forall (fun m => Store.check_score (score m) = true) results.
Proof.
  intros H.
  apply rank_call_cases in H as (_ & [(arr & _ & Hl) | (e & _ & _ & ->)]).
  - eapply rank_entries_scores; exact Hl.
  - unfold fallback_results.
    destruct (fallback_from_shape B (firstn top_n cands) e 1) as (_ & _ & Hs & _).
    eapply Forall_impl; [|exact Hs]. intros m Hm. cbv beta in Hm.
    rewrite Hm. reflexivity.
Qed.

Lemma passes_checks_intro (results : list MatchingResult) (top_n : nat) :
  (top_n <= 5)%nat ->
  Forall (fun m => Store.check_score (score m) = true) results ->
  Forall (fun m => 1 <= rank m <= Z.of_nat top_n) results ->
  Forall (fun m => passes_checks m = true) results.
Proof.
  intros Hn Hs Hr. rewrite Forall_forall in *. intros m Hm.
  specialize (Hr m Hm). specialize (Hs m Hm). cbv beta in Hr.
  unfold passes_checks, Store.check_rank_position. rewrite Hs. simpl.
  apply andb_true_intro. split; apply Z.leb_le; lia.
Qed.

(** X3. Every result [_llm_rank_candidates] returns when asked for at
    most five, scored or fallback, meets both [CHECK] constraints of the
    [matches] table: its score lies in [0, 5] and its rank in 1..5. *)
Theorem ranked_results_pass_checks (cands : list Candidate) (top_n : nat)
  (rd : ResponseData) (results : list MatchingResult) (cost : number) :
  (top_n <= 5)%nat ->
  _llm_rank_candidates B cands top_n rd = Ok (results, cost) ->
  Forall (fun m => passes_checks m = true) results.
Proof.
  intros Hn H.
  destruct (@rank_call_shape B _ _ _ _ _ H) as (_ & _ & Hr & _).
  eapply passes_checks_intro; [exact Hn | | exact Hr].
  eapply rank_call_scores; exact H.
Qed.

(** A save whose matches all meet the constraints can only fail on a
    foreign key. *)
Lemma save_raises_foreign_key (incentive : Z) (ms : list MatchingResult) :
  forall (now : nat -> Z) (t t' : Store.Tables) (e : exn),
    Forall (fun m => passes_checks m = true) ms ->
    Store.save_matches_to_database now incentive ms t = (Raise e, t') ->
    exn_kind e = ForeignKeyViolationError.
Proof.
  induction ms as [|m ms IH]; intros now t t' e Hc H; simpl in H; [discriminate|].
  inversion Hc as [|? ? Hm Hc']; subst.
  destruct (Store.upsert (now 0%nat) incentive (company_id m) (score m) (rank m)
              (Store.reasoning_column (reasoning m)) t) as [[u|e1] t1] eqn:Hu.
  - eapply IH; eassumption.
  - injection H as <- <-. unfold Store.upsert in Hu.
    unfold passes_checks in Hm. rewrite Hm in Hu. simpl in Hu.
    destruct (existsb (Store.same_pair incentive (company_id m)) (Store.matches t));
      [discriminate|].
    destruct (negb (Store.mem incentive (Store.incentive_ids t)
                    && Store.mem (company_id m) (Store.company_ids t)));
      [|discriminate].
    injection Hu as <- _. reflexivity.
Qed.

(** A save whose matches meet the constraints and name rows that exist
    succeeds. *)
Lemma save_succeeds (incentive : Z) (ms : list MatchingResult) :
  forall (now : nat -> Z) (t : Store.Tables),
    Forall (fun m => passes_checks m = true) ms ->
    Store.mem incentive (Store.incentive_ids t) = true ->
    Forall (fun m => Store.mem (company_id m) (Store.company_ids t) = true) ms ->
    exists t', Store.save_matches_to_database now incentive ms t = (Ok tt, t').
Proof.
  induction ms as [|m ms IH]; intros now t Hc Hi Hk; simpl; [eauto|].
  inversion Hc as [|? ? Hm Hc']; subst. inversion Hk as [|? ? Hkm Hk']; subst.
  destruct (Store.upsert (now 0%nat) incentive (company_id m) (score m) (rank m)
              (Store.reasoning_column (reasoning m)) t) as [[u|e1] t1] eqn:Hu.
  - pose proof (@StoreFacts.upsert_cases _ _ _ _ _ _ _ _ _ Hu) as (Hi1 & Hk1 & _).
    apply IH; [exact Hc' | now rewrite Hi1 | now rewrite Hk1].
  - exfalso. unfold Store.upsert in Hu.
    unfold passes_checks in Hm. rewrite Hm, Hi, Hkm in Hu. simpl in Hu.
    destruct (existsb (Store.same_pair incentive (company_id m)) (Store.matches t));
      discriminate.
Qed.

(** [match_companies_for_incentive] reads the tables and never writes
    them. *)
Lemma match_keeps_tables (incentive_id : Z) (top_k : nat) (max_cost : float)
  (st st' : Orchestrator.State) (r : res (list MatchingResult)) :
  Orchestrator.match_companies_for_incentive B E incentive_id top_k max_cost st
    = (r, st') ->
  Orchestrator.tables st' = Orchestrator.tables st
  /\ Orchestrator.incentives st' = Orchestrator.incentives st
  /\ Orchestrator.saves st' = Orchestrator.saves st.
Proof.
  unfold Orchestrator.match_companies_for_incentive. intros H.
  destruct (Orchestrator.get_incentive_by_id st incentive_id);
    [|injection H as _ <-; auto].
  destruct (Orchestrator.find_similar_companies E st incentive_id top_k);
    [injection H as _ <-; auto|].
  destruct (Orchestrator.complete E (Orchestrator.llm_calls st));
    [|injection H as _ <-; auto].
  destruct (_llm_rank_candidates B _ 5 _) as [[rs cost]|e]; injection H as _ <-; auto.
Qed.


End ChecksOfResults.

(* ------------------------------------------------------------------ *)
(** ** The reasoning payload of a scored result *)

Section Payload.
Import Py Ranker ListFacts RankerFacts Notions.
Local Open Scope Z_scope.
Variable B : builtins.

Lemma dict_lookup_set_eq (k : string) (v : value) (d : dict) :
  dict_lookup k (dict_set k v d) = Some v.
Proof.
  induction d as [|[k' v'] d IH]; simpl.
  - now rewrite String.eqb_refl.
  - destruct (String.eqb k k') eqn:E; simpl.
    + now rewrite String.eqb_refl.
    + now rewrite E.
Qed.

Lemma dict_lookup_set_neq (k k' : string) (v : value) (d : dict) :
  k' <> k -> dict_lookup k' (dict_set k v d) = dict_lookup k' d.
Proof.
  intros Hk. apply String.eqb_neq in Hk.
  induction d as [|[k0 v0] d IH]; simpl.
  - now rewrite Hk.
  - destruct (String.eqb k k0) eqn:E; simpl.
    + apply String.eqb_eq in E. subst k0. now rewrite Hk.
    + now rewrite IH.
Qed.

Lemma component_score_set (k k' : string) (v : value) (d : dict) :
  k <> k' -> component_score B (dict_set k' v d) k = component_score B d k.
Proof.
  intros Hk. unfold component_score, dict_get.
  now rewrite dict_lookup_set_neq.
Qed.

(** What the first half of the loop body leaves in the entry. *)
Lemma entry_final_score_dict (d d1 : dict) (f : float) :
  entry_final_score B d = Ok (f, d1) ->
  (forall v, dict_lookup "final_score" d = Some v ->
             d1 = d /\ py_float B v = Ok f)
  /\ (dict_lookup "final_score" d = None ->
      d1 = dict_set "final_score" (VFloat f) d
      /\ exists a q c,
           component_score B d "adequacao_estrategia" = Ok a
           /\ component_score B d "qualidade" = Ok q
           /\ component_score B d "capacidade_execucao" = Ok c
           /\ f = weighted_score a q c).
Proof.
  unfold entry_final_score, dict_mem, dict_get. intros H.
  destruct (dict_lookup "final_score" d) as [v|] eqn:Hl.
  - bind_inv H. injection H as <- <-. split; [|discriminate].
    intros v' Hv. injection Hv as <-. auto.
  - bind_inv H. bind_inv H. bind_inv H. injection H as <- <-.
    split; [discriminate|]. intros _. split; [reflexivity|].
    exists x, x0, x1. auto.
Qed.

(** X5. A result the loop returns carries the scoring entry at the
    position of its rank as its reasoning payload, with five keys written
    by the loop: [vector_similarity] is the similarity of the candidate the
    entry names; [strategic_fit], [quality] and [execution_capacity] are the
    entry's three component scores as floats; [final_score] is the value the
    entry came with, left as it was (not clamped), or else the weighted sum
    of the three components. Every other key of the entry is unchanged. *)
Theorem scored_payload (cands : list Candidate) (top_n : nat)
  (arr : list value) (results : list MatchingResult) (m : MatchingResult) :
  parse_and_rank B cands top_n (Parsed (VList arr)) = Ok results ->
  In m results ->
  exists d company sf q ec,
    nth_error arr (Z.to_nat (rank m - 1)) = Some (VDict d)
    /\ In company cands /\ company_id m = id company
    /\ component_score B d "adequacao_estrategia" = Ok sf
    /\ component_score B d "qualidade" = Ok q
    /\ component_score B d "capacidade_execucao" = Ok ec
    /\ dict_lookup "vector_similarity" (reasoning m)
       = Some (VFloat (similarity_score company))
    /\ dict_lookup "strategic_fit" (reasoning m) = Some (VFloat sf)
    /\ dict_lookup "quality" (reasoning m) = Some (VFloat q)
    /\ dict_lookup "execution_capacity" (reasoning m) = Some (VFloat ec)
    /\ (forall v, dict_lookup "final_score" d = Some v ->
                  dict_lookup "final_score" (reasoning m) = Some v
                  /\ exists f, py_float B v = Ok f /\ score m = clamp_score f)
    /\ (dict_lookup "final_score" d = None ->
        dict_lookup "final_score" (reasoning m)
        = Some (VFloat (weighted_score sf q ec))
        /\ score m = clamp_score (weighted_score sf q ec))
    /\ (forall k, ~ In k written_keys ->
                  dict_lookup k (reasoning m) = dict_lookup k d).
Proof.
  intros H Hin. simpl in H.
  destruct (@rank_entries_origin B cands _ 1 results m H Hin) as (entry & Hn & He).
  apply nth_error_firstn_some in Hn.
  unfold rank_entry in He.
  bind_inv He. bind_inv He.
  destruct entry as [| | | | | |d]; simpl in Hx; try discriminate.
  destruct x0 as [i|]; [|discriminate].
  destruct (nth_error cands i) as [company|] eqn:Hc; [|discriminate].
  bind_inv He. destruct x0 as [f d1].
  bind_inv He. bind_inv He. bind_inv He.
  rename x0 into sf, x1 into q, x2 into ec.
  rewrite !component_score_set in Hx2 by discriminate.
  rewrite !component_score_set in Hx3 by discriminate.
  rewrite !component_score_set in Hx4 by discriminate.
  injection He as <-. simpl.
  apply entry_final_score_dict in Hx1 as (Hsome & Hnone).
  assert (Hcomp : component_score B d "adequacao_estrategia" = Ok sf
                  /\ component_score B d "qualidade" = Ok q
                  /\ component_score B d "capacidade_execucao" = Ok ec).
  { destruct (dict_lookup "final_score" d) as [v|] eqn:Hl.
    - destruct (Hsome v eq_refl) as (Hd & _). subst d1. auto.
    - destruct (Hnone eq_refl) as (Hd & _). subst d1.
      rewrite component_score_set in Hx2 by discriminate.
      rewrite component_score_set in Hx3 by discriminate.
      rewrite component_score_set in Hx4 by discriminate. auto. }
  destruct Hcomp as (Ha & Hq & Hec).
  exists d, company, sf, q, ec.
  split; [exact Hn|]. split; [eapply nth_error_In; exact Hc|].
  split; [reflexivity|]. split; [exact Ha|]. split; [exact Hq|].
  split; [exact Hec|].
  split. { rewrite !dict_lookup_set_neq by discriminate. apply dict_lookup_set_eq. }
  split. { rewrite !dict_lookup_set_neq by discriminate. apply dict_lookup_set_eq. }
  split. { rewrite !dict_lookup_set_neq by discriminate. apply dict_lookup_set_eq. }
  split. { apply dict_lookup_set_eq. }
  split.
  { intros v Hv. destruct (Hsome v Hv) as (-> & Hf).
    rewrite !dict_lookup_set_neq by discriminate. eauto. }
  split.
  { intros Hv. destruct (Hnone Hv) as (-> & a & q' & c & Ha' & Hq' & Hc' & ->).
    assert (a = sf) by congruence. assert (q' = q) by congruence.
    assert (c = ec) by congruence. subst.
    rewrite !dict_lookup_set_neq by discriminate.
    rewrite dict_lookup_set_eq. auto. }
  intros k Hk. unfold written_keys in Hk. simpl in Hk.
  rewrite !dict_lookup_set_neq by (intros ->; apply Hk; auto 6).
  destruct (dict_lookup "final_score" d) as [v|] eqn:Hl.
  - destruct (Hsome v eq_refl) as (-> & _). reflexivity.
  - destruct (Hnone eq_refl) as (-> & _).
    apply dict_lookup_set_neq. intros ->. apply Hk. auto.
Qed.

End Payload.

Section PayloadExamples.
Import Py Ranker Notions Examples.
Local Open Scope Z_scope.

(** X3 at a response that scores the first candidate 5, 3 and 1. *)
Lemma ranked_results_pass_checks_witness :
  exists results cost,
    _llm_rank_candidates PyBuiltins.python [alfa; beta] 5
      (completion (VList [scored 1 5 3 1])) = Ok (results, cost)
    /\ Forall (fun m => passes_checks m = true) results.
Proof.
  eexists. eexists. split; [vm_compute; reflexivity|].
  eapply (@ranked_results_pass_checks PyBuiltins.python [alfa; beta] 5
            (completion (VList [scored 1 5 3 1]))).
  - lia.
  - vm_compute. reflexivity.
Defined.


(** X5 at a response that scores the first candidate 5, 3 and 1. *)
Lemma scored_payload_witness :
  exists results m d sf,
    parse_and_rank PyBuiltins.python [alfa; beta] 5
      (Parsed (VList [scored 1 5 3 1])) = Ok results
    /\ In m results
    /\ nth_error [scored 1 5 3 1] (Z.to_nat (rank m - 1)) = Some (VDict d)
    /\ component_score PyBuiltins.python d "adequacao_estrategia" = Ok sf
    /\ dict_lookup "strategic_fit" (reasoning m) = Some (VFloat sf).
Proof.
  eexists. eexists.
  assert (H : parse_and_rank PyBuiltins.python [alfa; beta] 5
                (Parsed (VList [scored 1 5 3 1])) = Ok [_])
    by (vm_compute; reflexivity).
  destruct (@scored_payload PyBuiltins.python [alfa; beta] 5 [scored 1 5 3 1] _ _ H
              (or_introl eq_refl))
    as (d & company & sf & q & ec & Hn & _ & _ & Ha & _ & _ & _ & Hsf & _).
  exists d, sf. split; [exact H|]. split; [left; reflexivity|].
  split; [exact Hn|]. split; [exact Ha | exact Hsf].
Defined.

End PayloadExamples.

(* ------------------------------------------------------------------ *)
(** ** What a save leaves alone *)

Section SaveElsewhere.
Import Py Store StoreFacts.
Local Open Scope Z_scope.

Lemma do_update_elsewhere (now i c : Z) (s : float) (rk : Z) (rs : option dict)
  (j : Z) (rows : list MatchRow) :
  j <> i ->
  filter (fun r => incentive_id r =? j) (do_update now i c s rk rs rows)
  = filter (fun r => incentive_id r =? j) rows.
Proof.
  intros Hj. induction rows as [|r rows IH]; simpl; [reflexivity|].
  destruct (same_pair i c r) eqn:E; simpl.
  - apply same_pair_iff in E. unfold pair in E. injection E as Ei Ec.
    rewrite Ei. destruct (i =? j) eqn:Eij; [|reflexivity].
    apply Z.eqb_eq in Eij. congruence.
  - now rewrite IH.
Qed.

Lemma upsert_elsewhere (now i c : Z) (s : float) (rk : Z) (rs : option dict)
  (t t' : Tables) (r : res unit) (j : Z) :
  j <> i -> upsert now i c s rk rs t = (r, t') -> rows_of j t' = rows_of j t.
Proof.
  intros Hj H. apply upsert_cases in H as (_ & _ & H). unfold rows_of.
  destruct r as [u|e]; [|now rewrite H].
  destruct H as (_ & [(_ & ->) | (_ & ->)]).
  - now apply do_update_elsewhere.
  - rewrite filter_app. simpl.
    destruct (i =? j) eqn:Eij; [|apply app_nil_r].
    apply Z.eqb_eq in Eij. congruence.
Qed.

Lemma save_elsewhere (incentive : Z) (ms : list Ranker.MatchingResult)
  (other : Z) :
  other <> incentive ->
  forall (now : nat -> Z) (t t' : Tables) (r : res unit),
    save_matches_to_database now incentive ms t = (r, t') ->
    rows_of other t' = rows_of other t.
Proof.
  intros Hj.
  induction ms as [|m ms IH]; intros now t t' r H; simpl in H.
  - now injection H as _ <-.
  - destruct (upsert (now 0%nat) incentive (Ranker.company_id m) (Ranker.score m)
                (Ranker.rank m) (reasoning_column (Ranker.reasoning m)) t)
      as [r1 t1] eqn:Hu.
    pose proof (@upsert_elsewhere _ _ _ _ _ _ _ _ _ other Hj Hu) as Hrows.
    destruct r1 as [u|e].
    + rewrite (IH _ _ _ _ H). exact Hrows.
    + now injection H as _ <-.
Qed.

Lemma save_keeps_keys (incentive : Z) (ms : list Ranker.MatchingResult) :
  forall (now : nat -> Z) (t t' : Tables) (r : res unit),
    save_matches_to_database now incentive ms t = (r, t') ->
    incentive_ids t' = incentive_ids t /\ company_ids t' = company_ids t.
Proof.
  induction ms as [|m ms IH]; intros now t t' r H; simpl in H.
  - injection H as _ <-. auto.
  - destruct (upsert (now 0%nat) incentive (Ranker.company_id m) (Ranker.score m)
                (Ranker.rank m) (reasoning_column (Ranker.reasoning m)) t)
      as [r1 t1] eqn:Hu.
    pose proof (@upsert_cases _ _ _ _ _ _ _ _ _ Hu) as (Hi & Hc & _).
    destruct r1 as [u|e].
    + destruct (IH _ _ _ _ H) as (H1 & H2). split; congruence.
    + injection H as _ <-. auto.
Qed.

(** A call adds at most one row per match to its incentive. *)
Lemma save_rows_bound (incentive : Z) (ms : list Ranker.MatchingResult)
  (now : nat -> Z) (t t' : Tables) (r : res unit) :
  NoDup (pairs t) ->
  save_matches_to_database now incentive ms t = (r, t') ->
  NoDup (pairs t')
  /\ (List.length (rows_of incentive t')
      <= List.length (rows_of incentive t) + List.length ms)%nat.
Proof.
  intros Hnd H.
  destruct (@save_pairs incentive ms now t t' r Hnd H) as (added & Hp & Hnd' & Hlen & _).
  split; [exact Hnd'|].
  rewrite !rows_of_length, Hp, filter_app, length_app.
  pose proof (filter_length_le (fun p => fst p =? incentive) added). lia.
Qed.

(** X6. Whatever its outcome, a call of [save_matches_to_database] for
    one incentive leaves the rows of every other incentive exactly as they
    were, in content and order, and does not touch the tables the foreign
    keys point to. *)
Theorem save_leaves_other_incentives (incentive : Z)
  (ms : list Ranker.MatchingResult) (now : nat -> Z) (t t' : Tables)
  (r : res unit) (other : Z) :
  other <> incentive ->
  save_matches_to_database now incentive ms t = (r, t') ->
  rows_of other t' = rows_of other t
  /\ incentive_ids t' = incentive_ids t
  /\ company_ids t' = company_ids t.
Proof.
  intros Hj H. split.
  - eapply save_elsewhere; eassumption.
  - eapply save_keeps_keys; exact H.
Qed.

End SaveElsewhere.

Section SaveElsewhereExamples.
Import Py Store Examples.
Local Open Scope Z_scope.

(** X6 at the two fallback results saved for incentive 1, seen from
    incentive 2. *)
Lemma save_leaves_other_incentives_witness :
  exists r t',
    save_matches_to_database ticks 1 two_matches empty_tables = (r, t')
    /\ rows_of 2 t' = rows_of 2 empty_tables.
Proof.
  eexists. eexists. split; [vm_compute; reflexivity|].
  eapply (@save_leaves_other_incentives 1 two_matches ticks empty_tables _ _ 2).
  - discriminate.
  - vm_compute. reflexivity.
Defined.

End SaveElsewhereExamples.

(* ------------------------------------------------------------------ *)
(** ** Saving results that are new to the table *)

Section FreshSave.
Import Py Store StoreFacts.
Local Open Scope Z_scope.


End FreshSave.

Section FreshSaveExamples.
Import Py Store Examples.
Local Open Scope Z_scope.


End FreshSaveExamples.

(* ------------------------------------------------------------------ *)
(** ** What a match and a batch do to the service state *)

Section ServiceEffects.
Import Py Orchestrator.
Local Open Scope Z_scope.
Variable B : builtins.
Variable E : Capabilities.

(** X7. [match_companies_for_incentive] never writes: whatever it
    returns, the tables and the incentives are as before. It makes at most
    one scoring call, and makes one exactly when the incentive exists and
    the vector search returns a candidate. *)
Theorem match_scores_at_most_once (incentive_id : Z) (top_k : nat)
  (max_cost : float) (st : State) :
  let '(r, st') := match_companies_for_incentive B E incentive_id top_k max_cost st in
  tables st' = tables st
  /\ incentives st' = incentives st
  /\ saves st' = saves st
  /\ (llm_calls st' = llm_calls st \/ llm_calls st' = S (llm_calls st))
  /\ (llm_calls st' = S (llm_calls st)
      <-> get_incentive_by_id st incentive_id <> None
          /\ find_similar_companies E st incentive_id top_k <> []).
Proof.
  unfold match_companies_for_incentive.
  destruct (get_incentive_by_id st incentive_id) as [row|].
  - destruct (find_similar_companies E st incentive_id top_k) as [|c cs].
    + repeat split; auto; try lia. intros [_ H]. now elim H.
    + assert (Hgoal : forall st', st' = count_call st ->
                tables st' = tables st /\ incentives st' = incentives st
                /\ saves st' = saves st
                /\ (llm_calls st' = llm_calls st \/ llm_calls st' = S (llm_calls st))
                /\ (llm_calls st' = S (llm_calls st)
                    <-> Some row <> None /\ c :: cs <> [])).
      { intros st' ->. simpl. repeat split; auto; discriminate. }
      destruct (complete E (llm_calls st)) as [rd|e]; [|now apply Hgoal].
      destruct (Ranker._llm_rank_candidates B (c :: cs) 5 rd) as [[rs cost]|e];
        now apply Hgoal.
  - repeat split; auto; try lia. intros [H _]. now elim H.
Qed.

Lemma match_calls (incentive_id : Z) (top_k : nat) (max_cost : float)
  (st st' : State) (r : res (list Ranker.MatchingResult)) :
  match_companies_for_incentive B E incentive_id top_k max_cost st = (r, st') ->
  (llm_calls st <= llm_calls st' <= S (llm_calls st))%nat.
Proof.
  unfold match_companies_for_incentive. intros H.
  destruct (get_incentive_by_id st incentive_id);
    [|injection H as _ <-; lia].
  destruct (find_similar_companies E st incentive_id top_k);
    [injection H as _ <-; lia|].
  destruct (complete E (llm_calls st)); [|injection H as _ <-; simpl; lia].
  destruct (Ranker._llm_rank_candidates B _ 5 _) as [[rs cost]|e];
    injection H as _ <-; simpl; lia.
Qed.

Lemma set_result_In (k : Z) (v : nat * float) (d : list (Z * (nat * float)))
  (kv : Z * (nat * float)) :
  In kv (set_result k v d) -> kv = (k, v) \/ In kv d.
Proof.
  induction d as [|[k' v'] d IH]; simpl.
  - intros [<-|[]]. now left.
  - destruct (k =? k'); simpl.
    + intros [<-|H]; auto.
    + intros [<-|H]; auto. destruct (IH H); auto.
Qed.

Lemma set_result_keys (k : Z) (v : nat * float) (d : list (Z * (nat * float))) :
  NoDup (map fst d) -> NoDup (map fst (set_result k v d)).
Proof.
  induction d as [|[k' v'] d IH]; simpl; intros Hnd.
  - constructor; [intros []|constructor].
  - inversion Hnd as [|? ? Hnotin Hnd']; subst.
    destruct (k =? k') eqn:Ek; simpl.
    + apply Z.eqb_eq in Ek. subst k'. now constructor.
    + constructor; [|auto]. intros Hin. apply in_map_iff in Hin as ([k0 v0] & Hk & Hin).
      simpl in Hk. subst k0. apply set_result_In in Hin as [Hin|Hin].
      * injection Hin as -> _. rewrite Z.eqb_refl in Ek. discriminate.
      * apply Hnotin. apply in_map_iff. exists (k', v0). auto.
Qed.

(** The [try] body for one incentive: what it returns and what it leaves
    in the state. *)
Lemma match_and_save_effect (max_cost_total : option float) (save_to_db : bool)
  (total : float) (incentive : IncentiveRow) (st st' : State)
  (r : res (list Ranker.MatchingResult)) :
  match_and_save B E max_cost_total save_to_db total incentive st = (r, st') ->
  incentives st' = incentives st
  /\ (llm_calls st <= llm_calls st' <= S (llm_calls st))%nat
  /\ (forall ms, r = Ok ms -> (List.length ms <= 5)%nat)
  /\ (save_to_db = false -> tables st' = tables st /\ saves st' = saves st).
Proof.
  unfold match_and_save. intros H.
  set (budget := py_min 0.30%float _) in H. clearbody budget.
  destruct (match_companies_for_incentive B E (id incentive) 20 budget st)
    as [r1 st1] eqn:Hmatch.
  pose proof (@match_keeps_tables B E _ _ _ _ _ _ Hmatch) as (Ht & Hi & Hs).
  pose proof (@match_calls _ _ _ _ _ _ Hmatch) as Hc.
  destruct r1 as [ms|e].
  - assert (Hlen : (List.length ms <= 5)%nat).
    { unfold match_companies_for_incentive in Hmatch.
      destruct (get_incentive_by_id st (id incentive)); [|discriminate].
      destruct (find_similar_companies E st (id incentive) 20) as [|c cs].
      { injection Hmatch as <- _. simpl. lia. }
      destruct (complete E (llm_calls st)) as [rd|e]; [|discriminate].
      destruct (Ranker._llm_rank_candidates B (c :: cs) 5 rd) as [[rs cost]|e] eqn:Hr;
        [|discriminate].
      injection Hmatch as <- _.
      now destruct (@rank_call_shape B _ _ _ _ _ Hr) as (Hl & _). }
    assert (Hkeep : (r, st') = (Ok ms, st1) ->
              incentives st' = incentives st
              /\ (llm_calls st <= llm_calls st' <= S (llm_calls st))%nat
              /\ (forall ms0, r = Ok ms0 -> (List.length ms0 <= 5)%nat)
              /\ (save_to_db = false -> tables st' = tables st /\ saves st' = saves st)).
    { intros Heq. injection Heq as -> ->. repeat split; auto; try lia.
      intros ms0 Hms0. now injection Hms0 as <-. }
    destruct save_to_db; [|now apply Hkeep].
    destruct ms as [|m ms']; [now apply Hkeep|].
    unfold save in H.
    destruct (Store.save_matches_to_database (clock E (saves st1)) (id incentive)
                (m :: ms') (tables st1)) as [rs t].
    destruct rs as [u|e]; injection H as <- <-; simpl;
      (split; [exact Hi|]); (split; [lia|]);
      (split; [intros ms0 Hms0; try discriminate; injection Hms0 as <-; exact Hlen
              | discriminate]).
  - injection H as <- <-.
    repeat split; auto; try lia. discriminate.
Qed.

(** The invariant of the batch loop. *)
Lemma batch_loop_effect (max_cost_total : option float) (save_to_db : bool)
  (todo : list IncentiveRow) :
  forall (acc acc' : Tally) (st st' : State),
    batch_loop B E max_cost_total save_to_db todo acc st = (acc', st') ->
    incentives st' = incentives st
    /\ (llm_calls st <= llm_calls st' <= llm_calls st + List.length todo)%nat
    /\ (save_to_db = false -> tables st' = tables st /\ saves st' = saves st)
    /\ (NoDup (map fst (results_by_incentive acc)) ->
        NoDup (map fst (results_by_incentive acc')))
    /\ (forall kv, In kv (results_by_incentive acc') ->
          In kv (results_by_incentive acc)
          \/ (In (fst kv) (map id todo) /\ (fst (snd kv) <= 5)%nat)).
Proof.
  induction todo as [|incentive rest IH]; intros acc acc' st st' H; simpl in H.
  - injection H as <- <-. simpl. repeat split; auto; lia.
  - destruct (truthy max_cost_total &&
              match max_cost_total with
              | Some c => PrimFloat.leb c (total_cost acc)
              | None => false
              end)%bool.
    { injection H as <- <-. simpl. repeat split; auto; lia. }
    destruct (match_and_save B E max_cost_total save_to_db (total_cost acc)
                incentive st) as [r st1] eqn:Hms.
    apply match_and_save_effect in Hms as (Hi & Hc & Hlen & Hdry).
    destruct r as [matches|e]; apply IH in H as (Hi' & Hc' & Hdry' & Hnd & Hin);
      simpl in Hnd, Hin.
    + split; [congruence|]. split; [simpl; lia|]. split.
      { intros Hs. destruct (Hdry Hs), (Hdry' Hs). split; congruence. }
      split.
      { intros Hacc. apply Hnd. now apply set_result_keys. }
      intros kv Hkv. destruct (Hin kv Hkv) as [Hold|[Hk Hn]].
      * apply set_result_In in Hold as [->|Hold]; [|now left].
        right. simpl. split; [now left|]. now apply Hlen.
      * right. simpl. auto.
    + split; [congruence|]. split; [simpl; lia|]. split.
      { intros Hs. destruct (Hdry Hs), (Hdry' Hs). split; congruence. }
      split; [exact Hnd|].
      intros kv Hkv. destruct (Hin kv Hkv) as [Hold|[Hk Hn]]; [now left|].
      right. simpl. auto.
Qed.

Lemma set_result_absent (k : Z) (v : nat * float) (d : list (Z * (nat * float))) :
  ~ In k (map fst d) -> set_result k v d = (d ++ [(k, v)])%list.
Proof.
  induction d as [|[k' v'] d IH]; simpl; intros Hk; [reflexivity|].
  destruct (k =? k') eqn:Ek.
  - apply Z.eqb_eq in Ek. exfalso. apply Hk. now left.
  - rewrite IH; [reflexivity|]. intros Hin. apply Hk. now right.
Qed.

(** With distinct ids every success adds one entry to the report. *)
Lemma batch_loop_entries (max_cost_total : option float) (save_to_db : bool)
  (todo : list IncentiveRow) :
  NoDup (map id todo) ->
  forall (acc acc' : Tally) (st st' : State),
    (forall k, In k (map fst (results_by_incentive acc)) -> ~ In k (map id todo)) ->
    batch_loop B E max_cost_total save_to_db todo acc st = (acc', st') ->
    (List.length (results_by_incentive acc') + successful acc
     = List.length (results_by_incentive acc) + successful acc')%nat.
Proof.
  induction todo as [|incentive rest IH]; intros Hids acc acc' st st' Hkeys H;
    simpl in H.
  - injection H as <- _. lia.
  - destruct (truthy max_cost_total &&
              match max_cost_total with
              | Some c => PrimFloat.leb c (total_cost acc)
              | None => false
              end)%bool.
    { injection H as <- _. lia. }
    inversion Hids as [|? ? Hnotin Hids']; subst.
    destruct (match_and_save B E max_cost_total save_to_db (total_cost acc)
                incentive st) as [[matches|e] st1].
    + assert (Habs : ~ In (id incentive) (map fst (results_by_incentive acc))).
      { intros Hin. apply (Hkeys _ Hin). now left. }
      apply IH in H; [|exact Hids'|].
      * simpl in H. rewrite (@set_result_absent _ _ _ Habs), length_app in H.
        simpl in H. lia.
      * simpl. rewrite (@set_result_absent _ _ _ Habs), map_app. simpl.
        intros k Hk. apply in_app_or in Hk as [Hk | [<- | []]]; [|exact Hnotin].
        intros Hin. apply (Hkeys _ Hk). now right.
    + apply IH in H; [simpl in H; lia | exact Hids'|].
      simpl. intros k Hk Hin. apply (Hkeys _ Hk). now right.
Qed.

(** X8. Whatever the ceiling, [batch_match_all_incentives] leaves the
    incentives as they were, makes at most one scoring call per incentive,
    and reports, under distinct keys that are ids of incentives, at most
    five matches each; when the incentives have distinct ids the report has
    one entry per success. Unless the ceiling is negative, every incentive
    is counted once, as a success or as a failure: an exception raised for
    one incentive does not end the batch. *)
Theorem batch_accounts_for_every_incentive (max_cost_total : option float)
  (save_to_db : bool) (st : State) :
  let '(summary, st') := batch_match_all_incentives B E max_cost_total save_to_db st in
  incentives st' = incentives st
  /\ total_incentives summary = List.length (incentives st)
  /\ (llm_calls st' <= llm_calls st + List.length (incentives st))%nat
  /\ NoDup (map fst (summary_results summary))
  /\ Forall (fun kv => In (fst kv) (map id (incentives st))
                       /\ (fst (snd kv) <= 5)%nat)
            (summary_results summary)
  /\ (NoDup (map id (incentives st)) ->
      List.length (summary_results summary) = successful_matches summary)
  /\ (stops_at_zero max_cost_total = false ->
      (successful_matches summary + failed_matches summary
       = total_incentives summary)%nat).
Proof.
  unfold batch_match_all_incentives.
  destruct (batch_loop B E max_cost_total save_to_db (incentives st)
              {| total_cost := 0; successful := 0; failed := 0;
                 results_by_incentive := [] |} st) as [acc st1] eqn:Hl.
  simpl.
  pose proof (@batch_loop_effect _ _ _ _ _ _ _ Hl) as (Hi & Hc & _ & Hnd & Hin).
  simpl in Hnd, Hin.
  split; [exact Hi|]. split; [reflexivity|]. split; [lia|].
  split; [apply Hnd; constructor|]. split; [|split].
  - apply Forall_forall. intros kv Hkv.
    destruct (Hin kv Hkv) as [[]|H]. exact H.
  - intros Hids.
    eapply batch_loop_entries in Hl; [|exact Hids|intros k []].
    simpl in Hl. lia.
  - intros Hstop.
    eapply batch_loop_counts in Hl; [exact Hl | exact Hstop | reflexivity].
Qed.

(** X9. With [save_to_db] false the batch is a dry run: whatever the
    ceiling and the scoring responses, the tables are left as they were
    and no save is started. *)
Theorem batch_dry_run_writes_nothing (max_cost_total : option float) (st : State) :
  let st' := snd (batch_match_all_incentives B E max_cost_total false st) in
  tables st' = tables st /\ saves st' = saves st.
Proof.
  unfold batch_match_all_incentives.
  destruct (batch_loop B E max_cost_total false (incentives st)
              {| total_cost := 0; successful := 0; failed := 0;
                 results_by_incentive := [] |} st) as [acc st1] eqn:Hl.
  simpl.
  pose proof (@batch_loop_effect _ _ _ _ _ _ _ Hl) as (_ & _ & Hdry & _).
  now apply Hdry.
Qed.

End ServiceEffects.

(* ------------------------------------------------------------------ *)
(** ** The rows a batch leaves, and the match-generation tool *)

Section BatchRows.
Import Py Orchestrator.
Local Open Scope Z_scope.
Variable B : builtins.
Variable E : Capabilities.

(** The [try] body for one incentive touches the rows of that incentive
    only, and adds at most five. *)
Lemma match_and_save_rows (max_cost_total : option float) (save_to_db : bool)
  (total : float) (incentive : IncentiveRow) (st st' : State)
  (r : res (list Ranker.MatchingResult)) :
  match_and_save B E max_cost_total save_to_db total incentive st = (r, st') ->
  NoDup (Store.pairs (tables st)) ->
  NoDup (Store.pairs (tables st'))
  /\ (forall j, j <> id incentive ->
        Store.rows_of j (tables st') = Store.rows_of j (tables st))
  /\ (List.length (Store.rows_of (id incentive) (tables st'))
      <= List.length (Store.rows_of (id incentive) (tables st)) + 5)%nat.
Proof.
  intros H Hnd.
  pose proof (@match_and_save_effect B E _ _ _ _ _ _ _ H) as (_ & _ & Hlen & _).
  unfold match_and_save in H.
  set (budget := py_min 0.30%float _) in H. clearbody budget.
  destruct (match_companies_for_incentive B E (id incentive) 20 budget st)
    as [r1 st1] eqn:Hmatch.
  pose proof (@match_keeps_tables B E _ _ _ _ _ _ Hmatch) as (Ht & _ & _).
  assert (Hsame : forall st2, tables st2 = tables st ->
            NoDup (Store.pairs (tables st2))
            /\ (forall j, j <> id incentive ->
                  Store.rows_of j (tables st2) = Store.rows_of j (tables st))
            /\ (List.length (Store.rows_of (id incentive) (tables st2))
                <= List.length (Store.rows_of (id incentive) (tables st)) + 5)%nat).
  { intros st2 ->. repeat split; auto. lia. }
  destruct r1 as [ms|e]; [|injection H as _ <-; now apply Hsame].
  destruct save_to_db; [|injection H as _ <-; now apply Hsame].
  destruct ms as [|m ms']; [injection H as _ <-; now apply Hsame|].
  unfold save in H.
  destruct (Store.save_matches_to_database (clock E (saves st1)) (id incentive)
              (m :: ms') (tables st1)) as [rs t] eqn:Hsave.
  rewrite Ht in Hsave.
  assert (Hms : (List.length (m :: ms') <= 5)%nat).
  { unfold match_companies_for_incentive in Hmatch.
    destruct (get_incentive_by_id st (id incentive)); [|discriminate].
    destruct (find_similar_companies E st (id incentive) 20) as [|c cs];
      [discriminate|].
    destruct (complete E (llm_calls st)) as [rd|e]; [|discriminate].
    destruct (Ranker._llm_rank_candidates B (c :: cs) 5 rd) as [[rs' cost]|e] eqn:Hr;
      [|discriminate].
    injection Hmatch as <- _.
    now destruct (@rank_call_shape B _ _ _ _ _ Hr) as (Hl & _). }
  destruct (@save_rows_bound _ _ _ _ _ _ Hnd Hsave) as (Hnd' & Hbound).
  assert (Hgoal : NoDup (Store.pairs t)
            /\ (forall j, j <> id incentive ->
                  Store.rows_of j t = Store.rows_of j (tables st))
            /\ (List.length (Store.rows_of (id incentive) t)
                <= List.length (Store.rows_of (id incentive) (tables st)) + 5)%nat).
  { split; [exact Hnd'|]. split; [|lia].
    intros j Hj. eapply save_elsewhere; eassumption. }
  destruct rs as [u|e]; injection H as _ <-; exact Hgoal.
Qed.

Lemma batch_loop_rows (max_cost_total : option float) (save_to_db : bool)
  (todo : list IncentiveRow) :
  NoDup (map id todo) ->
  forall (acc acc' : Tally) (st st' : State),
    batch_loop B E max_cost_total save_to_db todo acc st = (acc', st') ->
    NoDup (Store.pairs (tables st)) ->
    NoDup (Store.pairs (tables st'))
    /\ (forall j, ~ In j (map id todo) ->
          Store.rows_of j (tables st') = Store.rows_of j (tables st))
    /\ (forall j, (List.length (Store.rows_of j (tables st'))
                   <= List.length (Store.rows_of j (tables st)) + 5)%nat).
Proof.
  induction todo as [|incentive rest IH]; intros Hids acc acc' st st' H Hnd;
    simpl in H.
  - injection H as _ <-. repeat split; auto. intros j. lia.
  - destruct (truthy max_cost_total &&
              match max_cost_total with
              | Some c => PrimFloat.leb c (total_cost acc)
              | None => false
              end)%bool.
    { injection H as _ <-. repeat split; auto. intros j. lia. }
    inversion Hids as [|? ? Hnotin Hids']; subst.
    destruct (match_and_save B E max_cost_total save_to_db (total_cost acc)
                incentive st) as [r st1] eqn:Hms.
    destruct (@match_and_save_rows _ _ _ _ _ _ _ Hms Hnd) as (Hnd1 & Hother & Hown).
    assert (Hrest : NoDup (Store.pairs (tables st'))
              /\ (forall j, ~ In j (map id rest) ->
                    Store.rows_of j (tables st') = Store.rows_of j (tables st1))
              /\ (forall j, (List.length (Store.rows_of j (tables st'))
                             <= List.length (Store.rows_of j (tables st1)) + 5)%nat)).
    { destruct r as [matches|e]; eapply IH; eauto. }
    destruct Hrest as (Hnd' & Hout & Hin).
    split; [exact Hnd'|]. split.
    + intros j Hj. simpl in Hj.
      rewrite Hout by tauto. apply Hother. intros ->. tauto.
    + intros j. destruct (Z.eq_dec j (id incentive)) as [->|Hj].
      * rewrite Hout by exact Hnotin. exact Hown.
      * rewrite <- (Hother j Hj). apply Hin.
Qed.

(** X10. When the incentives have distinct ids, one run of
    [batch_match_all_incentives] adds at most five rows to any incentive,
    whatever the scoring responses and whichever saves fail, keeps the
    (incentive, company) pairs unique, and leaves alone the rows whose
    incentive is not in the list. *)
Theorem batch_adds_at_most_five_rows (max_cost_total : option float)
  (save_to_db : bool) (st : State) :
  NoDup (map id (incentives st)) ->
  NoDup (Store.pairs (tables st)) ->
  let st' := snd (batch_match_all_incentives B E max_cost_total save_to_db st) in
  NoDup (Store.pairs (tables st'))
  /\ (forall j, (List.length (Store.rows_of j (tables st'))
                 <= List.length (Store.rows_of j (tables st)) + 5)%nat)
  /\ (forall j, ~ In j (map id (incentives st)) ->
        Store.rows_of j (tables st') = Store.rows_of j (tables st)).
Proof.
  intros Hids Hnd. unfold batch_match_all_incentives.
  destruct (batch_loop B E max_cost_total save_to_db (incentives st)
              {| total_cost := 0; successful := 0; failed := 0;
                 results_by_incentive := [] |} st) as [acc st1] eqn:Hl.
  simpl.
  destruct (@batch_loop_rows _ _ _ Hids _ _ _ _ Hl Hnd) as (H1 & H2 & H3).
  auto.
Qed.

(** X11. [generate_matches_for_all_incentives] never reports success:
    after the whole batch has run, with its scoring calls and its writes,
    reading [matches_per_incentive] from the summary raises a [KeyError]
    (the summary has no such key), and the tool returns the error reply. *)
Theorem match_generation_always_reports_failure (force_refresh : bool) (st : State) :
  let cleared :=
    (Nat.ltb 0 (List.length (Store.matches (tables st))) && force_refresh)%bool in
  Tools.generate_matches_for_all_incentives B E force_refresh st
  = (Tools.Failure "Failed to generate matches: 'matches_per_incentive'",
     snd (batch_match_all_incentives B E None true
            (if cleared then Tools.clear_all_matches st else st))).
Proof.
  unfold Tools.generate_matches_for_all_incentives.
  destruct (Nat.ltb 0 (List.length (Store.matches (tables st)))), force_refresh;
    simpl;
    match goal with
    | |- context [batch_match_all_incentives B E None true ?s] =>
        destruct (batch_match_all_incentives B E None true s) as [summary st1]
    end; reflexivity.
Qed.

(** X12. With [force_refresh] the tool leaves at most five rows for every
    incentive, whatever was stored before, provided the incentives have
    distinct ids. *)
Theorem forced_refresh_leaves_at_most_five (st : State) :
  NoDup (map id (incentives st)) ->
  let st' := snd (Tools.generate_matches_for_all_incentives B E true st) in
  forall j, (List.length (Store.rows_of j (tables st')) <= 5)%nat.
Proof.
  intros Hids st' j. subst st'.
  unfold Tools.generate_matches_for_all_incentives.
  set (start := if (Nat.ltb 0 (List.length (Store.matches (tables st))) && true)%bool
                then ("force_refresh", Tools.clear_all_matches st)
                else if Nat.ltb 0 (List.length (Store.matches (tables st)))
                     then ("refresh_existing", st) else ("generate_new", st)).
  assert (Hstart : incentives (snd start) = incentives st
                   /\ Store.matches (tables (snd start)) = []).
  { unfold start.
    destruct (Store.matches (tables st)) as [|row rows] eqn:Hm; simpl; auto. }
  destruct start as [action st0]. simpl in Hstart. destruct Hstart as (Hi & Hm).
  destruct (batch_match_all_incentives B E None true st0) as [summary st1] eqn:Hb.
  assert (Hst1 : snd (batch_match_all_incentives B E None true st0) = st1)
    by now rewrite Hb.
  assert (Hrows : (List.length (Store.rows_of j (tables st1)) <= 5)%nat).
  { subst st1. unfold batch_match_all_incentives.
    destruct (batch_loop B E None true (incentives st0)
                {| total_cost := 0; successful := 0; failed := 0;
                   results_by_incentive := [] |} st0) as [acc st2] eqn:Hl.
    simpl.
    rewrite <- Hi in Hids.
    assert (Hnd : NoDup (Store.pairs (tables st0)))
      by (unfold Store.pairs; rewrite Hm; constructor).
    destruct (@batch_loop_rows _ _ _ Hids _ _ _ _ Hl Hnd) as (_ & _ & H3).
    specialize (H3 j). unfold Store.rows_of in H3 at 2. rewrite Hm in H3.
    simpl in H3. lia. }
  simpl. exact Hrows.
Qed.

End BatchRows.

Section BatchRowsExamples.
Import Py Orchestrator Examples ToolExamples.
Local Open Scope Z_scope.

(** X10 at the two embedded incentives and an empty table, seen from
    incentive 1. *)
Lemma batch_adds_at_most_five_rows_witness :
  (List.length
     (Store.rows_of 1
        (tables (snd (batch_match_all_incentives PyBuiltins.python steady_service
                        None true both_embedded))))
   <= List.length (Store.rows_of 1 (tables both_embedded)) + 5)%nat.
Proof.
  assert (Hids : NoDup (map id (Orchestrator.incentives both_embedded))).
  { simpl. repeat constructor; simpl; intuition discriminate. }
  assert (Hnd : NoDup (Store.pairs (tables both_embedded))) by constructor.
  destruct (@batch_adds_at_most_five_rows PyBuiltins.python steady_service None true
              both_embedded Hids Hnd) as (_ & H & _).
  exact (H 1).
Defined.

(** X12 at a state that already holds two rows for incentive 1. *)
Lemma forced_refresh_leaves_at_most_five_witness :
  List.length (Store.matches (tables stored)) = 2%nat
  /\ (List.length
        (Store.rows_of 1
           (tables (snd (Tools.generate_matches_for_all_incentives PyBuiltins.python
                           steady_service true stored))))
      <= 5)%nat.
Proof.
  split; [vm_compute; reflexivity|].
  assert (Hids : NoDup (map id (Orchestrator.incentives stored))).
  { simpl. repeat constructor; simpl; intuition discriminate. }
  exact (@forced_refresh_leaves_at_most_five PyBuiltins.python steady_service stored
           Hids 1).
Defined.

End BatchRowsExamples.

(* ------------------------------------------------------------------ *)
(** ** The pre-filter: what the stages select and how many *)

Section FilterSelection.
Import Py PreFilter ListFacts PreFilterFacts Notions.
Local Open Scope list_scope.
Variable B : builtins.
Variable random_sample : list CompanyModel -> nat -> list CompanyModel.

Lemma subsequence_refl {A} (l : list A) : subsequence l l.
Proof. induction l; constructor; assumption. Qed.

Lemma subsequence_nil {A} (l : list A) : subsequence [] l.
Proof. induction l; constructor; assumption. Qed.

Lemma subsequence_filter {A} (f : A -> bool) (l : list A) : subsequence (filter f l) l.
Proof.
  induction l as [|x l IH]; simpl; [constructor|].
  destruct (f x); constructor; exact IH.
Qed.

Lemma subsequence_trans {A} (l1 l2 l3 : list A) :
  subsequence l1 l2 -> subsequence l2 l3 -> subsequence l1 l3.
Proof.
  intros H12 H23. revert l1 H12.
  induction H23 as [|x l2 l3 H IH|x l2 l3 H IH]; intros l1 H12.
  - exact H12.
  - constructor. now apply IH.
  - inversion H12; subst; constructor; now apply IH.
Qed.

Lemma subsequence_In {A} (l1 l2 : list A) (x : A) :
  subsequence l1 l2 -> In x l1 -> In x l2.
Proof.
  induction 1 as [|y l1 l2 H IH|y l1 l2 H IH]; simpl; intuition.
Qed.

Lemma subsequence_length {A} (l1 l2 : list A) :
  subsequence l1 l2 -> (List.length l1 <= List.length l2)%nat.
Proof. induction 1; simpl; lia. Qed.

Lemma subsequence_NoDup {A} (l1 l2 : list A) :
  subsequence l1 l2 -> NoDup l2 -> NoDup l1.
Proof.
  induction 1 as [|y l1 l2 H IH|y l1 l2 H IH]; intros Hnd.
  - constructor.
  - inversion Hnd; subst. auto.
  - inversion Hnd as [|? ? Hnotin Hnd']; subst. constructor; [|auto].
    intros Hin. apply Hnotin. eapply subsequence_In; eassumption.
Qed.

Lemma subsequence_firstn {A} (n : nat) (l : list A) : subsequence (firstn n l) l.
Proof.
  revert n. induction l as [|x l IH]; intros [|n]; simpl.
  - constructor.
  - constructor.
  - apply subsequence_nil.
  - apply sub_keep. apply IH.
Qed.

(** The walk over the sector table appends the company at most once. *)
Lemma sector_keyword_walk_cases (table : list (string * list string))
  (tl : list string) (cae : string) (company : CompanyModel) :
  forall filtered,
    sector_keyword_walk B table tl cae company filtered = filtered
    \/ sector_keyword_walk B table tl cae company filtered = filtered ++ [company].
Proof.
  induction table as [|[sector keywords] table IH]; intros filtered; simpl.
  - now left.
  - destruct (str_in sector tl); [|apply IH].
    destruct (existsb (fun keyword => contains cae (str_lower B keyword)) keywords).
    + assert (Hin : company_in company (filtered ++ [company]) = true).
      { apply company_in_iff. apply in_or_app. right. now left. }
      rewrite Hin. now right.
    + destruct (company_in company filtered); [now left | apply IH].
Qed.

Lemma sector_loop_selects (tl : list string) (companies : list CompanyModel) :
  forall filtered,
    exists selected,
      sector_loop B tl companies filtered = filtered ++ selected
      /\ subsequence selected companies.
Proof.
  induction companies as [|company rest IH]; intros filtered; cbn [sector_loop].
  - exists []. rewrite app_nil_r. split; [reflexivity | constructor].
  - assert (Hskip : exists selected,
               sector_loop B tl rest filtered = filtered ++ selected
               /\ subsequence selected (company :: rest)).
    { destruct (IH filtered) as (sel & Hs & Hsub).
      exists sel. split; [exact Hs | now constructor]. }
    assert (Hkeep : exists selected,
               sector_loop B tl rest (filtered ++ [company]) = filtered ++ selected
               /\ subsequence selected (company :: rest)).
    { destruct (IH (filtered ++ [company])) as (sel & Hs & Hsub).
      exists (company :: sel). rewrite Hs, <- app_assoc. simpl.
      split; [reflexivity | now constructor]. }
    destruct (cae_primary_label company) as [[|a label]|]; try exact Hskip.
    destruct (existsb _ tl); [exact Hkeep|].
    destruct (sector_keyword_walk_cases sector_keywords tl
                (str_lower B (String a label)) company filtered) as [-> | ->];
      assumption.
Qed.

(** X13. Each filtering stage only selects: [_filter_by_sector],
    [_filter_by_keywords] and [_filter_by_focus_areas] return the companies
    they keep in their input order, each at most once per occurrence, and
    nothing that was not in the input. *)
Theorem stages_select_in_order (companies : list CompanyModel)
  (criteria : list string) :
  subsequence (_filter_by_sector B companies criteria) companies
  /\ subsequence (_filter_by_keywords B companies criteria) companies
  /\ subsequence (_filter_by_focus_areas B companies criteria) companies.
Proof.
  unfold _filter_by_sector, _filter_by_keywords, _filter_by_focus_areas.
  destruct criteria as [|k ks].
  - repeat split; apply subsequence_refl.
  - repeat split; try apply subsequence_filter.
    destruct (sector_loop_selects (lowered B (k :: ks)) companies [])
      as (selected & -> & Hsub).
    exact Hsub.
Qed.

Lemma insert_desc_perm {A K} (key : A -> K) (lt : K -> K -> bool) (x : A) (l : list A) :
  Permutation (insert_desc key lt x l) (x :: l).
Proof.
  induction l as [|y l IH]; simpl; [reflexivity|].
  destruct (lt (key x) (key y)); [|reflexivity].
  rewrite IH. apply perm_swap.
Qed.

Lemma sort_desc_perm {A K} (key : A -> K) (lt : K -> K -> bool) (l : list A) :
  Permutation (sort_desc key lt l) l.
Proof.
  induction l as [|x l IH]; simpl; [reflexivity|].
  rewrite insert_desc_perm. now constructor.
Qed.

Lemma rank_and_limit_cut (companies : list CompanyModel)
  (incentive : IncentiveModel) (limit : nat) :
  let returned := _rank_and_limit_candidates B companies incentive limit in
  List.length returned = Nat.min limit (List.length companies)
  /\ exists cut, Permutation (returned ++ cut) companies.
Proof.
  unfold _rank_and_limit_candidates.
  set (words := word_set _).
  set (scored := map (fun company => (relevance_score B words company, company))
                   companies).
  set (sorted := sort_desc fst PrimFloat.ltb scored).
  assert (Hperm : Permutation (map snd sorted) companies).
  { unfold sorted. rewrite sort_desc_perm. unfold scored.
    rewrite map_map. simpl. now rewrite map_id. }
  cbv zeta. split.
  - rewrite length_map, length_firstn.
    rewrite <- (Permutation_length Hperm), length_map. reflexivity.
  - exists (map snd (skipn limit sorted)).
    now rewrite <- map_app, firstn_skipn.
Qed.

(** X14. [_rank_and_limit_candidates] returns exactly
    [min(limit, len(companies))] companies, and they are a selection from
    the input without repetition: together with the companies that were cut
    they are a rearrangement of the input. In particular, with a limit of
    at least the number of companies nothing is cut. *)
Theorem rank_and_limit_selects (companies : list CompanyModel)
  (incentive : IncentiveModel) (limit : nat) :
  let returned := _rank_and_limit_candidates B companies incentive limit in
  List.length returned = Nat.min limit (List.length companies)
  /\ (exists cut, Permutation (returned ++ cut) companies)
  /\ ((List.length companies <= limit)%nat -> Permutation returned companies).
Proof.
  destruct (rank_and_limit_cut companies incentive limit) as (Hlen & cut & Hperm).
  cbv zeta. split; [exact Hlen|]. split; [now exists cut|].
  intros Hle.
  assert (Hcut : cut = []).
  { apply Permutation_length in Hperm. rewrite length_app, Hlen in Hperm.
    destruct cut; [reflexivity | simpl in Hperm; lia]. }
  subst cut. now rewrite app_nil_r in Hperm.
Qed.

(** What survives stages 1 to 3 is a sub-sequence of the input. *)
Lemma stages_subsequence (companies : list CompanyModel) (criteria : Criteria) :
  let s1 := match crit_target_sectors criteria with
            | [] => companies
            | _ => _filter_by_sector B companies (crit_target_sectors criteria)
            end in
  let s2 := match relevant_keywords criteria with
            | [] => s1
            | _ => _filter_by_keywords B s1 (relevant_keywords criteria)
            end in
  forall focus,
    subsequence (match focus with
                 | [] => s2
                 | _ => _filter_by_focus_areas B s2 focus
                 end) companies.
Proof.
  intros s1 s2 focus.
  assert (H1 : subsequence s1 companies).
  { unfold s1, _filter_by_sector.
    destruct (crit_target_sectors criteria) as [|k ks]; [apply subsequence_refl|].
    destruct (sector_loop_selects (lowered B (k :: ks)) companies [])
      as (selected & -> & Hsub).
    exact Hsub. }
  assert (H2 : subsequence s2 companies).
  { unfold s2, _filter_by_keywords.
    destruct (relevant_keywords criteria); [exact H1|].
    eapply subsequence_trans; [apply subsequence_filter | exact H1]. }
  unfold _filter_by_focus_areas.
  destruct focus; [exact H2|].
  eapply subsequence_trans; [apply subsequence_filter | exact H2].
Qed.

Lemma surviving_size (companies : list CompanyModel) (incentive : IncentiveModel)
  (target_count : nat) :
  (List.length (surviving B companies incentive target_count) <= target_count)%nat
  /\ (NoDup companies -> NoDup (surviving B companies incentive target_count)).
Proof.
  unfold surviving.
  set (criteria := _extract_incentive_criteria B incentive).
  set (focus := (if crit_innovation_focus criteria then innovation_keywords else [])
                ++ (if crit_sustainability_focus criteria then sustainability_keywords else [])
                ++ (if crit_digital_focus criteria then digital_keywords else [])).
  pose proof (stages_subsequence companies criteria focus) as Hsub.
  cbv zeta in Hsub |- *.
  set (s3 := match focus with [] => _ | _ => _ end) in *.
  destruct (Nat.ltb target_count (List.length s3)) eqn:E.
  - destruct (rank_and_limit_cut s3 incentive target_count) as (Hlen & cut & Hperm).
    split; [rewrite Hlen; lia|].
    intros Hnd. apply (subsequence_NoDup Hsub) in Hnd.
    eapply Permutation_NoDup in Hnd; [|symmetry; exact Hperm].
    eapply NoDup_app_remove_r. exact Hnd.
  - apply Nat.ltb_ge in E. split; [exact E|].
    intros Hnd. exact (subsequence_NoDup Hsub Hnd).
Qed.

(** The list [_expand_candidate_pool] returns. *)
Lemma expand_spec (companies : list CompanyModel) (incentive : IncentiveModel)
  (target_count : nat) :
  let matched :=
    firstn target_count
      (filter (broad_match B (_extract_general_keywords B incentive)) companies) in
  let unselected := filter (fun c => negb (company_in c matched)) companies in
  let missing := (target_count - List.length matched)%nat in
  _expand_candidate_pool B random_sample companies incentive target_count
  = if Nat.ltb (List.length matched) (target_count / 2)
    then if Nat.ltb missing (List.length unselected)
         then matched ++ random_sample unselected missing
         else matched ++ unselected
    else matched.
Proof.
  unfold _expand_candidate_pool. rewrite broad_scan_spec. simpl.
  rewrite Nat.sub_0_r. reflexivity.
Qed.

Lemma filter_cover {A} (f g : A -> bool) (l : list A) :
  (forall x, In x l -> f x = true \/ g x = true) ->
  (List.length l <= List.length (filter f l) + List.length (filter g l))%nat.
Proof.
  induction l as [|x l IH]; intros H; simpl; [lia|].
  assert (Hl : forall y, In y l -> f y = true \/ g y = true)
    by (intros y Hy; apply H; now right).
  specialize (IH Hl).
  destruct (H x (or_introl eq_refl)) as [Hx|Hx]; rewrite Hx; simpl;
    destruct (f x), (g x); simpl; lia.
Qed.

(** X15. Given a generator that draws [k] elements when asked for [k] of
    a larger population, [filter_companies_for_incentive] never returns
    more than [target_count] companies, and never fewer than half the
    target unless the whole pool is smaller than that, in which case no
    company of the pool is lost. *)
Theorem filter_returns_between_half_and_target (companies : list CompanyModel)
  (incentive : IncentiveModel) (target_count : nat) :
  (forall population k,
     (k <= List.length population)%nat ->
     List.length (random_sample population k) = k) ->
  let returned :=
    filter_companies_for_incentive B random_sample companies incentive target_count in
  (List.length returned <= target_count)%nat
  /\ (Nat.min (target_count / 2) (List.length companies)
      <= List.length returned)%nat.
Proof.
  intros Hsample. unfold filter_companies_for_incentive.
  destruct (surviving_size companies incentive target_count) as (Hs & _).
  pose proof (Nat.Div0.div_le_upper_bound target_count 2 target_count) as Hhalf.
  assert (Hhalf' : (target_count / 2 <= target_count)%nat) by (apply Hhalf; lia).
  cbv zeta.
  destruct (Nat.ltb (List.length (surviving B companies incentive target_count))
              (target_count / 2)) eqn:E.
  2:{ apply Nat.ltb_ge in E. split; [exact Hs | lia]. }
  rewrite expand_spec. cbv zeta.
  set (broad := filter (broad_match B (_extract_general_keywords B incentive)) companies).
  set (matched := firstn target_count broad).
  set (unselected := filter (fun c => negb (company_in c matched)) companies).
  assert (Hm : (List.length matched <= target_count)%nat)
    by (unfold matched; rewrite length_firstn; lia).
  destruct (Nat.ltb (List.length matched) (target_count / 2)) eqn:Em.
  2:{ apply Nat.ltb_ge in Em. split; [exact Hm | lia]. }
  apply Nat.ltb_lt in Em.
  destruct (Nat.ltb (target_count - List.length matched) (List.length unselected))
    eqn:Eu.
  - apply Nat.ltb_lt in Eu.
    rewrite length_app, Hsample by lia. split; lia.
  - apply Nat.ltb_ge in Eu. rewrite length_app. split; [lia|].
    assert (Hall : matched = broad).
    { unfold matched. apply firstn_all2.
      unfold matched in Em. rewrite length_firstn in Em. lia. }
    assert (Hcover : (List.length companies
                      <= List.length broad + List.length unselected)%nat).
    { unfold broad, unselected. apply filter_cover. intros c Hc.
      destruct (broad_match B (_extract_general_keywords B incentive) c) eqn:Eb;
        [now left|].
      right. destruct (company_in c matched) eqn:Ein; [|reflexivity].
      apply company_in_iff in Ein. rewrite Hall in Ein.
      apply filter_In in Ein as [_ Ein]. congruence. }
    rewrite Hall. lia.
Qed.

(** X16. When the input companies are pairwise distinct and the generator
    draws distinct elements of its population,
    [filter_companies_for_incentive] returns pairwise distinct companies,
    all of them from the input. *)
Theorem filter_returns_distinct_input_companies (companies : list CompanyModel)
  (incentive : IncentiveModel) (target_count : nat) :
  (forall population k,
     incl (random_sample population k) population
     /\ (NoDup population -> NoDup (random_sample population k))) ->
  NoDup companies ->
  let returned :=
    filter_companies_for_incentive B random_sample companies incentive target_count in
  NoDup returned /\ incl returned companies.
Proof.
  intros Hsample Hnd. unfold filter_companies_for_incentive. cbv zeta.
  destruct (Nat.ltb (List.length (surviving B companies incentive target_count))
              (target_count / 2)).
  2:{ split; [now apply surviving_size|].
      intros c Hc. eapply surviving_incl; exact Hc. }
  rewrite expand_spec. cbv zeta.
  set (broad := filter (broad_match B (_extract_general_keywords B incentive)) companies).
  set (matched := firstn target_count broad).
  set (unselected := filter (fun c => negb (company_in c matched)) companies).
  assert (Hsub : subsequence matched companies).
  { eapply subsequence_trans; [apply subsequence_firstn | apply subsequence_filter]. }
  assert (Hm : NoDup matched) by exact (subsequence_NoDup Hsub Hnd).
  assert (Hmi : incl matched companies)
    by (intros c Hc; eapply subsequence_In; eassumption).
  assert (Hu : NoDup unselected) by (apply NoDup_filter; exact Hnd).
  assert (Hun : forall c, In c unselected -> In c companies /\ ~ In c matched).
  { intros c Hc. apply filter_In in Hc as [Hc Hn]. split; [exact Hc|].
    intros Hin. apply company_in_iff in Hin. rewrite Hin in Hn. discriminate. }
  assert (Happ : forall fill,
            NoDup fill -> incl fill unselected ->
            NoDup (matched ++ fill) /\ incl (matched ++ fill) companies).
  { intros fill Hf Hi. split.
    - apply NoDup_app; [exact Hm | exact Hf|].
      intros c Hc Hc'. apply (Hun c); auto.
    - apply incl_app; [exact Hmi|]. intros c Hc. now apply Hun, Hi. }
  destruct (Nat.ltb (List.length matched) (target_count / 2)); [|auto].
  destruct (Nat.ltb (target_count - List.length matched) (List.length unselected)).
  - destruct (Hsample unselected (target_count - List.length matched)%nat)
      as (Hi & Hd).
    apply Happ; auto.
  - apply Happ; [exact Hu | apply incl_refl].
Qed.

Lemma count_word_keys (w : string) (counts : list (string * nat)) :
  map fst (count_word w counts)
  = if str_in w (map fst counts) then map fst counts else map fst counts ++ [w].
Proof.
  unfold str_in. induction counts as [|[w' n] counts IH]; simpl; [reflexivity|].
  destruct (String.eqb w w'); simpl; [reflexivity|].
  rewrite IH. now destruct (existsb (String.eqb w) (map fst counts)).
Qed.

Lemma str_in_iff (w : string) (l : list string) : str_in w l = true <-> In w l.
Proof.
  unfold str_in. rewrite existsb_exists. split.
  - intros (x & Hx & He). apply String.eqb_eq in He. now subst.
  - intros H. exists w. split; [exact H | apply String.eqb_refl].
Qed.

Lemma counter_keys (words : list string) :
  forall counts,
    NoDup (map fst counts) ->
    NoDup (map fst (fold_left (fun acc w => count_word w acc) words counts))
    /\ (forall w, In w (map fst (fold_left (fun acc w => count_word w acc) words counts))
                  <-> In w (map fst counts) \/ In w words).
Proof.
  induction words as [|w0 words IH]; intros counts Hnd; simpl.
  - split; [exact Hnd|]. intros w. tauto.
  - assert (Hnd' : NoDup (map fst (count_word w0 counts))).
    { rewrite count_word_keys. destruct (str_in w0 (map fst counts)) eqn:E;
        [exact Hnd|].
      apply NoDup_snoc; [exact Hnd|]. intros Hin. apply str_in_iff in Hin.
      congruence. }
    destruct (IH _ Hnd') as (H1 & H2). split; [exact H1|].
    intros w. rewrite H2, count_word_keys.
    destruct (str_in w0 (map fst counts)) eqn:E.
    + apply str_in_iff in E. split; [tauto|].
      intros [H|[<-|H]]; auto.
    + rewrite in_app_iff. simpl. tauto.
Qed.

(** X17. [_extract_keywords_from_text] returns at most twenty keywords,
    pairwise distinct; each of them is a word of the lowered text that is
    not a stop word and is longer than three characters. When the text
    holds at most twenty such distinct words, all of them are returned. *)
Theorem keywords_are_few_and_distinct (text : string) :
  let words := findall_words4 B (str_lower B text) in
  let kept :=
    filter (fun w => negb (str_in w stop_words) && Nat.ltb 3 (str_len B w)) words in
  let keywords := _extract_keywords_from_text B text in
  (List.length keywords <= 20)%nat
  /\ NoDup keywords
  /\ Forall (fun w => In w words /\ ~ In w stop_words /\ (3 < str_len B w)%nat)
            keywords
  /\ (text <> EmptyString -> (List.length (word_set kept) <= 20)%nat ->
      forall w, In w kept -> In w keywords).
Proof.
  intros words kept keywords.
  destruct text as [|a text'].
  { repeat split; simpl; try lia; try constructor. intros H. now elim H. }
  unfold keywords, _extract_keywords_from_text. fold words. fold kept.
  set (sorted := sort_desc snd Nat.ltb (counter kept)).
  destruct (counter_keys kept [] (NoDup_nil _)) as (Hnd & Hin).
  fold (counter kept) in Hnd, Hin.
  assert (Hperm : Permutation (map fst sorted) (map fst (counter kept))).
  { apply Permutation_map. apply sort_desc_perm. }
  split; [rewrite length_map, length_firstn; lia|].
  split.
  { rewrite <- firstn_map. apply NoDup_firstn.
    eapply Permutation_NoDup; [symmetry; exact Hperm | exact Hnd]. }
  split.
  { apply Forall_forall. intros w Hw.
    rewrite <- firstn_map in Hw. apply In_firstn in Hw.
    eapply Permutation_in in Hw; [|exact Hperm].
    apply Hin in Hw as [[]|Hw].
    apply filter_In in Hw as [Hw Hc].
    apply andb_prop in Hc as [Hstop Hlen].
    split; [exact Hw|]. split.
    - intros Hs. apply str_in_iff in Hs. rewrite Hs in Hstop. discriminate.
    - now apply Nat.ltb_lt in Hlen. }
  intros _ Hfew w Hw.
  rewrite <- firstn_map, firstn_all2.
  - eapply Permutation_in; [symmetry; exact Hperm|]. apply Hin. now right.
  - rewrite (Permutation_length Hperm). exact Hfew.
Qed.

End FilterSelection.

Section FilterSelectionExamples.
Import Py PreFilter ListFacts FilterExamples.
Local Open Scope list_scope.

(** X15 at three companies, a one-word incentive and a target of four. *)
Lemma filter_returns_between_half_and_target_witness :
  (List.length (filter_companies_for_incentive PyBuiltins.python first_draw
                  [limpa; obras; solar] solar_incentive 4) <= 4)%nat
  /\ (Nat.min (4 / 2) 3
      <= List.length (filter_companies_for_incentive PyBuiltins.python first_draw
                        [limpa; obras; solar] solar_incentive 4))%nat.
Proof.
  apply (@filter_returns_between_half_and_target PyBuiltins.python first_draw
           [limpa; obras; solar] solar_incentive 4).
  intros population k Hk. unfold first_draw. rewrite length_firstn. lia.
Defined.

(** X16 at the same input. *)
Lemma filter_returns_distinct_input_companies_witness :
  NoDup (filter_companies_for_incentive PyBuiltins.python first_draw
           [limpa; obras; solar] solar_incentive 4)
  /\ incl (filter_companies_for_incentive PyBuiltins.python first_draw
             [limpa; obras; solar] solar_incentive 4) [limpa; obras; solar].
Proof.
  apply (@filter_returns_distinct_input_companies PyBuiltins.python first_draw
           [limpa; obras; solar] solar_incentive 4).
  - intros population k. unfold first_draw. split.
    + intros c Hc. eapply In_firstn. exact Hc.
    + apply NoDup_firstn.
  - repeat constructor; simpl; intuition discriminate.
Defined.

End FilterSelectionExamples.

(* ------------------------------------------------------------------ *)
(** ** The running totals of a client *)

Section UsageTotals.
Import Py Usage.
Local Open Scope Z_scope.

Lemma after_totals (pricing : AIClient.Pricing) (calls : list (Z * Z)) :
  forall u,
    total_calls (after pricing calls u) = total_calls u + Z.of_nat (List.length calls)
    /\ prompt_tokens (after pricing calls u)
       = prompt_tokens u + sum (map fst calls)
    /\ completion_tokens (after pricing calls u)
       = completion_tokens u + sum (map snd calls)
    /\ total_tokens (after pricing calls u)
       = total_tokens u + sum (map fst calls) + sum (map snd calls).
Proof.
  induction calls as [|[p c] calls IH]; intros u.
  - unfold after. simpl. repeat split; lia.
  - unfold after in *. cbn [fold_left List.length map sum fold_right fst snd].
    destruct (IH (track pricing u p c)) as (H1 & H2 & H3 & H4).
    rewrite H1, H2, H3, H4. unfold sum. simpl. repeat split; lia.
Qed.

(** X18. Starting from fresh metrics, after any sequence of completions
    the tracked totals add up: [total_calls] is the number of completions,
    [prompt_tokens] and [completion_tokens] are the sums of the reported
    counts, and [total_tokens] is always their sum. *)
Theorem usage_totals_add_up (pricing : AIClient.Pricing) (calls : list (Z * Z)) :
  let u := after pricing calls fresh in
  total_calls u = Z.of_nat (List.length calls)
  /\ prompt_tokens u = sum (map fst calls)
  /\ completion_tokens u = sum (map snd calls)
  /\ total_tokens u = prompt_tokens u + completion_tokens u.
Proof.
  destruct (after_totals pricing calls fresh) as (H1 & H2 & H3 & H4).
  cbv zeta. rewrite H1, H2, H3, H4. simpl. repeat split; lia.
Qed.

End UsageTotals.

(* ------------------------------------------------------------------ *)
(** ** The status codes of [POST /matching/run] *)

Section RunEndpoint.
Import Py Orchestrator.
Local Open Scope Z_scope.
Variable B : builtins.
Variable E : Capabilities.
Variable env : Router.Env.

(** A save only fails with one of the two constraint violations. *)
Lemma save_raises_constraint (incentive : Z) (ms : list Ranker.MatchingResult) :
  forall (now : nat -> Z) (t t' : Store.Tables) (e : exn),
    Store.save_matches_to_database now incentive ms t = (Raise e, t') ->
    exn_kind e = CheckViolationError \/ exn_kind e = ForeignKeyViolationError.
Proof.
  induction ms as [|m ms IH]; intros now t t' e H; simpl in H; [discriminate|].
  destruct (Store.upsert (now 0%nat) incentive (Ranker.company_id m) (Ranker.score m)
              (Ranker.rank m) (Store.reasoning_column (Ranker.reasoning m)) t)
    as [[u|e1] t1] eqn:Hu.
  - eapply IH; exact H.
  - injection H as <- <-. unfold Store.upsert in Hu.
    destruct (negb (Store.check_score (Ranker.score m)
                    && Store.check_rank_position (Ranker.rank m))).
    { injection Hu as <- _. now left. }
    destruct (existsb (Store.same_pair incentive (Ranker.company_id m))
                (Store.matches t)); [discriminate|].
    destruct (negb (Store.mem incentive (Store.incentive_ids t)
                    && Store.mem (Ranker.company_id m) (Store.company_ids t)));
      [|discriminate].
    injection Hu as <- _. now right.
Qed.

(** What the match of a request can raise, and when. *)
Lemma match_for_request_raises (incentive_id : Z) (max_cost : option float)
  (st st1 : State) (e : exn) :
  (forall e', complete E (llm_calls st) = Raise e' ->
              Router.is_value_error (exn_kind e') = false) ->
  Router.match_for_request B E incentive_id max_cost st = (Raise e, st1) ->
  (get_incentive_by_id st incentive_id = None
   /\ e = incentive_not_found incentive_id /\ st1 = st)
  \/ (get_incentive_by_id st incentive_id <> None
      /\ Router.is_value_error (exn_kind e) = false).
Proof.
  intros Hllm H.
  assert (Hm : forall c r st',
            match_companies_for_incentive B E incentive_id 20 c st = (r, st') ->
            match r with
            | Ok _ => get_incentive_by_id st incentive_id <> None
            | Raise e0 =>
                (get_incentive_by_id st incentive_id = None
                 /\ e0 = incentive_not_found incentive_id /\ st' = st)
                \/ (get_incentive_by_id st incentive_id <> None
                    /\ Router.is_value_error (exn_kind e0) = false)
            end).
  { intros c r st' Hc. unfold match_companies_for_incentive in Hc.
    destruct (get_incentive_by_id st incentive_id) as [row|].
    2:{ injection Hc as <- <-. left. auto. }
    destruct (find_similar_companies E st incentive_id 20) as [|c0 cs].
    { injection Hc as <- _. discriminate. }
    destruct (complete E (llm_calls st)) as [rd|e0] eqn:Hrd.
    2:{ injection Hc as <- _. right. split; [discriminate|]. now apply Hllm. }
    destruct (Ranker._llm_rank_candidates B (c0 :: cs) 5 rd) as [[rs cost]|e0] eqn:Hr.
    { injection Hc as <- _. discriminate. }
    injection Hc as <- _. right. split; [discriminate|].
    apply rank_call_raises in Hr. unfold Ranker.handled in Hr.
    unfold Router.is_value_error. destruct (exn_kind e0); congruence. }
  unfold Router.match_for_request in H.
  destruct max_cost as [c|].
  - exact (Hm _ _ _ H).
  - destruct (match_companies_for_incentive B E incentive_id 20 0.30%float st)
      as [[ms|e0] st2] eqn:Hc.
    + pose proof (Hm _ _ _ Hc) as Hex.
      destruct (Nat.eqb (llm_calls st2) (llm_calls st)); [discriminate|].
      injection H as <- _. right. split; [exact Hex | reflexivity].
    + injection H as <- <-. exact (Hm _ _ _ Hc).
Qed.


End RunEndpoint.

Section RunEndpointExamples.
Import Py Examples EndpointExamples.
Local Open Scope Z_scope.


End RunEndpointExamples.

(* ------------------------------------------------------------------ *)
(** ** A negative ceiling *)

Section NegativeCeiling.
Import Py Orchestrator.
Local Open Scope Z_scope.
Variable B : builtins.
Variable E : Capabilities.

Lemma negative_stops_at_zero (c : float) :
  PrimFloat.ltb c 0 = true -> stops_at_zero (Some c) = true.
Proof.
  intros H. unfold stops_at_zero, truthy.
  rewrite ltb_spec in H. rewrite leb_spec, eqb_spec.
  unfold SFltb in H. unfold SFleb, SFeqb.
  destruct (SFcompare (Prim2SF c) (Prim2SF 0)) as [[| |]|]; try discriminate.
  reflexivity.
Qed.

(** X21. With a negative ceiling [batch_match_all_incentives] processes
    nothing: as soon as there is one incentive the loop stops before the
    first match, no scoring call and no write is made, and the summary
    counts no success and no failure. *)
Theorem negative_ceiling_processes_nothing (c : float) (save_to_db : bool)
  (st : State) :
  PrimFloat.ltb c 0 = true ->
  batch_match_all_incentives B E (Some c) save_to_db st
  = ({| total_incentives := List.length (incentives st);
        successful_matches := 0; failed_matches := 0;
        summary_total_cost := 0; summary_results := [] |}, st).
Proof.
  intros H. apply negative_stops_at_zero in H.
  unfold batch_match_all_incentives.
  destruct (incentives st) as [|incentive rest]; [reflexivity|].
  unfold stops_at_zero in H. cbn [batch_loop total_cost]. rewrite H. reflexivity.
Qed.

End NegativeCeiling.

Section NegativeCeilingExamples.
Import Py Orchestrator Examples.
Local Open Scope Z_scope.

(** X21 at a ceiling of minus one dollar. *)
Lemma negative_ceiling_processes_nothing_witness :
  batch_match_all_incentives PyBuiltins.python steady_service (Some (-1)%float) true
    both_embedded
  = ({| total_incentives := 2; successful_matches := 0; failed_matches := 0;
        summary_total_cost := 0; summary_results := [] |}, both_embedded).
Proof.
  apply (@negative_ceiling_processes_nothing PyBuiltins.python steady_service
           (-1)%float true both_embedded).
  reflexivity.
Defined.

End NegativeCeilingExamples.
